(** * Inference core of ai-inference-debug (src/inference.ts)

    A shallow embedding of [chatCompletion], [simpleInference] and
    [mcpInference], and the properties of the specification that concern them.

    Conventions.
    - A JavaScript string is the list of its UTF-16 code units, so that
      [slice], [substring], [length] and the regular expression of
      [simpleInference] count what the engine counts.
    - A value of type [any] is a [JsValue]; property reads, truthiness and
      [typeof] follow the language, including the [TypeError] raised when a
      property of [null] or [undefined] is read.
    - The two collaborators (the completion endpoint behind the OpenAI client
      and the tool executor of mcp.ts) are oracles indexed by the pass that
      calls them.
    - Arrays of messages live in a heap and are handled by reference, because
      the request's [messages] array is shared with the caller.
    - [core.info], [core.debug] and the other log calls write nothing that
      is read back.  What is kept of them is the conversion to strings of the
      substitutions of their template literals where these are taken from a
      reply, since such a conversion can throw. *)

From Stdlib Require Import ZArith NArith List String Ascii Bool Lia DecimalString.
From stdpp Require Import gmap.
Import ListNotations.

Local Open Scope N_scope.
Set Warnings "-register-all".

(** ** Strings *)

Definition code_unit := N.
Definition jsstring := list code_unit.

(** A source literal, as code units (the literals of this module are ASCII). *)
Definition lit (s : string) : jsstring :=
  List.map N_of_ascii (list_ascii_of_string s).

(** [String.prototype.startsWith]. *)
Fixpoint startsWith (prefix s : jsstring) : bool :=
  match prefix, s with
  | [], _ => true
  | p :: prefix', c :: s' => (p =? c) && startsWith prefix' s'
  | _ :: _, [] => false
  end.

(** [String.prototype.includes]. *)
Fixpoint includes (needle s : jsstring) : bool :=
  startsWith needle s ||
  match s with
  | [] => false
  | _ :: s' => includes needle s'
  end.

(** [s.slice(0, n)] for a non-negative [n]. *)
Definition slice0 (n : nat) (s : jsstring) : jsstring := firstn n s.

(** [s.substring(n)] for a non-negative [n]. *)
Definition substring_from (n : nat) (s : jsstring) : jsstring := skipn n s.

(** Decimal rendering of a natural number, as template literals print it. *)
Definition decimal (n : nat) : jsstring :=
  lit (NilEmpty.string_of_uint (Nat.to_uint n)).

(** ** Values of type [any] *)

(** A number is kept as the decimal fraction [mantissa * 10 ^ exponent10] that
    denotes it; the engine rounds it to binary64, which this module observes
    only through the test for zero. *)
Record number := { mantissa : Z; exponent10 : Z }.

Definition number_of_nat (n : nat) : number :=
  {| mantissa := Z.of_nat n; exponent10 := 0 |}.

(** The binary64 nearest to the fraction is zero: the fraction is zero, or it
    is at most 2^-1075 in magnitude (the tie with the least subnormal goes to
    the even neighbour, which is zero). *)
Definition number_is_zero (x : number) : bool :=
  (mantissa x =? 0)%Z ||
  ((exponent10 x <? 0)%Z &&
   (Z.abs (mantissa x) * 2 ^ 1075 <=? 10 ^ (- exponent10 x))%Z).

Inductive JsValue :=
| JUndefined
| JNull
| JBool (b : bool)
| JNum (x : number)
| JStr (s : jsstring)
| JArr (items : list JsValue)
| JObj (props : list (jsstring * JsValue)).

(** ToBoolean. *)
Definition truthy (v : JsValue) : bool :=
  match v with
  | JUndefined | JNull => false
  | JBool b => b
  | JNum x => negb (number_is_zero x)
  | JStr s => match s with [] => false | _ :: _ => true end
  | JArr _ | JObj _ => true
  end.

(** [a || b]. *)
Definition or_else (a b : JsValue) : JsValue := if truthy a then a else b.

(** [typeof v === 'object']. *)
Definition typeof_object (v : JsValue) : bool :=
  match v with
  | JNull | JArr _ | JObj _ => true
  | _ => false
  end.

(** [typeof v === 'string']. *)
Definition typeof_string (v : JsValue) : bool :=
  match v with JStr _ => true | _ => false end.

Definition nullish (v : JsValue) : bool :=
  match v with JUndefined | JNull => true | _ => false end.

(** The property names this module reads, and [id], which the contract of the
    tool executor mentions.  None of them is inherited from
    [Object.prototype]; [length] and [0] are the only ones arrays and strings
    answer to. *)
Inductive Property :=
| P_choices | P_message | P_content | P_tool_calls | P_length | P_0 | P_id
| P_usage | P_prompt_tokens | P_completion_tokens | P_total_tokens
| P_completion_tokens_details | P_reasoning_tokens.

Definition property_key (p : Property) : jsstring :=
  match p with
  | P_choices => lit "choices"
  | P_message => lit "message"
  | P_content => lit "content"
  | P_tool_calls => lit "tool_calls"
  | P_length => lit "length"
  | P_0 => lit "0"
  | P_id => lit "id"
  | P_usage => lit "usage"
  | P_prompt_tokens => lit "prompt_tokens"
  | P_completion_tokens => lit "completion_tokens"
  | P_total_tokens => lit "total_tokens"
  | P_completion_tokens_details => lit "completion_tokens_details"
  | P_reasoning_tokens => lit "reasoning_tokens"
  end.

Fixpoint jsstring_eqb (a b : jsstring) : bool :=
  match a, b with
  | [], [] => true
  | x :: a', y :: b' => (x =? y) && jsstring_eqb a' b'
  | _, _ => false
  end.

(** Own property of an object literal, by key. *)
Fixpoint own_property (key : jsstring) (props : list (jsstring * JsValue))
  : option JsValue :=
  match props with
  | [] => None
  | (k, v) :: rest => if jsstring_eqb k key then Some v else own_property key rest
  end.

(** [p in v], for a [v] whose [typeof] is ['object'] and that is not [null]. *)
Definition has_property (p : Property) (v : JsValue) : bool :=
  match v with
  | JObj props =>
      match own_property (property_key p) props with Some _ => true | None => false end
  | JArr items =>
      match p with
      | P_length => true
      | P_0 => match items with [] => false | _ :: _ => true end
      | _ => false
      end
  | _ => false
  end.

(** Errors that can be thrown: [Error] objects, as the engine, this module,
    the OpenAI client and the tool executor throw them.  Such an object
    always converts to a string, so that the log lines of the [catch] blocks,
    which print the error they rethrow, never throw themselves. *)
Inductive Exn :=
| Error_ (message : jsstring)      (* [new Error(message)] *)
| TypeError (message : jsstring).  (* raised by the engine *)

Inductive Result (A : Type) :=
| Ok (a : A)
| Throws (e : Exn).
Arguments Ok {A} a.
Arguments Throws {A} e.

Definition bind {A B} (r : Result A) (k : A -> Result B) : Result B :=
  match r with
  | Ok a => k a
  | Throws e => Throws e
  end.

Notation "'do' x <- r ; k" := (bind r (fun x => k))
  (at level 10, x name, r at level 100, k at level 200).

(** [v.p] and [v[0]]. *)
Definition get (v : JsValue) (p : Property) : Result JsValue :=
  match v with
  | JUndefined =>
      Throws (TypeError (lit "Cannot read properties of undefined (reading '"
                           ++ property_key p ++ lit "')"))
  | JNull =>
      Throws (TypeError (lit "Cannot read properties of null (reading '"
                           ++ property_key p ++ lit "')"))
  | JObj props =>
      Ok (match own_property (property_key p) props with
          | Some x => x
          | None => JUndefined
          end)
  | JArr items =>
      Ok (match p with
          | P_length => JNum (number_of_nat (length items))
          | P_0 => match items with [] => JUndefined | x :: _ => x end
          | _ => JUndefined
          end)
  | JStr s =>
      Ok (match p with
          | P_length => JNum (number_of_nat (length s))
          | P_0 => match s with [] => JUndefined | c :: _ => JStr [c] end
          | _ => JUndefined
          end)
  | JBool _ | JNum _ => Ok JUndefined
  end.

(** [v?.p]: never throws. *)
Definition get_opt (v : JsValue) (p : Property) : JsValue :=
  if nullish v then JUndefined
  else match get v p with
       | Ok x => x
       | Throws _ => JUndefined
       end.

(** [v === 0]. *)
Definition is_number_zero (v : JsValue) : bool :=
  match v with JNum x => number_is_zero x | _ => false end.

(** ToString succeeds on the value.  A primitive always converts.  An object
    converts through its [toString] method and then its [valueOf]: an own
    [toString] property hides [Object.prototype.toString] and, in a value made
    of JSON data, is not callable, while [Object.prototype.valueOf] gives the
    object back, so that the conversion of an object with an own [toString]
    throws; without one the object prints as [[object Object]].  An array
    converts by joining the conversions of its elements ([null] and
    [undefined] print as nothing there). *)
Fixpoint printable (v : JsValue) : bool :=
  match v with
  | JObj props =>
      match own_property (lit "toString") props with Some _ => false | None => true end
  | JArr items => forallb printable items
  | _ => true
  end.

(** What ToString throws on a value it cannot convert. *)
Definition conversion_error : Exn :=
  TypeError (lit "Cannot convert object to primitive value").

(** The substitutions of a template literal, converted in order.  The text
    goes to the log; what is observed here is whether a conversion throws. *)
Fixpoint template (substitutions : list JsValue) : Result unit :=
  match substitutions with
  | [] => Ok tt
  | v :: rest => if printable v then template rest else Throws conversion_error
  end.

(** Template-literal rendering of an optional string ([undefined] prints as
    the word). *)
Definition template_of (s : option jsstring) : jsstring :=
  match s with
  | Some t => t
  | None => lit "undefined"
  end.

(** ** JSON text

    [JSON.parse] and [JSON.stringify] belong to the engine, not to this
    repository: the functions below take them as parameters.  What follows is
    a reference decoder and encoder for the JSON grammar (RFC 8259), used to
    run the functions on concrete replies. *)

Inductive Parsed :=
| Decoded (v : JsValue)
| SyntaxError (message : jsstring).

Module JsonText.

Definition is_ws (c : code_unit) : bool :=
  (c =? 32) || (c =? 9) || (c =? 10) || (c =? 13).

Fixpoint skip_ws (s : jsstring) : jsstring :=
  match s with
  | c :: s' => if is_ws c then skip_ws s' else s
  | [] => []
  end.

Definition digit (c : code_unit) : option Z :=
  if (48 <=? c) && (c <=? 57) then Some (Z.of_N (c - 48)) else None.

Definition hex_digit (c : code_unit) : option N :=
  if (48 <=? c) && (c <=? 57) then Some (c - 48)
  else if (65 <=? c) && (c <=? 70) then Some (c - 55)
  else if (97 <=? c) && (c <=? 102) then Some (c - 87)
  else None.

Definition escape (c : code_unit) : option code_unit :=
  if c =? 34 then Some 34            (* quote *)
  else if c =? 92 then Some 92       (* backslash *)
  else if c =? 47 then Some 47       (* solidus *)
  else if c =? 98 then Some 8        (* b *)
  else if c =? 102 then Some 12      (* f *)
  else if c =? 110 then Some 10      (* n *)
  else if c =? 114 then Some 13      (* r *)
  else if c =? 116 then Some 9       (* t *)
  else None.

(** After the opening quote: the decoded text and what follows the closing
    quote. *)
Fixpoint string_body (s : jsstring) (acc : jsstring) : option (jsstring * jsstring) :=
  match s with
  | [] => None
  | c :: s' =>
      if c =? 34 then Some (rev acc, s')
      else if c =? 92 then
        match s' with
        | e :: s'' =>
            if e =? 117 then
              match s'' with
              | h1 :: h2 :: h3 :: h4 :: s3 =>
                  match hex_digit h1, hex_digit h2, hex_digit h3, hex_digit h4 with
                  | Some a, Some b, Some c', Some d =>
                      string_body s3 (((a * 16 + b) * 16 + c') * 16 + d :: acc)
                  | _, _, _, _ => None
                  end
              | _ => None
              end
            else
              match escape e with
              | Some x => string_body s'' (x :: acc)
              | None => None
              end
        | [] => None
        end
      else if c <? 32 then None
      else string_body s' (c :: acc)
  end.

(** A maximal run of digits: its value, its length, the rest. *)
Fixpoint digits (s : jsstring) (acc : Z) (n : nat) : Z * nat * jsstring :=
  match s with
  | c :: s' =>
      match digit c with
      | Some d => digits s' (acc * 10 + d)%Z (S n)
      | None => (acc, n, s)
      end
  | [] => (acc, n, [])
  end.

Definition number_literal (s : jsstring) : option (number * jsstring) :=
  let '(negative, s) :=
    match s with
    | c :: s' => if c =? 45 then (true, s') else (false, s)
    | [] => (false, s)
    end in
  let '(int, int_len, s1) := digits s 0%Z 0%nat in
  let leading_zero := match s with c :: _ => c =? 48 | [] => false end in
  if (int_len =? 0)%nat || (leading_zero && negb (int_len =? 1)%nat) then None
  else
    let fraction :=
      match s1 with
      | c :: s2 =>
          if c =? 46 then
            let '(m, len, s3) := digits s2 int 0%nat in
            if (len =? 0)%nat then None else Some (m, Z.of_nat len, s3)
          else Some (int, 0%Z, s1)
      | [] => Some (int, 0%Z, s1)
      end in
    match fraction with
    | None => None
    | Some (m, scale, s3) =>
        let signed := if negative then (- m)%Z else m in
        match s3 with
        | c :: s4 =>
            if (c =? 101) || (c =? 69) then
              let '(minus, s5) :=
                match s4 with
                | d :: s4' =>
                    if d =? 45 then (true, s4')
                    else if d =? 43 then (false, s4')
                    else (false, s4)
                | [] => (false, s4)
                end in
              let '(e, len, s6) := digits s5 0%Z 0%nat in
              if (len =? 0)%nat then None
              else Some ({| mantissa := signed;
                            exponent10 := ((if minus then - e else e) - scale)%Z |}, s6)
            else Some ({| mantissa := signed; exponent10 := (- scale)%Z |}, s3)
        | [] => Some ({| mantissa := signed; exponent10 := (- scale)%Z |}, s3)
        end
    end.

(** [obj[key] = v] on an object under construction: a repeated key keeps its
    place and takes the later value. *)
Fixpoint define (key : jsstring) (v : JsValue) (props : list (jsstring * JsValue))
  : list (jsstring * JsValue) :=
  match props with
  | [] => [(key, v)]
  | (k, x) :: rest =>
      if jsstring_eqb k key then (k, v) :: rest else (k, x) :: define key v rest
  end.

Fixpoint value (fuel : nat) (s : jsstring) : option (JsValue * jsstring) :=
  match fuel with
  | O => None
  | S fuel =>
      match skip_ws s with
      | [] => None
      | c :: s1 =>
          if c =? 123 then
            match skip_ws s1 with
            | d :: s2 => if d =? 125 then Some (JObj [], s2) else members fuel s1 []
            | [] => None
            end
          else if c =? 91 then
            match skip_ws s1 with
            | d :: s2 => if d =? 93 then Some (JArr [], s2) else elements fuel s1 []
            | [] => None
            end
          else if c =? 34 then
            match string_body s1 [] with
            | Some (text, s2) => Some (JStr text, s2)
            | None => None
            end
          else if startsWith (lit "true") (c :: s1) then Some (JBool true, skipn 3 s1)
          else if startsWith (lit "false") (c :: s1) then Some (JBool false, skipn 4 s1)
          else if startsWith (lit "null") (c :: s1) then Some (JNull, skipn 3 s1)
          else
            match number_literal (c :: s1) with
            | Some (x, s2) => Some (JNum x, s2)
            | None => None
            end
      end
  end
with elements (fuel : nat) (s : jsstring) (acc : list JsValue)
  : option (JsValue * jsstring) :=
  match fuel with
  | O => None
  | S fuel =>
      match value fuel s with
      | Some (v, s1) =>
          match skip_ws s1 with
          | c :: s2 =>
              if c =? 44 then elements fuel s2 (v :: acc)
              else if c =? 93 then Some (JArr (rev (v :: acc)), s2)
              else None
          | [] => None
          end
      | None => None
      end
  end
with members (fuel : nat) (s : jsstring) (acc : list (jsstring * JsValue))
  : option (JsValue * jsstring) :=
  match fuel with
  | O => None
  | S fuel =>
      match skip_ws s with
      | q :: s1 =>
          if q =? 34 then
            match string_body s1 [] with
            | Some (key, s2) =>
                match skip_ws s2 with
                | c :: s3 =>
                    if c =? 58 then
                      match value fuel s3 with
                      | Some (v, s4) =>
                          match skip_ws s4 with
                          | d :: s5 =>
                              if d =? 44 then members fuel s5 (define key v acc)
                              else if d =? 125 then Some (JObj (define key v acc), s5)
                              else None
                          | [] => None
                          end
                      | None => None
                      end
                    else None
                | [] => None
                end
            | None => None
            end
          else None
      | [] => None
      end
  end.

(** The reference decoder.  [value] consumes a character before it calls
    [elements] or [members], and these call [value] at once or after a
    consumed separator, so twice the length of the text is fuel enough. *)
Definition parse (text : jsstring) : Parsed :=
  match value (2 * length text + 2) text with
  | Some (v, rest) =>
      match skip_ws rest with
      | [] => Decoded v
      | _ :: _ => SyntaxError (lit "Unexpected non-whitespace character after JSON")
      end
  | None =>
      match skip_ws text with
      | [] => SyntaxError (lit "Unexpected end of JSON input")
      | _ :: _ => SyntaxError (lit "Unexpected token in JSON")
      end
  end.

Definition decimal_Z (z : Z) : jsstring :=
  lit (NilEmpty.string_of_int (Z.to_int z)).

Fixpoint quote_body (s : jsstring) : jsstring :=
  match s with
  | [] => []
  | c :: s' =>
      (if (c =? 34) || (c =? 92) then [92; c]
       else if c =? 10 then [92; 110]
       else if c =? 13 then [92; 114]
       else if c =? 9 then [92; 116]
       else [c]) ++ quote_body s'
  end.

Definition quote (s : jsstring) : jsstring := [34] ++ quote_body s ++ [34].

Fixpoint join (sep : jsstring) (parts : list jsstring) : jsstring :=
  match parts with
  | [] => []
  | [x] => x
  | x :: rest => x ++ sep ++ join sep rest
  end.

(** The reference encoder: [undefined] has no text; inside an array it
    prints as [null], inside an object its key is dropped.  A number prints
    as its mantissa, followed by its decimal exponent when that is not 0. *)
Fixpoint stringify (v : JsValue) : option jsstring :=
  match v with
  | JUndefined => None
  | JNull => Some (lit "null")
  | JBool b => Some (if b then lit "true" else lit "false")
  | JNum x =>
      Some (decimal_Z (mantissa x) ++
            if (exponent10 x =? 0)%Z then [] else lit "e" ++ decimal_Z (exponent10 x))
  | JStr s => Some (quote s)
  | JArr items =>
      Some (lit "[" ++
            join (lit ",")
              (List.map (fun x => match stringify x with
                                  | Some t => t
                                  | None => lit "null"
                                  end) items)
            ++ lit "]")
  | JObj props =>
      Some (lit "{" ++
            join (lit ",")
              (List.flat_map (fun kv => match stringify (snd kv) with
                                        | Some t => [quote (fst kv) ++ lit ":" ++ t]
                                        | None => []
                                        end) props)
            ++ lit "}")
  end.

End JsonText.


(** ** Regular expressions

    The fragment of the engine's backtracking matcher that the pattern of
    [simpleInference] needs: literals, the start assertion, greedy and lazy
    stars over a character class, capturing groups and sequencing.  There is
    no [u], [m] or [s] flag: the unit of matching is the code unit, the start
    assertion holds at index 0 only and the dot stops at line terminators. *)

Module RegExp.

Inductive pattern :=
| Bol                                                 (* start assertion *)
| Literal (text : jsstring)
| Star (greedy : bool) (class : code_unit -> bool)    (* c* and c*? *)
| Group (p : pattern)                                 (* capturing group *)
| Seq (p q : pattern).

(** The class of white space: WhiteSpace and LineTerminator. *)
Definition space (c : code_unit) : bool :=
  ((9 <=? c) && (c <=? 13)) || (c =? 32) || (c =? 160) || (c =? 5760) ||
  ((8192 <=? c) && (c <=? 8202)) || (c =? 8232) || (c =? 8233) ||
  (c =? 8239) || (c =? 8287) || (c =? 12288) || (c =? 65279).

Definition line_terminator (c : code_unit) : bool :=
  (c =? 10) || (c =? 13) || (c =? 8232) || (c =? 8233).

(** The class of the dot. *)
Definition dot (c : code_unit) : bool := negb (line_terminator c).

Section Matcher.
Context {R : Type}.

(** A continuation takes the index reached, the input left and the
    captures so far. *)
Definition cont := nat -> jsstring -> list jsstring -> option R.

Fixpoint star_greedy (class : code_unit -> bool) (k : cont)
  (pos : nat) (s : jsstring) (caps : list jsstring) : option R :=
  match s with
  | c :: s' =>
      if class c then
        match star_greedy class k (S pos) s' caps with
        | Some r => Some r
        | None => k pos s caps
        end
      else k pos s caps
  | [] => k pos s caps
  end.

Fixpoint star_lazy (class : code_unit -> bool) (k : cont)
  (pos : nat) (s : jsstring) (caps : list jsstring) : option R :=
  match k pos s caps with
  | Some r => Some r
  | None =>
      match s with
      | c :: s' => if class c then star_lazy class k (S pos) s' caps else None
      | [] => None
      end
  end.

Fixpoint run (p : pattern) (k : cont)
  (pos : nat) (s : jsstring) (caps : list jsstring) : option R :=
  match p with
  | Bol => if (pos =? 0)%nat then k pos s caps else None
  | Literal text =>
      if startsWith text s
      then k (pos + length text)%nat (skipn (length text) s) caps
      else None
  | Star true class => star_greedy class k pos s caps
  | Star false class => star_lazy class k pos s caps
  | Group q =>
      run q (fun pos' s' caps' => k pos' s' (caps' ++ [firstn (pos' - pos) s]))
          pos s caps
  | Seq q1 q2 => run q1 (run q2 k) pos s caps
  end.
End Matcher.

(** The array a successful match returns: the matched text and the groups. *)
Record MatchArray := { matched : jsstring; groups : list jsstring }.

Definition match_at (p : pattern) (pos : nat) (s : jsstring) : option MatchArray :=
  run p (fun pos' _ caps => Some {| matched := firstn (pos' - pos) s; groups := caps |})
      pos s [].

(** Attempts at the successive indexes of the text, from [pos] on. *)
Fixpoint search (p : pattern) (pos : nat) (s : jsstring) : option MatchArray :=
  match match_at p pos s with
  | Some m => Some m
  | None =>
      match s with
      | _ :: s' => search p (S pos) s'
      | [] => None
      end
  end.

(** [text.match(p)] for a pattern without the g flag. *)
Definition match_ (p : pattern) (text : jsstring) : option MatchArray :=
  search p 0 text.

End RegExp.

Definition open_tag : jsstring := lit "<thought>".
Definition close_tag : jsstring := lit "</thought>".

(** The pattern of [simpleInference]: start, white space, the opening tag,
    a lazily matched captured run of the dot, the closing tag. *)
Definition thought_pattern : RegExp.pattern :=
  RegExp.Seq RegExp.Bol
    (RegExp.Seq (RegExp.Star true RegExp.space)
       (RegExp.Seq (RegExp.Literal open_tag)
          (RegExp.Seq (RegExp.Group (RegExp.Star false RegExp.dot))
             (RegExp.Literal close_tag)))).

(** ** Data model *)

Inductive Role := system | user | assistant | tool.

Definition Role_eqb (a b : Role) : bool :=
  match a, b with
  | system, system | user, user | assistant, assistant | tool, tool => true
  | _, _ => false
  end.

(** [interface ChatMessage].  The content is whatever the endpoint sent when
    the message was built from a reply; [tool_calls] is present only when the
    reply carried a truthy one. *)
Record ChatMessage := {
  role : Role;
  content : JsValue;
  tool_calls : option JsValue;
  tool_call_id : option jsstring
}.

Record ResponseFormat := {
  type_ : jsstring;          (* 'json_schema' *)
  json_schema : JsValue
}.

(** Arrays of messages are heap objects, named by reference. *)
Abbreviation Heap := (gmap nat (list ChatMessage)).

Module InferenceRequest.
Record t := {
  messages : nat;          (* reference to the caller's array *)
  modelName : jsstring;
  maxTokens : number;
  endpoint : jsstring;
  token : jsstring;
  temperature : option number;
  topP : option number;
  responseFormat : option ResponseFormat;
  customHeaders : option (list (jsstring * jsstring))
}.
End InferenceRequest.
Abbreviation InferenceRequest := InferenceRequest.t.

(** [ChatCompletionCreateParams], as the endpoint receives it: the message
    array is read when the call is made, so the record holds its content at
    that time. *)
Module ChatCompletionCreateParams.
Record t := {
  messages : list ChatMessage;
  max_tokens : number;
  model : jsstring;
  temperature : option number;
  top_p : option number;
  extra_body : option JsValue;
  response_format : option ResponseFormat;
  tools : option (list JsValue)
}.

(** [params.response_format = format]. *)
Definition set_response_format (format : ResponseFormat) (p : t) : t :=
  {| messages := messages p; max_tokens := max_tokens p; model := model p;
     temperature := temperature p; top_p := top_p p; extra_body := extra_body p;
     response_format := Some format; tools := tools p |}.

(** [params.tools = list]. *)
Definition set_tools (list : list JsValue) (p : t) : t :=
  {| messages := messages p; max_tokens := max_tokens p; model := model p;
     temperature := temperature p; top_p := top_p p; extra_body := extra_body p;
     response_format := response_format p; tools := Some list |}.
End ChatCompletionCreateParams.
Abbreviation ChatCompletionCreateParams := ChatCompletionCreateParams.t.

(** What [client.chat.completions.create] settles with. *)
Inductive TransportOutcome :=
| Resolves (response : JsValue)
| Rejects (reason : Exn).

(** The OpenAI client, seen from its [create] method. *)
Definition Client := ChatCompletionCreateParams -> TransportOutcome.

(** One call of the endpoint by the tool loop: whether the pass was the
    finalizing one, what was sent and what came back. *)
Record Exchange := {
  finalizing : bool;
  params : ChatCompletionCreateParams;
  reply : TransportOutcome
}.

(** How a run of [mcpInference] ends: its result, the heap it leaves, the
    calls it made and the final content of its local [messages] array. *)
Record Run := {
  outcome : Result JsValue;
  heap_after : Heap;
  exchanges : list Exchange;
  history : list ChatMessage
}.

(** The local variables of the loop that change from pass to pass. *)
Record LoopState := {
  iterationCount : nat;
  finalMessage : bool
}.

(** How a pass of the loop ends. *)
Inductive Control :=
| Next (st : LoopState)       (* fall through or [continue] *)
| Return (v : JsValue)
| Raise (e : Exn).

(** [new Array(...items)]: a fresh reference. *)
Definition alloc (items : list ChatMessage) (heap : Heap) : nat * Heap :=
  let r := fresh (dom heap) in (r, <[r := items]> heap).

(** [array.push(...items)]. *)
Definition push (array : nat) (items : list ChatMessage) (heap : Heap) : Heap :=
  <[array := (heap !!! array) ++ items]> heap.

(** [array.reverse()], in place. *)
Definition reverse (array : nat) (heap : Heap) : Heap :=
  <[array := rev (heap !!! array)]> heap.

(** The extension that asks Gemini 3 models for their thoughts. *)
Definition thinking_config : JsValue :=
  JObj [(lit "google",
         JObj [(lit "thinking_config",
                JObj [(lit "include_thoughts", JBool true);
                      (lit "thinking_level", JStr (lit "high"))])])].

Definition maxIterations : nat := 5.

(** [response.choices[0]]: reading index 0 throws when [choices] is [null] or
    [undefined]. *)
Definition first_choice (response : JsValue) : Result JsValue :=
  do choices <- get response P_choices;
  get choices P_0.

(** The token-usage report of [simpleInference]: two log lines, built from
    what the reply reports under [usage]. *)
Definition log_usage (response : JsValue) : Result unit :=
  do usage <- get response P_usage;
  if truthy usage then
    do prompt_tokens <- get usage P_prompt_tokens;
    do completion_tokens <- get usage P_completion_tokens;
    do total_tokens <- get usage P_total_tokens;
    do logged <- template [total_tokens; prompt_tokens; completion_tokens];
    do details <- get usage P_completion_tokens_details;
    let reasoningTokens := get_opt details P_reasoning_tokens in
    if truthy reasoningTokens then template [reasoningTokens] else Ok tt
  else Ok tt.

(** [!toolCalls || toolCalls.length === 0] *)
Definition no_tool_calls (toolCalls : JsValue) : bool :=
  negb (truthy toolCalls) || is_number_zero (get_opt toolCalls P_length).

(** The message the loop pushes for a reply. *)
Definition assistant_entry (modelResponse toolCalls : JsValue) : ChatMessage :=
  {| role := assistant;
     content := or_else modelResponse (JStr []);
     tool_calls := if truthy toolCalls then Some toolCalls else None;
     tool_call_id := None |}.

(** The message that asks for the declared format. *)
Definition reformat_entry (format : ResponseFormat) : ChatMessage :=
  {| role := user;
     content := JStr (lit "Please provide your response in the exact "
                        ++ type_ format ++ lit " format specified.");
     tool_calls := None;
     tool_call_id := None |}.

(** [msg => msg.role === 'assistant'] *)
Definition is_assistant (msg : ChatMessage) : bool := Role_eqb (role msg) assistant.

(** [messages.slice().reverse().find(msg => msg.role === 'assistant')?.content],
    on the content of the array. *)
Definition last_assistant_content (items : list ChatMessage) : JsValue :=
  match List.find is_assistant (rev items) with
  | Some msg => content msg
  | None => JUndefined
  end.

(** A run with one more call in front. *)
Definition record_exchange (e : Exchange) (run : Run) : Run :=
  {| outcome := outcome run; heap_after := heap_after run;
     exchanges := e :: exchanges run; history := history run |}.

(** The connected tool session: its tool definitions and the handle the
    executor is given. *)
Module GitHubMCPClient.
Record t (McpSession : Type) := {
  tools : list JsValue;
  client : McpSession
}.
Arguments tools {McpSession} _.
Arguments client {McpSession} _.
End GitHubMCPClient.
Abbreviation GitHubMCPClient := GitHubMCPClient.t.

(** ** Vocabulary of the properties *)

(** An object with a [choices] key. *)
Definition carries_choices (v : JsValue) : bool :=
  match v with
  | JObj props =>
      match own_property (lit "choices") props with Some _ => true | None => false end
  | _ => false
  end.

(** An object whose [choices] is a list. *)
Definition carries_choices_list (v : JsValue) : bool :=
  match v with
  | JObj props =>
      match own_property (lit "choices") props with Some (JArr _) => true | _ => false end
  | _ => false
  end.

(** An object whose [choices] is a list that is not empty. *)
Definition carries_nonempty_choices (v : JsValue) : bool :=
  match v with
  | JObj props =>
      match own_property (lit "choices") props with
      | Some (JArr (_ :: _)) => true
      | _ => false
      end
  | _ => false
  end.

(** The two failures of [chatCompletion] that the specification calls
    MalformedResponseError. *)
Definition MalformedResponseError (context : jsstring) (e : Exn) : Prop :=
  (exists message preview,
      e = Error_ (context
                    ++ lit ": Chat completion response was a string and not valid JSON ("
                    ++ message ++ lit "). Preview: " ++ preview)) \/
  (exists preview,
      e = Error_ (context ++ lit ": Unexpected response shape (no choices). Preview: "
                    ++ preview)).

(** ** Sample data *)

Module Sample.

(** JSON text written with single quotes standing for the double quotes. *)
Definition json_text (s : string) : jsstring :=
  List.map (fun c => if c =? 39 then 34 else c) (lit s).

Definition json (s : string) : JsValue :=
  match JsonText.parse (json_text s) with
  | Decoded v => v
  | SyntaxError _ => JUndefined
  end.

Definition text_message (r : Role) (s : string) : ChatMessage :=
  {| role := r; content := JStr (lit s); tool_calls := None; tool_call_id := None |}.

(** The caller's array is object 7 of the heap. *)
Definition heap : Heap :=
  {[ 7%nat := [text_message system "You are terse."; text_message user "Say hello."] ]}.

Definition schema : ResponseFormat :=
  {| type_ := lit "json_schema"; json_schema := json "{'name':'answer'}" |}.

Definition request (format : option ResponseFormat) : InferenceRequest :=
  {| InferenceRequest.messages := 7%nat;
     InferenceRequest.modelName := lit "gemini-3-pro";
     InferenceRequest.maxTokens := number_of_nat 200;
     InferenceRequest.endpoint := lit "https://models.example/inference";
     InferenceRequest.token := lit "secret";
     InferenceRequest.temperature := None;
     InferenceRequest.topP := None;
     InferenceRequest.responseFormat := format;
     InferenceRequest.customHeaders := None |}.

Definition sent : ChatCompletionCreateParams :=
  {| ChatCompletionCreateParams.messages := [];
     ChatCompletionCreateParams.max_tokens := number_of_nat 200;
     ChatCompletionCreateParams.model := lit "gemini-3-pro";
     ChatCompletionCreateParams.temperature := None;
     ChatCompletionCreateParams.top_p := None;
     ChatCompletionCreateParams.extra_body := None;
     ChatCompletionCreateParams.response_format := None;
     ChatCompletionCreateParams.tools := None |}.

(** An executor that keeps the contract on lists and fails on anything
    else. *)
Definition executor (_ : unit) (pass : nat) (toolCalls : JsValue)
  : Result (list ChatMessage) :=
  match toolCalls with
  | JArr calls =>
      Ok (List.map (fun call =>
                      {| role := tool;
                         content := JStr (lit "tool output of pass " ++ decimal pass);
                         tool_calls := None;
                         tool_call_id :=
                           match get_opt call P_id with
                           | JStr id => Some id
                           | _ => Some []
                           end |}) calls)
  | _ => Throws (TypeError (lit "toolCalls is not iterable"))
  end.

Definition session : GitHubMCPClient unit :=
  {| GitHubMCPClient.tools :=
       [json "{'type':'function','function':{'name':'search_issues'}}"];
     GitHubMCPClient.client := tt |}.

Definition hello : JsValue := json "{'choices':[{'message':{'content':'Hello'}}]}".

Definition empty_choices : JsValue := json "{'choices':[]}".

Definition calling : JsValue :=
  json (String.append
          "{'choices':[{'message':{'content':'Looking it up','tool_calls':["
          (String.append
             "{'id':'call_1','type':'function',"
             "'function':{'name':'search_issues','arguments':'{}'}}]}}]}")).

Definition structured : JsValue :=
  json "{'choices':[{'message':{'content':'{\'answer\':42}'}}]}".

Definition silent : JsValue := json "{'choices':[{'message':{'content':''}}]}".

Definition thinking (thought answer : jsstring) : JsValue :=
  JObj [(lit "choices",
         JArr [JObj [(lit "message",
                      JObj [(lit "content",
                             JStr (open_tag ++ thought ++ close_tag ++ answer))])]])].

(** 2000 code units that are not JSON. *)
Definition garbage : jsstring :=
  List.flat_map (fun _ => lit "not json; ") (seq 0 200).

(** Endpoints, by the pass that calls them. *)
Definition always (v : JsValue) : nat -> Client := fun _ _ => Resolves v.

Definition scripted (replies : list JsValue) (otherwise : JsValue) : nat -> Client :=
  fun pass _ => Resolves (nth (pass - 1) replies otherwise).

(** A completion whose [choices] is [null]. *)
Definition null_choices : JsValue := json "{'choices':null}".

(** An error body of the endpoint: no [choices], and a message of 2000 code
    units. *)
Definition refusal : JsValue :=
  JObj [(lit "error", JObj [(lit "message", JStr garbage)])].

(** A completion whose content is a number. *)
Definition numeric : JsValue := json "{'choices':[{'message':{'content':42}}]}".



(** A completion whose content is an object that cannot be converted to a
    string. *)
Definition unprintable : JsValue :=
  json "{'choices':[{'message':{'content':{'toString':1}}}]}".

(** A completion whose tool calls are an object with a length that cannot be
    converted to a string. *)
Definition miscounted : JsValue :=
  json (String.append
          "{'choices':[{'message':{'content':'Looking it up',"
          "'tool_calls':{'length':{'toString':1}}}}]}").

(** An endpoint that cannot be reached. *)
Definition unreachable : nat -> Client :=
  fun _ _ => Rejects (Error_ (lit "Connection error.")).

(** An endpoint that answers the first [n] calls with [v] and rejects the
    later ones. *)
Definition failing_after (n : nat) (v : JsValue) : nat -> Client :=
  fun pass _ =>
    if (pass <=? n)%nat then Resolves v else Rejects (Error_ (lit "Connection error.")).

(** An executor whose session is closed. *)
Definition closed_executor (_ : unit) (pass : nat) (toolCalls : JsValue)
  : Result (list ChatMessage) :=
  Throws (Error_ (lit "Not connected")).

End Sample.

Section Inference.

(** The engine's JSON functions. *)
Variable JSON_parse : jsstring -> Parsed.
Variable JSON_stringify : JsValue -> option jsstring.

(** The tool executor of mcp.ts, which is not among the sources: a
    parameter, given the session, the pass that calls it and the value
    handed to it as the list of calls. *)
Variable McpSession : Type.
Variable executeToolCalls : McpSession -> nat -> JsValue -> Result (list ChatMessage).

(** *** chatCompletion *)

(** What [chatCompletion] does with what the call settled with. *)
Definition settle (context : jsstring) (settled : TransportOutcome) : Result JsValue :=
  match settled with
  | Rejects err => Throws err
  | Resolves response =>
      do response <-
        match response with
        | JStr text =>
            match JSON_parse text with
            | Decoded v => Ok v
            | SyntaxError message =>
                let preview := slice0 400 text in
                Throws (Error_ (context
                  ++ lit ": Chat completion response was a string and not valid JSON ("
                  ++ message ++ lit "). Preview: " ++ preview))
            end
        | _ => Ok response
        end;
      if negb (truthy response) || negb (typeof_object response)
         || negb (has_property P_choices response)
      then
        let preview := option_map (slice0 800) (JSON_stringify response) in
        Throws (Error_ (context ++ lit ": Unexpected response shape (no choices). Preview: "
                          ++ template_of preview))
      else Ok response
  end.

Definition chatCompletion (client : Client) (params : ChatCompletionCreateParams)
  (context : jsstring) : Result JsValue :=
  settle context (client params).

(** *** simpleInference *)

(** The parameters [simpleInference] sends. *)
Definition simple_request (heap : Heap) (request : InferenceRequest)
  : ChatCompletionCreateParams :=
  {| ChatCompletionCreateParams.messages := heap !!! InferenceRequest.messages request;
     ChatCompletionCreateParams.max_tokens := InferenceRequest.maxTokens request;
     ChatCompletionCreateParams.model := InferenceRequest.modelName request;
     ChatCompletionCreateParams.temperature := InferenceRequest.temperature request;
     ChatCompletionCreateParams.top_p := InferenceRequest.topP request;
     ChatCompletionCreateParams.extra_body :=
       if startsWith (lit "gemini-3") (InferenceRequest.modelName request)
       then Some thinking_config else None;
     ChatCompletionCreateParams.response_format := InferenceRequest.responseFormat request;
     ChatCompletionCreateParams.tools := None |}.

Definition simpleInference (heap : Heap) (request : InferenceRequest) (client : Client)
  : Result JsValue :=
  let chatCompletionRequest := simple_request heap request in
  do response <- chatCompletion client chatCompletionRequest (lit "simpleInference");
  do logged <- log_usage response;
  do first <- first_choice response;
  let modelResponse := get_opt (get_opt first P_message) P_content in
  if truthy modelResponse then
    match modelResponse with
    | JStr text =>
        let modelResponse :=
          match RegExp.match_ thought_pattern text with
          | Some m => substring_from (length (RegExp.matched m)) text
          | None => text
          end in
        Ok (or_else (JStr modelResponse) JNull)
    | _ => Throws (TypeError (lit "modelResponse?.match is not a function"))
    end
  else Ok (or_else modelResponse JNull).

(** *** mcpInference *)

(** The parameters a pass of the loop sends, given its [finalMessage] and
    the content of the loop's array. *)
Definition loop_request (request : InferenceRequest)
  (githubMcpClient : GitHubMCPClient McpSession)
  (finalMessage : bool) (items : list ChatMessage) : ChatCompletionCreateParams :=
  let chatCompletionRequest := {|
    ChatCompletionCreateParams.messages := items;
    ChatCompletionCreateParams.max_tokens := InferenceRequest.maxTokens request;
    ChatCompletionCreateParams.model := InferenceRequest.modelName request;
    ChatCompletionCreateParams.temperature := InferenceRequest.temperature request;
    ChatCompletionCreateParams.top_p := InferenceRequest.topP request;
    ChatCompletionCreateParams.extra_body := None;
    ChatCompletionCreateParams.response_format := None;
    ChatCompletionCreateParams.tools := None
  |} in
  match finalMessage, InferenceRequest.responseFormat request with
  | true, Some format =>
      ChatCompletionCreateParams.set_response_format format chatCompletionRequest
  | _, _ =>
      ChatCompletionCreateParams.set_tools (GitHubMCPClient.tools githubMcpClient)
        chatCompletionRequest
  end.

(** The body of the while loop, for the pass that finds the local variables
    as [st] says and [messages] naming the loop's array. *)
Definition iteration (request : InferenceRequest)
  (githubMcpClient : GitHubMCPClient McpSession)
  (create : nat -> Client) (messages : nat) (st : LoopState) (heap : Heap)
  : Control * Heap * Exchange :=
  let iterationCount := S (iterationCount st) in
  let finalMessage := finalMessage st in
  let chatCompletionRequest :=
    loop_request request githubMcpClient finalMessage (heap !!! messages) in
  let exchange := {|
    finalizing := finalMessage;
    params := chatCompletionRequest;
    reply := create iterationCount chatCompletionRequest
  |} in
  match
    do response <- chatCompletion (create iterationCount) chatCompletionRequest
                     (lit "mcpInference iteration " ++ decimal iterationCount);
    first_choice response
  with
  | Throws error => (Raise error, heap, exchange)
  | Ok first =>
      let assistantMessage := get_opt first P_message in
      let modelResponse := get_opt assistantMessage P_content in
      let toolCalls := get_opt assistantMessage P_tool_calls in
      (* core.info(`Model response: ${modelResponse || 'No response content'}`) *)
      match template [or_else modelResponse (JStr (lit "No response content"))] with
      | Throws error => (Raise error, heap, exchange)
      | Ok _ =>
          let heap := push messages [assistant_entry modelResponse toolCalls] heap in
          if no_tool_calls toolCalls then
            match InferenceRequest.responseFormat request, finalMessage with
            | Some format, false =>
                let heap := push messages [reformat_entry format] heap in
                (Next {| iterationCount := iterationCount; finalMessage := true |},
                 heap, exchange)
            | _, _ => (Return (or_else modelResponse JNull), heap, exchange)
            end
          else
            (* core.info(`Model requested ${toolCalls.length} tool calls`) *)
            match template [get_opt toolCalls P_length] with
            | Throws error => (Raise error, heap, exchange)
            | Ok _ =>
                match executeToolCalls (GitHubMCPClient.client githubMcpClient)
                        iterationCount toolCalls with
                | Throws error => (Raise error, heap, exchange)
                | Ok toolResults =>
                    (Next {| iterationCount := iterationCount;
                             finalMessage := finalMessage |},
                     push messages toolResults heap, exchange)
                end
            end
      end
  end.

(** What follows the loop: the content of the last assistant message, found
    in a reversed copy of the array. *)
Definition after_loop (messages : nat) (heap : Heap) : Run :=
  let items := heap !!! messages in
  let '(copy, heap) := alloc items heap in        (* [messages.slice()] *)
  let heap := reverse copy heap in
  let lastAssistantMessage := List.find is_assistant (heap !!! copy) in
  {| outcome :=
       Ok (or_else (match lastAssistantMessage with
                    | Some msg => content msg
                    | None => JUndefined
                    end) JNull);
     heap_after := heap;
     exchanges := [];
     history := items |}.

(** The while loop.  [remaining] is [maxIterations - iterationCount], the
    variant of the loop: the test [iterationCount < maxIterations] holds
    exactly when it is not zero, and a pass that goes on has added one to
    [iterationCount]. *)
Fixpoint while_ (remaining : nat) (request : InferenceRequest)
  (githubMcpClient : GitHubMCPClient McpSession) (create : nat -> Client)
  (messages : nat) (st : LoopState) (heap : Heap) : Run :=
  match remaining with
  | O => after_loop messages heap
  | S remaining =>
      let '(control, heap, exchange) :=
        iteration request githubMcpClient create messages st heap in
      match control with
      | Next st =>
          record_exchange exchange
            (while_ remaining request githubMcpClient create messages st heap)
      | Return v =>
          {| outcome := Ok v; heap_after := heap; exchanges := [exchange];
             history := heap !!! messages |}
      | Raise error =>
          {| outcome := Throws error; heap_after := heap; exchanges := [exchange];
             history := heap !!! messages |}
      end
  end.

Definition mcpInference (heap : Heap) (request : InferenceRequest)
  (githubMcpClient : GitHubMCPClient McpSession) (create : nat -> Client) : Run :=
  let '(messages, heap) := alloc (heap !!! InferenceRequest.messages request) heap in
  let st := {| iterationCount := 0; finalMessage := false |} in
  while_ (maxIterations - iterationCount st) request githubMcpClient create
    messages st heap.


(** The [assistantMessage] read from what a call settled with, when that
    passes [chatCompletion] and has a first choice to read. *)
Definition reply_message (settled : TransportOutcome) : option JsValue :=
  match settle [] settled with
  | Ok response =>
      match first_choice response with
      | Ok first => Some (get_opt first P_message)
      | Throws _ => None
      end
  | Throws _ => None
  end.

(** The call a pass of the loop makes, given the loop's variables and the
    content of its array. *)
Definition pass_exchange (request : InferenceRequest)
  (githubMcpClient : GitHubMCPClient McpSession) (create : nat -> Client)
  (st : LoopState) (items : list ChatMessage) : Exchange :=
  let sent := loop_request request githubMcpClient (finalMessage st) items in
  {| finalizing := finalMessage st;
     params := sent;
     reply := create (S (iterationCount st)) sent |}.

(** What a call offers: the tool definitions on a pass that is not the
    finalizing one, the declared response format on the finalizing pass, and
    nothing else of the two. *)
Definition tools_xor_format (request : InferenceRequest)
  (githubMcpClient : GitHubMCPClient McpSession) (e : Exchange) : Prop :=
  ChatCompletionCreateParams.tools (params e) =
    (if finalizing e then None else Some (GitHubMCPClient.tools githubMcpClient)) /\
  ChatCompletionCreateParams.response_format (params e) =
    (if finalizing e then InferenceRequest.responseFormat request else None) /\
  (finalizing e = true -> is_Some (InferenceRequest.responseFormat request)).

(** The flag is raised only when a response format was declared. *)
Definition flag_justified (request : InferenceRequest) (st : LoopState) : Prop :=
  finalMessage st = true -> is_Some (InferenceRequest.responseFormat request).

(** The [assistantMessage] of a pass of the loop. *)
Definition pass_message (e : Exchange) : option JsValue :=
  reply_message (reply e).


(** The usage report of a reply to [simpleInference] can be logged: the reply
    holds no report, or one whose token counts convert to strings. *)
Definition logs_usage (settled : TransportOutcome) : bool :=
  match settle [] settled with
  | Ok response => match log_usage response with Ok _ => true | Throws _ => false end
  | Throws _ => true
  end.


(** The structure a transport value is, or parses into when it is a string. *)
Definition structure_of (v : JsValue) : option JsValue :=
  match v with
  | JStr text =>
      match JSON_parse text with
      | Decoded x => Some x
      | SyntaxError _ => None
      end
  | _ => Some v
  end.

(** The label a pass of the loop gives to [chatCompletion]. *)
Definition pass_label (iterationCount : nat) : jsstring :=
  lit "mcpInference iteration " ++ decimal iterationCount.

(** [response.choices[0]], read from what [chatCompletion] makes of a settled
    call. *)
Definition first_of_reply (context : jsstring) (settled : TransportOutcome)
  : Result JsValue :=
  do response <- settle context settled;
  first_choice response.

(** The message of the error thrown for a structure without [choices]. *)
Definition shape_message (context : jsstring) (response : JsValue) : jsstring :=
  context ++ lit ": Unexpected response shape (no choices). Preview: "
    ++ match JSON_stringify response with
       | Some text => firstn 800 text
       | None => lit "undefined"
       end.

(** * Properties *)

(** ** Strings and values *)

Lemma startsWith_app (p s : jsstring) : startsWith p (p ++ s) = true.
Proof.
  induction p as [|c p IH]; simpl; [reflexivity|].
  now rewrite N.eqb_refl, IH.
Qed.

Lemma includes_suffix (needle a b : jsstring) :
  includes needle (a ++ b) = false -> includes needle b = false.
Proof.
  induction a as [|c a IH]; simpl; [tauto|].
  intros H. apply orb_false_elim in H as [_ H]. auto.
Qed.

Lemma includes_head (needle s : jsstring) :
  includes needle s = false -> startsWith needle s = false.
Proof.
  destruct s; simpl; intros H; now apply orb_false_elim in H as [H _].
Qed.

Lemma or_else_truthy (a b : JsValue) : truthy a = true -> or_else a b = a.
Proof. unfold or_else. now intros ->. Qed.

Lemma or_else_falsy (a b : JsValue) : truthy a = false -> or_else a b = b.
Proof. unfold or_else. now intros ->. Qed.

(** [(x || '') || null] is [x || null]. *)
Lemma or_else_empty_null (x : JsValue) :
  or_else (or_else x (JStr [])) JNull = or_else x JNull.
Proof.
  unfold or_else. destruct (truthy x) eqn:E; [now rewrite E | reflexivity].
Qed.

(** [x || null] is never the empty string. *)
Lemma or_else_null_not_empty (x : JsValue) : or_else x JNull <> JStr [].
Proof.
  unfold or_else. destruct (truthy x) eqn:E; [|discriminate].
  intros ->. discriminate.
Qed.

Lemma carries_nonempty_is_list (v : JsValue) :
  carries_nonempty_choices v = true -> carries_choices_list v = true.
Proof.
  destruct v; simpl; try discriminate.
  destruct (own_property _ props) as [[]|]; try discriminate.
  now destruct items.
Qed.

Lemma carries_list_is_key (v : JsValue) :
  carries_choices_list v = true -> carries_choices v = true.
Proof.
  destruct v; simpl; try discriminate.
  now destruct (own_property _ props) as [[]|].
Qed.

(** ** chatCompletion *)

(** A structure with a [choices] key passes the shape test. *)
Lemma shape_accepted (v : JsValue) :
  carries_choices v = true ->
  negb (truthy v) || negb (typeof_object v) || negb (has_property P_choices v) = false.
Proof.
  destruct v; simpl; try discriminate.
  change (property_key P_choices) with (lit "choices").
  now destruct (own_property _ props).
Qed.

(** A structure without one fails it. *)
Lemma shape_rejected (v : JsValue) :
  carries_choices v = false ->
  negb (truthy v) || negb (typeof_object v) || negb (has_property P_choices v) = true.
Proof.
  destruct v; simpl; try reflexivity; intros H.
  - now destruct b.
  - now destruct (number_is_zero x).
  - now destruct s.
  - revert H. change (property_key P_choices) with (lit "choices").
    now destruct (own_property _ props).
Qed.

(** A structured value that carries [choices] is returned as it is. *)
Lemma settle_structured (context : jsstring) (v : JsValue) :
  carries_choices v = true -> settle context (Resolves v) = Ok v.
Proof.
  intros H. unfold settle.
  destruct v; try discriminate. cbn [bind].
  now rewrite (shape_accepted (JObj props) H).
Qed.

(** The label only shows in the messages: whether a reply is accepted, and
    what is returned for it, do not depend on it. *)
Lemma settle_context (context context' : jsstring) (settled : TransportOutcome) :
  match settle context settled, settle context' settled with
  | Ok a, Ok b => a = b
  | Throws _, Throws _ => True
  | _, _ => False
  end.
Proof.
  unfold settle. destruct settled as [response|err]; [|exact I].
  assert (shape : forall r,
    match (if negb (truthy r) || negb (typeof_object r) || negb (has_property P_choices r)
           then Throws (Error_ (context
                  ++ lit ": Unexpected response shape (no choices). Preview: "
                  ++ template_of (option_map (slice0 800) (JSON_stringify r))))
           else Ok r),
          (if negb (truthy r) || negb (typeof_object r) || negb (has_property P_choices r)
           then Throws (Error_ (context'
                  ++ lit ": Unexpected response shape (no choices). Preview: "
                  ++ template_of (option_map (slice0 800) (JSON_stringify r))))
           else Ok r)
    with
    | Ok a, Ok b => a = b
    | Throws _, Throws _ => True
    | _, _ => False
    end).
  { intros r. now destruct (_ || _). }
  destruct response; try apply shape.
  destruct (JSON_parse s); [apply shape | exact I].
Qed.

Lemma settle_ok_context (context context' : jsstring) (settled : TransportOutcome)
  (response : JsValue) :
  settle context settled = Ok response -> settle context' settled = Ok response.
Proof.
  intros H. pose proof (settle_context context context' settled) as C.
  rewrite H in C. destruct (settle context' settled); [now subst | contradiction].
Qed.

Lemma settle_throws_context (context context' : jsstring) (settled : TransportOutcome)
  (e : Exn) :
  settle context settled = Throws e -> exists e', settle context' settled = Throws e'.
Proof.
  intros H. pose proof (settle_context context context' settled) as C.
  rewrite H in C. destruct (settle context' settled); [contradiction | eauto].
Qed.

(** C8: Idempotence of the shape validation: a transport value that is
    already a structured object with a non-empty [choices] array is returned
    by [chatCompletion] unchanged. *)
Theorem chatCompletion_returns_well_formed_unchanged
  (client : Client) (params : ChatCompletionCreateParams) (context : jsstring)
  (v : JsValue) :
  client params = Resolves v ->
  carries_nonempty_choices v = true ->
  chatCompletion client params context = Ok v.
Proof.
  intros Hreply Hshape. unfold chatCompletion. rewrite Hreply.
  apply settle_structured.
  now apply carries_list_is_key, carries_nonempty_is_list.
Qed.

(** C6: Malformed preview bound: when the transport returns a string that
    does not decode, [chatCompletion] throws an error whose message carries
    the decoder's message and, as its preview, exactly the first 400 code
    units of the string; for a string of 400 code units or more (2000, say)
    the preview has length 400. *)
Theorem chatCompletion_decode_failure_preview
  (client : Client) (params : ChatCompletionCreateParams) (context : jsstring)
  (text message : jsstring) :
  client params = Resolves (JStr text) ->
  JSON_parse text = SyntaxError message ->
  chatCompletion client params context =
    Throws (Error_ (context
      ++ lit ": Chat completion response was a string and not valid JSON ("
      ++ message ++ lit "). Preview: " ++ firstn 400 text)) /\
  (400 <= length text -> length (firstn 400 text) = 400)%nat.
Proof.
  intros Hreply Hparse. split.
  - unfold chatCompletion, settle. rewrite Hreply, Hparse.
    reflexivity.
  - intros Hlen. rewrite length_firstn. lia.
Qed.

(** C1, as amended: [chatCompletion] returns the structure whenever the
    transport value is, or is a string that parses into, an object whose
    [choices] is a list, empty or not; and it fails with a
    MalformedResponseError whenever the value is neither an object with a
    [choices] key nor a string that parses into one. *)
Theorem chatCompletion_failure_characterised
  (client : Client) (params : ChatCompletionCreateParams) (context : jsstring)
  (v : JsValue) :
  client params = Resolves v ->
  (forall d, structure_of v = Some d -> carries_choices_list d = true ->
             chatCompletion client params context = Ok d) /\
  ((forall d, structure_of v = Some d -> carries_choices d = false) ->
   exists e, chatCompletion client params context = Throws e /\
             MalformedResponseError context e).
Proof.
  intros Hreply. unfold chatCompletion. rewrite Hreply. split.
  - intros d Hd Hlist. apply carries_list_is_key in Hlist.
    unfold settle, structure_of in *.
    destruct v; try (injection Hd as <-; cbn [bind]; now rewrite shape_accepted).
    destruct (JSON_parse s); [|discriminate].
    injection Hd as <-. cbn [bind]. now rewrite shape_accepted.
  - intros Hnone. unfold settle, structure_of in *.
    assert (shape : forall r, carries_choices r = false ->
      exists e,
        (if negb (truthy r) || negb (typeof_object r) || negb (has_property P_choices r)
         then Throws (Error_ (context
                ++ lit ": Unexpected response shape (no choices). Preview: "
                ++ template_of (option_map (slice0 800) (JSON_stringify r))))
         else Ok r) = Throws e /\ MalformedResponseError context e).
    { intros r Hr. rewrite (shape_rejected r Hr). eexists. split; [reflexivity|].
      right. eauto. }
    destruct v; try (cbn [bind]; apply shape; now apply Hnone).
    destruct (JSON_parse s) as [x|message].
    + cbn [bind]. apply shape. now apply Hnone.
    + cbn [bind]. eexists. split; [reflexivity|]. left. eauto.
Qed.

(** ** The thought pattern *)

Lemma firstn_length_app (a b : jsstring) : firstn (length a) (a ++ b) = a.
Proof. induction a as [|c a IH]; simpl; [now destruct b | now rewrite IH]. Qed.

Lemma skipn_length_app (a b : jsstring) : skipn (length a) (a ++ b) = b.
Proof. induction a as [|c a IH]; simpl; [reflexivity | exact IH]. Qed.

(** A greedy star takes a run of its class that ends before a character
    outside the class, as soon as the rest of the pattern matches there. *)
Lemma star_greedy_run {R : Type} (class : code_unit -> bool) (k : RegExp.cont (R := R))
  (ws s' : jsstring) (caps : list jsstring) (r : R) :
  forall pos,
    forallb class ws = true ->
    match s' with c :: _ => class c = false | [] => True end ->
    k (pos + length ws)%nat s' caps = Some r ->
    RegExp.star_greedy class k pos (ws ++ s') caps = Some r.
Proof.
  induction ws as [|c ws IH]; intros pos Hws Hstop Hk.
  - simpl in *. rewrite Nat.add_0_r in Hk.
    destruct s' as [|c s']; simpl; [exact Hk | now rewrite Hstop].
  - simpl in Hws. apply andb_prop in Hws as [Hc Hws].
    simpl. rewrite Hc.
    rewrite (IH (S pos) Hws Hstop); [reflexivity|].
    simpl in Hk. now rewrite Nat.add_succ_r in Hk.
Qed.

(** A lazy star stops at the first index where the rest of the pattern
    matches. *)
Lemma star_lazy_run {R : Type} (class : code_unit -> bool) (k : RegExp.cont (R := R))
  (t s' : jsstring) (caps : list jsstring) (r : R) :
  forall pos,
    forallb class t = true ->
    (forall t1 t2, t = t1 ++ t2 -> t2 <> [] ->
                   k (pos + length t1)%nat (t2 ++ s') caps = None) ->
    k (pos + length t)%nat s' caps = Some r ->
    RegExp.star_lazy class k pos (t ++ s') caps = Some r.
Proof.
  induction t as [|c t IH]; intros pos Ht Hearly Hk.
  - simpl in *. rewrite Nat.add_0_r in Hk.
    destruct s' as [|c s']; simpl; now rewrite Hk.
  - simpl in Ht. apply andb_prop in Ht as [Hc Ht].
    simpl. pose proof (Hearly [] (c :: t) eq_refl) as H0.
    simpl in H0. rewrite Nat.add_0_r in H0. rewrite H0 by discriminate.
    rewrite Hc. apply IH; [exact Ht | |].
    + intros t1 t2 -> Hne.
      specialize (Hearly (c :: t1) t2 eq_refl Hne).
      simpl in Hearly. now rewrite Nat.add_succ_r in Hearly.
    + simpl in Hk. now rewrite Nat.add_succ_r in Hk.
Qed.

(** The closing tag cannot straddle the end of a text that does not contain
    it: inside the tag, the character that opens it does not occur again. *)
Lemma no_early_close (t1 t2 rest : jsstring) :
  includes close_tag (t1 ++ t2) = false -> t2 <> [] ->
  startsWith close_tag (t2 ++ close_tag ++ rest) = false.
Proof.
  intros Hin Hne. apply includes_suffix, includes_head in Hin.
  revert Hin.
  change close_tag with [60; 47; 116; 104; 111; 117; 103; 104; 116; 62].
  destruct t2 as [|c t2]; [contradiction|]. clear Hne.
  cbn [startsWith app andb].
  do 9 (match goal with |- context [N.eqb ?a ?b] => destruct (N.eqb a b) end;
        cbn [andb]; [|now intros];
        destruct t2 as [|? t2]; cbn [startsWith app andb]; [now intros|]).
  match goal with |- context [N.eqb ?a ?b] => destruct (N.eqb a b) end;
    cbn [andb]; now intros.
Qed.

Lemma search_unfold (p : RegExp.pattern) (pos : nat) (s : jsstring)
  (m : RegExp.MatchArray) :
  RegExp.match_at p pos s = Some m -> RegExp.search p pos s = Some m.
Proof. intros H. destruct s; simpl; now rewrite H. Qed.

(** What the pattern matches: white space, the opening tag, a thought without
    line terminator that does not contain the closing tag, the closing tag. *)
Lemma thought_match (ws t rest : jsstring) :
  forallb RegExp.space ws = true ->
  forallb RegExp.dot t = true ->
  includes close_tag t = false ->
  RegExp.match_ thought_pattern (ws ++ open_tag ++ t ++ close_tag ++ rest) =
    Some {| RegExp.matched := ws ++ open_tag ++ t ++ close_tag;
            RegExp.groups := [t] |}.
Proof.
  intros Hws Ht Hin. unfold RegExp.match_. apply search_unfold.
  unfold RegExp.match_at, thought_pattern. cbn [RegExp.run Nat.eqb].
  apply star_greedy_run; [exact Hws | reflexivity |].
  cbn [RegExp.run].
  rewrite startsWith_app, (skipn_length_app open_tag (t ++ close_tag ++ rest)).
  apply star_lazy_run; [exact Ht | |].
  - intros t1 t2 -> Hne. cbn [RegExp.run].
    now rewrite (no_early_close t1 t2 rest Hin Hne).
  - cbn [RegExp.run]. rewrite startsWith_app.
    replace (0 + length ws + length open_tag + length t
             - (0 + length ws + length open_tag))%nat
      with (length t) by lia.
    replace (0 + length ws + length open_tag + length t + length close_tag - 0)%nat
      with (length (ws ++ open_tag ++ t ++ close_tag))
      by (rewrite !length_app; lia).
    replace (ws ++ open_tag ++ t ++ close_tag ++ rest)
      with ((ws ++ open_tag ++ t ++ close_tag) ++ rest)
      by (now rewrite <- !app_assoc).
    rewrite (firstn_length_app t (close_tag ++ rest)).
    now rewrite (firstn_length_app (ws ++ open_tag ++ t ++ close_tag) rest).
Qed.

(** ** simpleInference *)

(** What [simpleInference] returns for a reply whose usage report it can log
    and whose message it can read. *)
Lemma simpleInference_message (heap : Heap) (request : InferenceRequest)
  (client : Client) (message : JsValue) :
  logs_usage (client (simple_request heap request)) = true ->
  reply_message (client (simple_request heap request)) = Some message ->
  simpleInference heap request client =
    let modelResponse := get_opt message P_content in
    if truthy modelResponse then
      match modelResponse with
      | JStr text =>
          Ok (or_else
                (JStr match RegExp.match_ thought_pattern text with
                      | Some m => substring_from (length (RegExp.matched m)) text
                      | None => text
                      end) JNull)
      | _ => Throws (TypeError (lit "modelResponse?.match is not a function"))
      end
    else Ok (or_else modelResponse JNull).
Proof.
  unfold logs_usage, reply_message, simpleInference, chatCompletion. intros Hlog H.
  destruct (settle [] _) as [response|] eqn:Hs; [|discriminate].
  rewrite (settle_ok_context _ (lit "simpleInference") _ _ Hs). cbn [bind].
  destruct (log_usage response) as [logged|]; [|discriminate]. cbn [bind].
  destruct (first_choice response) as [first|]; [|discriminate].
  injection H as <-. reflexivity.
Qed.

(** A leading thought on one line is stripped: what follows the closing tag
    is returned, or [null] when nothing follows. *)
Lemma simpleInference_strips (heap : Heap) (request : InferenceRequest)
  (client : Client) (message : JsValue) (ws t rest : jsstring) :
  logs_usage (client (simple_request heap request)) = true ->
  reply_message (client (simple_request heap request)) = Some message ->
  get_opt message P_content = JStr (ws ++ open_tag ++ t ++ close_tag ++ rest) ->
  forallb RegExp.space ws = true ->
  forallb RegExp.dot t = true ->
  includes close_tag t = false ->
  simpleInference heap request client = Ok (or_else (JStr rest) JNull).
Proof.
  intros Hlog Hmsg Hcontent Hws Ht Hin.
  rewrite (simpleInference_message _ _ _ _ Hlog Hmsg), Hcontent. cbn beta iota zeta.
  rewrite (thought_match ws t rest Hws Ht Hin). cbn [RegExp.matched].
  assert (truthy (JStr (ws ++ open_tag ++ t ++ close_tag ++ rest)) = true) as ->.
  { destruct ws; reflexivity. }
  unfold substring_from.
  replace (ws ++ open_tag ++ t ++ close_tag ++ rest)
    with ((ws ++ open_tag ++ t ++ close_tag) ++ rest)
    by (now rewrite <- !app_assoc).
  now rewrite skipn_length_app.
Qed.

(** X24: A leading thought on one line is stripped.  When the content of a
    simple-inference reply begins (after optional white space) with the
    opening tag, a thought without line terminator and the closing tag, the
    wrapper ending at the first closing tag, and the usage report of the
    reply can be logged, [simpleInference] returns what follows the wrapper
    and nothing of the thought: the text after the closing tag, or [null]
    when nothing follows. *)
Theorem simpleInference_strips_one_line_thought (heap : Heap)
  (request : InferenceRequest) (client : Client) (message : JsValue)
  (ws thought rest : jsstring) :
  logs_usage (client (simple_request heap request)) = true ->
  reply_message (client (simple_request heap request)) = Some message ->
  get_opt message P_content = JStr (ws ++ open_tag ++ thought ++ close_tag ++ rest) ->
  forallb RegExp.space ws = true ->
  forallb (fun c => negb (RegExp.line_terminator c)) thought = true ->
  includes close_tag thought = false ->
  simpleInference heap request client =
    Ok (match rest with [] => JNull | _ :: _ => JStr rest end).
Proof.
  intros Hlog Hmsg Hcontent Hws Ht Hin.
  rewrite (simpleInference_strips _ _ _ _ ws thought rest Hlog Hmsg Hcontent Hws Ht Hin).
  now destruct rest.
Qed.

(** [simpleInference] returns a string that is not empty, or [null]. *)
Lemma simpleInference_result (heap : Heap) (request : InferenceRequest)
  (client : Client) (v : JsValue) :
  simpleInference heap request client = Ok v ->
  exists x, v = or_else x JNull.
Proof.
  unfold simpleInference. intros H.
  destruct (chatCompletion _ _ _) as [response|]; [|discriminate]. cbn [bind] in H.
  destruct (log_usage response) as [logged|]; [|discriminate]. cbn [bind] in H.
  destruct (first_choice response) as [first|]; [|discriminate]. cbn [bind] in H.
  cbn zeta in H. destruct (truthy _).
  - destruct (get_opt _ P_content); try discriminate.
    injection H as <-. eauto.
  - injection H as <-. eauto.
Qed.

(** ** The heap *)

Lemma push_lookup (messages : nat) (items : list ChatMessage) (heap : Heap) :
  push messages items heap !!! messages = heap !!! messages ++ items.
Proof. unfold push. apply lookup_total_insert_eq. Qed.

Lemma push_other (r messages : nat) (items : list ChatMessage) (heap : Heap) :
  r <> messages -> push messages items heap !! r = heap !! r.
Proof. intros H. unfold push. now apply lookup_insert_ne. Qed.

Lemma alloc_lookup (items : list ChatMessage) (heap : Heap) :
  snd (alloc items heap) !!! fst (alloc items heap) = items.
Proof. unfold alloc. cbn [fst snd]. apply lookup_total_insert_eq. Qed.

Lemma alloc_other (r : nat) (items : list ChatMessage) (heap : Heap) :
  is_Some (heap !! r) -> snd (alloc items heap) !! r = heap !! r.
Proof.
  intros [x Hx]. unfold alloc. cbn [snd]. apply lookup_insert_ne.
  intros <-. pose proof (is_fresh (dom heap)) as Hfresh.
  apply not_elem_of_dom in Hfresh. congruence.
Qed.

Lemma alloc_fresh (r : nat) (items : list ChatMessage) (heap : Heap) :
  is_Some (heap !! r) -> r <> fst (alloc items heap).
Proof.
  intros [x Hx] Heq. unfold alloc in Heq. cbn [fst] in Heq.
  pose proof (is_fresh (dom heap)) as Hfresh.
  apply not_elem_of_dom in Hfresh. congruence.
Qed.

(** ** One pass of the loop *)



(** A falsy content is a primitive, in place of which a text is logged. *)
Lemma printable_or_else (c : JsValue) (text : jsstring) :
  printable (or_else c (JStr text)) = printable c.
Proof. unfold or_else. destruct (truthy c) eqn:E; [reflexivity | now destruct c]. Qed.

Lemma template_one (v : JsValue) :
  template [v] = if printable v then Ok tt else Throws conversion_error.
Proof. reflexivity. Qed.


(** The call a pass makes is fixed by the loop's variables and its array. *)
Lemma iteration_exchange (request : InferenceRequest)
  (githubMcpClient : GitHubMCPClient McpSession) (create : nat -> Client)
  (messages : nat) (st : LoopState) (heap : Heap) :
  snd (iteration request githubMcpClient create messages st heap) =
    pass_exchange request githubMcpClient create st (heap !!! messages).
Proof.
  unfold iteration, pass_exchange. cbn zeta.
  destruct (bind _ _); [|reflexivity].
  destruct (template _); [|reflexivity].
  destruct (no_tool_calls _).
  - now destruct (InferenceRequest.responseFormat request), (finalMessage st).
  - destruct (template _); [|reflexivity]. now destruct (executeToolCalls _ _ _).
Qed.

(** A pass whose reply cannot be read throws and leaves the array as it is. *)
Lemma iteration_failed (request : InferenceRequest)
  (githubMcpClient : GitHubMCPClient McpSession) (create : nat -> Client)
  (messages : nat) (st : LoopState) (heap : Heap) :
  let exchange := pass_exchange request githubMcpClient create st (heap !!! messages) in
  pass_message exchange = None ->
  exists error,
    iteration request githubMcpClient create messages st heap =
      (Raise error, heap, exchange).
Proof.
  cbn zeta. unfold pass_message, reply_message, pass_exchange. cbn [reply].
  unfold iteration, chatCompletion. cbn zeta. intros H.
  destruct (settle [] _) as [response|e0] eqn:Hs.
  - rewrite (settle_ok_context _ (lit "mcpInference iteration "
                                    ++ decimal (S (iterationCount st))) _ _ Hs).
    cbn [bind]. destruct (first_choice response); [discriminate | eauto].
  - destruct (settle_throws_context _ (lit "mcpInference iteration "
                 ++ decimal (S (iterationCount st))) _ _ Hs) as [e' ->].
    cbn [bind]. eauto.
Qed.

(** A pass whose reply can be read, step by step: the log line of the
    content, the push, the test for tool calls, the log line of their number
    and the executor. *)
Lemma iteration_steps (request : InferenceRequest)
  (githubMcpClient : GitHubMCPClient McpSession) (create : nat -> Client)
  (messages : nat) (st : LoopState) (heap : Heap) (message : JsValue) :
  let exchange := pass_exchange request githubMcpClient create st (heap !!! messages) in
  pass_message exchange = Some message ->
  iteration request githubMcpClient create messages st heap =
    let modelResponse := get_opt message P_content in
    let toolCalls := get_opt message P_tool_calls in
    let heap1 := push messages [assistant_entry modelResponse toolCalls] heap in
    if printable modelResponse then
      if no_tool_calls toolCalls then
        match InferenceRequest.responseFormat request, finalMessage st with
        | Some format, false =>
            (Next {| iterationCount := S (iterationCount st); finalMessage := true |},
             push messages [reformat_entry format] heap1, exchange)
        | _, _ => (Return (or_else modelResponse JNull), heap1, exchange)
        end
      else if printable (get_opt toolCalls P_length) then
        match executeToolCalls (GitHubMCPClient.client githubMcpClient)
                (S (iterationCount st)) toolCalls with
        | Throws error => (Raise error, heap1, exchange)
        | Ok toolResults =>
            (Next {| iterationCount := S (iterationCount st);
                     finalMessage := finalMessage st |},
             push messages toolResults heap1, exchange)
        end
      else (Raise conversion_error, heap1, exchange)
    else (Raise conversion_error, heap, exchange).
Proof.
  cbn zeta. unfold pass_message, reply_message, pass_exchange. cbn [reply].
  unfold iteration, chatCompletion. cbn zeta. intros H.
  destruct (settle [] _) as [response|e0] eqn:Hs; [|discriminate].
  rewrite (settle_ok_context _ (lit "mcpInference iteration "
                                  ++ decimal (S (iterationCount st))) _ _ Hs).
  cbn [bind]. destruct (first_choice response); [|discriminate].
  injection H as <-. rewrite !template_one, printable_or_else.
  destruct (printable (get_opt (get_opt a P_message) P_content)); [|reflexivity].
  destruct (no_tool_calls _); [reflexivity|].
  now destruct (printable (get_opt (get_opt (get_opt a P_message) P_tool_calls) P_length)).
Qed.

(** A pass whose reply can be read and whose content can be logged: what it
    pushes and how it ends. *)
Lemma iteration_read (request : InferenceRequest)
  (githubMcpClient : GitHubMCPClient McpSession) (create : nat -> Client)
  (messages : nat) (st : LoopState) (heap : Heap) (message : JsValue) :
  let exchange := pass_exchange request githubMcpClient create st (heap !!! messages) in
  pass_message exchange = Some message ->
  printable (get_opt message P_content) = true ->
  iteration request githubMcpClient create messages st heap =
    let modelResponse := get_opt message P_content in
    let toolCalls := get_opt message P_tool_calls in
    let heap1 := push messages [assistant_entry modelResponse toolCalls] heap in
    if no_tool_calls toolCalls then
      match InferenceRequest.responseFormat request, finalMessage st with
      | Some format, false =>
          (Next {| iterationCount := S (iterationCount st); finalMessage := true |},
           push messages [reformat_entry format] heap1, exchange)
      | _, _ => (Return (or_else modelResponse JNull), heap1, exchange)
      end
    else if printable (get_opt toolCalls P_length) then
      match executeToolCalls (GitHubMCPClient.client githubMcpClient)
              (S (iterationCount st)) toolCalls with
      | Throws error => (Raise error, heap1, exchange)
      | Ok toolResults =>
          (Next {| iterationCount := S (iterationCount st);
                   finalMessage := finalMessage st |},
           push messages toolResults heap1, exchange)
      end
    else (Raise conversion_error, heap1, exchange).
Proof.
  cbn zeta. intros Hm Hlogged.
  rewrite (iteration_steps _ _ _ _ _ _ _ Hm). cbn zeta. now rewrite Hlogged.
Qed.

(** A pass whose content cannot be logged throws before anything is
    pushed. *)
Lemma iteration_unlogged (request : InferenceRequest)
  (githubMcpClient : GitHubMCPClient McpSession) (create : nat -> Client)
  (messages : nat) (st : LoopState) (heap : Heap) (message : JsValue) :
  let exchange := pass_exchange request githubMcpClient create st (heap !!! messages) in
  pass_message exchange = Some message ->
  printable (get_opt message P_content) = false ->
  iteration request githubMcpClient create messages st heap =
    (Raise conversion_error, heap, exchange).
Proof.
  cbn zeta. intros Hm Hlogged.
  rewrite (iteration_steps _ _ _ _ _ _ _ Hm). cbn zeta. now rewrite Hlogged.
Qed.

(** The references a pass leaves alone, and what it does to its own array. *)
Lemma iteration_frame (request : InferenceRequest)
  (githubMcpClient : GitHubMCPClient McpSession) (create : nat -> Client)
  (messages : nat) (st : LoopState) (heap : Heap) :
  let heap' := snd (fst (iteration request githubMcpClient create messages st heap)) in
  (forall r, r <> messages -> heap' !! r = heap !! r) /\
  exists pushed, heap' !!! messages = heap !!! messages ++ pushed.
Proof.
  cbn zeta.
  assert (unchanged : (forall r, r <> messages -> heap !! r = heap !! r) /\
                      exists pushed, heap !!! messages = heap !!! messages ++ pushed).
  { split; [reflexivity|]. exists []. now rewrite app_nil_r. }
  destruct (pass_message (pass_exchange request githubMcpClient create st
                            (heap !!! messages))) as [message|] eqn:Hm.
  - rewrite (iteration_steps _ _ _ _ _ _ _ Hm). cbn zeta.
    destruct (printable (get_opt message P_content)); [|exact unchanged].
    destruct (no_tool_calls _).
    + destruct (InferenceRequest.responseFormat request), (finalMessage st);
        cbn [fst snd]; (split; [intros ref Href; now rewrite ?push_other by exact Href|]);
        rewrite ?push_lookup, <- ?app_assoc; eauto.
    + destruct (printable (get_opt _ P_length)); [destruct (executeToolCalls _ _ _)|];
        cbn [fst snd]; (split; [intros ref Href; now rewrite ?push_other by exact Href|]);
        rewrite ?push_lookup, <- ?app_assoc; eauto.
  - destruct (iteration_failed _ _ _ _ _ _ Hm) as [error ->]. exact unchanged.
Qed.

(** ** After the loop *)

Lemma after_loop_run (messages : nat) (heap : Heap) :
  outcome (after_loop messages heap) =
    Ok (or_else (last_assistant_content (heap !!! messages)) JNull) /\
  exchanges (after_loop messages heap) = [] /\
  history (after_loop messages heap) = heap !!! messages /\
  forall r, is_Some (heap !! r) -> heap_after (after_loop messages heap) !! r = heap !! r.
Proof.
  unfold after_loop, alloc, reverse, last_assistant_content.
  cbn [outcome exchanges history heap_after].
  rewrite !lookup_total_insert_eq. repeat split.
  intros r Hr. rewrite insert_insert_eq.
  apply lookup_insert_ne. intros <-.
  pose proof (is_fresh (dom heap)) as Hfresh.
  apply not_elem_of_dom in Hfresh. destruct Hr as [x Hx]. congruence.
Qed.

Lemma find_skip {A : Type} (f : A -> bool) (l l' : list A) :
  Forall (fun x => f x = false) l -> List.find f (l ++ l') = List.find f l'.
Proof.
  induction 1 as [|x l Hx _ IH]; [reflexivity|].
  cbn [app List.find]. now rewrite Hx.
Qed.

(** The most recent assistant message, when only tool results follow it. *)
Lemma find_last_assistant (older results : list ChatMessage) (entry : ChatMessage) :
  role entry = assistant ->
  Forall (fun m => role m = tool) results ->
  List.find is_assistant (rev (older ++ [entry] ++ results)) = Some entry.
Proof.
  intros Hentry Hresults.
  rewrite !rev_app_distr, <- app_assoc. cbn [rev app].
  rewrite find_skip.
  - cbn [List.find]. unfold is_assistant. now rewrite Hentry.
  - apply Forall_rev. eapply Forall_impl; [exact Hresults|].
    intros m Hm. unfold is_assistant. now rewrite Hm.
Qed.

(** ** The loop *)

Section Loop.

Variable request : InferenceRequest.
Variable githubMcpClient : GitHubMCPClient McpSession.
Variable create : nat -> Client.
Variable messages : nat.

Local Abbreviation iteration_ := (iteration request githubMcpClient create messages).
Local Abbreviation loop n := (while_ n request githubMcpClient create messages).
Local Abbreviation pass_of st heap :=
  (pass_exchange request githubMcpClient create st (heap !!! messages)).

(** One unfolding of the loop. *)
Lemma while_step (n : nat) (st : LoopState) (heap : Heap) :
  loop (S n) st heap =
    match iteration_ st heap with
    | (Next st', heap', exchange) => record_exchange exchange (loop n st' heap')
    | (Return v, heap', exchange) =>
        {| outcome := Ok v; heap_after := heap'; exchanges := [exchange];
           history := heap' !!! messages |}
    | (Raise error, heap', exchange) =>
        {| outcome := Throws error; heap_after := heap'; exchanges := [exchange];
           history := heap' !!! messages |}
    end.
Proof.
  cbn [while_]. now destruct (iteration_ st heap) as [[[] ?] ?].
Qed.

(** The first call of a run of the loop that makes a pass. *)
Lemma while_first_exchange (n : nat) (st : LoopState) (heap : Heap) :
  exists later, exchanges (loop (S n) st heap) = pass_of st heap :: later.
Proof.
  rewrite while_step.
  pose proof (iteration_exchange request githubMcpClient create messages st heap) as He.
  destruct (iteration_ st heap) as [[control heap'] exchange]. cbn [snd] in He.
  subst exchange. destruct control; cbn [exchanges record_exchange]; eauto.
Qed.

(** The loop writes to its own array only, and only by appending. *)
Lemma while_frame (n : nat) :
  forall (st : LoopState) (heap : Heap),
    (forall r, r <> messages -> is_Some (heap !! r) ->
               heap_after (loop n st heap) !! r = heap !! r) /\
    exists appended, history (loop n st heap) = heap !!! messages ++ appended.
Proof.
  induction n as [|n IH]; intros st heap.
  - destruct (after_loop_run messages heap) as (_ & _ & Hh & Hf). split.
    + intros r _ Hr. now apply Hf.
    + exists []. now rewrite app_nil_r.
  - rewrite while_step.
    destruct (iteration_frame request githubMcpClient create messages st heap)
      as [Hother [pushed Hpushed]].
    destruct (iteration_ st heap) as [[control heap'] exchange].
    cbn [fst snd] in Hother, Hpushed.
    destruct control as [st'|v|error]; cbn [heap_after history record_exchange].
    + destruct (IH st' heap') as [Hf [appended Ha]]. split.
      * intros r Hne Hr. rewrite Hf; [now apply Hother | exact Hne |].
        now rewrite Hother.
      * exists (pushed ++ appended). now rewrite Ha, Hpushed, app_assoc.
    + split; [intros r Hne _; now apply Hother | eauto].
    + split; [intros r Hne _; now apply Hother | eauto].
Qed.

Lemma pass_exchange_exclusive (st : LoopState) (items : list ChatMessage) :
  flag_justified request st ->
  tools_xor_format request githubMcpClient
    (pass_exchange request githubMcpClient create st items).
Proof.
  unfold flag_justified, tools_xor_format, pass_exchange, loop_request.
  cbn [finalizing params]. intros Hflag.
  destruct (finalMessage st); [|now repeat split].
  destruct (Hflag eq_refl) as [format Hformat]. rewrite Hformat.
  repeat split; eauto.
Qed.

Lemma iteration_flag (st st' : LoopState) (heap : Heap) :
  flag_justified request st ->
  fst (fst (iteration_ st heap)) = Next st' ->
  flag_justified request st'.
Proof.
  intros Hflag.
  destruct (pass_message (pass_of st heap)) as [message|] eqn:Hm.
  - rewrite (iteration_steps _ _ _ _ _ _ _ Hm). cbn zeta.
    destruct (printable (get_opt message P_content)); [|discriminate].
    destruct (no_tool_calls _).
    + destruct (InferenceRequest.responseFormat request) as [format|] eqn:Hf,
        (finalMessage st) eqn:Hfinal; cbn [fst]; intros H; try discriminate.
      injection H as <-. intros _. rewrite Hf. eauto.
    + destruct (printable (get_opt _ P_length)); [|discriminate].
      destruct (executeToolCalls _ _ _); cbn [fst]; intros H; [|discriminate].
      injection H as <-. exact Hflag.
  - destruct (iteration_failed _ _ _ _ _ _ Hm) as [error ->]. discriminate.
Qed.

Lemma while_exclusive (n : nat) :
  forall (st : LoopState) (heap : Heap),
    flag_justified request st ->
    Forall (tools_xor_format request githubMcpClient) (exchanges (loop n st heap)).
Proof.
  induction n as [|n IH]; intros st heap Hflag.
  - cbn [while_]. destruct (after_loop_run messages heap) as (_ & -> & _). constructor.
  - rewrite while_step.
    pose proof (iteration_exchange request githubMcpClient create messages st heap) as He.
    pose proof (fun st' => iteration_flag st st' heap Hflag) as Hnext.
    destruct (iteration_ st heap) as [[control heap'] exchange].
    cbn [fst snd] in He, Hnext. subst exchange.
    pose proof (pass_exchange_exclusive st (heap !!! messages) Hflag) as Hx.
    destruct control as [st'|v|error]; cbn [exchanges record_exchange].
    + constructor; [exact Hx | apply IH; now apply Hnext].
    + constructor; [exact Hx | constructor].
    + constructor; [exact Hx | constructor].
Qed.

(** The content of the last assistant message, just after one was pushed. *)
Lemma last_assistant_pushed (older : list ChatMessage) (modelResponse toolCalls : JsValue) :
  last_assistant_content (older ++ [assistant_entry modelResponse toolCalls]) =
    or_else modelResponse (JStr []).
Proof.
  unfold last_assistant_content.
  pose proof (find_last_assistant older [] (assistant_entry modelResponse toolCalls)
                eq_refl (List.Forall_nil _)) as H.
  cbn [app] in H. now rewrite H.
Qed.

(** Whatever the loop returns is the content of the last assistant message
    of its array, or [null] in place of a falsy content. *)
Lemma while_result (n : nat) :
  forall (st : LoopState) (heap : Heap) (v : JsValue),
    outcome (loop n st heap) = Ok v ->
    v = or_else (last_assistant_content (history (loop n st heap))) JNull.
Proof.
  induction n as [|n IH]; intros st heap v.
  - cbn [while_]. destruct (after_loop_run messages heap) as (-> & _ & -> & _).
    congruence.
  - rewrite while_step.
    destruct (pass_message (pass_of st heap)) as [message|] eqn:Hm.
    + rewrite (iteration_steps _ _ _ _ _ _ _ Hm). cbn zeta.
      destruct (printable (get_opt message P_content)); [|discriminate].
      destruct (no_tool_calls _).
      * destruct (InferenceRequest.responseFormat request), (finalMessage st);
          cbn [outcome history record_exchange];
          try apply IH;
          intros H; injection H as <-;
          now rewrite push_lookup, last_assistant_pushed, or_else_empty_null.
      * destruct (printable (get_opt _ P_length)); [|discriminate].
        destruct (executeToolCalls _ _ _); cbn [outcome history record_exchange];
          [apply IH | discriminate].
    + destruct (iteration_failed _ _ _ _ _ _ Hm) as [error ->]. discriminate.
Qed.

End Loop.

(** C9: The request is not mutated: [mcpInference] copies the request's
    message array into an array of its own and appends to that copy only, so
    that after the call the request's array (and every other array that
    existed before the call) holds what it held before. *)
Theorem mcpInference_leaves_request_messages (heap : Heap)
  (request : InferenceRequest) (githubMcpClient : GitHubMCPClient McpSession)
  (create : nat -> Client) :
  is_Some (heap !! InferenceRequest.messages request) ->
  heap_after (mcpInference heap request githubMcpClient create)
    !! InferenceRequest.messages request
  = heap !! InferenceRequest.messages request /\
  (forall r, is_Some (heap !! r) ->
             heap_after (mcpInference heap request githubMcpClient create) !! r
             = heap !! r) /\
  exists appended,
    history (mcpInference heap request githubMcpClient create) =
      heap !!! InferenceRequest.messages request ++ appended.
Proof.
  intros Hrequest.
  assert (frame : forall r, is_Some (heap !! r) ->
            heap_after (mcpInference heap request githubMcpClient create) !! r
            = heap !! r).
  { intros r Hr. unfold mcpInference.
    pose proof (alloc_other r (heap !!! InferenceRequest.messages request) heap Hr) as Ho.
    pose proof (alloc_fresh r (heap !!! InferenceRequest.messages request) heap Hr) as Hf.
    destruct (alloc _ heap) as [local heap1]. cbn [fst snd] in Ho, Hf.
    destruct (while_frame request githubMcpClient create local
                (maxIterations - 0) {| iterationCount := 0; finalMessage := false |}
                heap1) as [H _].
    cbn [iterationCount]. rewrite H; [exact Ho | exact Hf | now rewrite Ho]. }
  split; [now apply frame | split; [exact frame|]].
  unfold mcpInference.
  pose proof (alloc_lookup (heap !!! InferenceRequest.messages request) heap) as Hl.
  destruct (alloc _ heap) as [local heap1]. cbn [fst snd] in Hl.
  destruct (while_frame request githubMcpClient create local
              (maxIterations - 0) {| iterationCount := 0; finalMessage := false |}
              heap1) as [_ [appended Ha]].
  exists appended. cbn [iterationCount]. now rewrite Ha, Hl.
Qed.

(** C4: On every pass of the tool loop the parameters sent hold either the
    tool definitions or the declared response format and never both: the
    tools exactly when the pass is not the finalizing one, the response
    format exactly when it is. *)
Theorem mcpInference_tools_xor_format (heap : Heap)
  (request : InferenceRequest) (githubMcpClient : GitHubMCPClient McpSession)
  (create : nat -> Client) :
  Forall (fun e =>
            (is_Some (ChatCompletionCreateParams.tools (params e))
             <-> finalizing e = false) /\
            (is_Some (ChatCompletionCreateParams.response_format (params e))
             <-> finalizing e = true) /\
            tools_xor_format request githubMcpClient e)
         (exchanges (mcpInference heap request githubMcpClient create)).
Proof.
  unfold mcpInference. destruct (alloc _ heap) as [local heap1].
  eapply Forall_impl.
  - apply while_exclusive. intros H. discriminate H.
  - intros e He. split; [|split; [|exact He]].
    + destruct He as (-> & _ & _). destruct (finalizing e); split;
        intros H; try discriminate; eauto. now destruct H.
    + destruct He as (_ & -> & Hdeclared). destruct (finalizing e); split;
        intros H; try discriminate; eauto. now destruct H.
Qed.

(** ** Runs that end without tools *)

(** A pass without tool calls, whose content can be logged, ends the loop
    when no response format was declared or the pass is the finalizing one. *)
Lemma while_single_pass (request : InferenceRequest)
  (githubMcpClient : GitHubMCPClient McpSession) (create : nat -> Client)
  (messages n : nat) (st : LoopState) (heap : Heap)
  (e : Exchange) (rest : list Exchange) (message : JsValue) :
  InferenceRequest.responseFormat request = None \/ finalMessage st = true ->
  exchanges (while_ (S n) request githubMcpClient create messages st heap) = e :: rest ->
  pass_message e = Some message ->
  printable (get_opt message P_content) = true ->
  no_tool_calls (get_opt message P_tool_calls) = true ->
  rest = [] /\
  outcome (while_ (S n) request githubMcpClient create messages st heap) =
    Ok (or_else (get_opt message P_content) JNull) /\
  history (while_ (S n) request githubMcpClient create messages st heap) =
    heap !!! messages
      ++ [assistant_entry (get_opt message P_content) (get_opt message P_tool_calls)].
Proof.
  intros Hlast Hex Hm Hlogged Hno.
  destruct (while_first_exchange request githubMcpClient create messages n st heap)
    as [later Hfirst].
  rewrite Hfirst in Hex. injection Hex as <- <-.
  revert Hfirst. rewrite while_step, (iteration_read _ _ _ _ _ _ _ Hm Hlogged). cbn zeta.
  rewrite Hno.
  assert (match InferenceRequest.responseFormat request, finalMessage st with
          | Some _, false => False
          | _, _ => True
          end) as Hcase.
  { destruct Hlast as [-> | ->]; [exact I|].
    now destruct (InferenceRequest.responseFormat request). }
  destruct (InferenceRequest.responseFormat request), (finalMessage st);
    try contradiction;
    cbn [exchanges outcome history]; intros Hfirst; injection Hfirst as <-;
    now rewrite push_lookup.
Qed.

(** A first pass without tool calls, under a declared response format: the
    request for the format is pushed and a finalizing pass follows. *)
Lemma while_reformat (request : InferenceRequest)
  (githubMcpClient : GitHubMCPClient McpSession) (create : nat -> Client)
  (messages n : nat) (st : LoopState) (heap : Heap) (format : ResponseFormat)
  (e1 : Exchange) (rest : list Exchange) (message1 : JsValue) :
  InferenceRequest.responseFormat request = Some format ->
  finalMessage st = false ->
  exchanges (while_ (S (S n)) request githubMcpClient create messages st heap)
    = e1 :: rest ->
  pass_message e1 = Some message1 ->
  printable (get_opt message1 P_content) = true ->
  no_tool_calls (get_opt message1 P_tool_calls) = true ->
  let entry1 :=
    assistant_entry (get_opt message1 P_content) (get_opt message1 P_tool_calls) in
  exists e2 rest',
    rest = e2 :: rest' /\
    e2 = pass_exchange request githubMcpClient create
           {| iterationCount := S (iterationCount st); finalMessage := true |}
           (heap !!! messages ++ [entry1; reformat_entry format]) /\
    forall message2,
      pass_message e2 = Some message2 ->
      printable (get_opt message2 P_content) = true ->
      no_tool_calls (get_opt message2 P_tool_calls) = true ->
      rest' = [] /\
      outcome (while_ (S (S n)) request githubMcpClient create messages st heap) =
        Ok (or_else (get_opt message2 P_content) JNull) /\
      history (while_ (S (S n)) request githubMcpClient create messages st heap) =
        heap !!! messages
          ++ [entry1; reformat_entry format;
              assistant_entry (get_opt message2 P_content)
                (get_opt message2 P_tool_calls)].
Proof.
  intros Hformat Hfinal Hex Hm Hlogged Hno. cbn zeta.
  destruct (while_first_exchange request githubMcpClient create messages (S n) st heap)
    as [later Hfirst].
  rewrite Hfirst in Hex. injection Hex as <- <-.
  revert Hfirst.
  rewrite (while_step request githubMcpClient create messages (S n) st heap),
    (iteration_read _ _ _ _ _ _ _ Hm Hlogged).
  cbn zeta. rewrite Hno, Hformat, Hfinal.
  cbn [exchanges outcome history record_exchange].
  set (heap2 := push messages [reformat_entry format] (push messages _ heap)).
  set (st2 := {| iterationCount := S (iterationCount st); finalMessage := true |}).
  assert (Hitems : heap2 !!! messages =
            heap !!! messages
              ++ [assistant_entry (get_opt message1 P_content)
                    (get_opt message1 P_tool_calls); reformat_entry format]).
  { unfold heap2. now rewrite !push_lookup, <- app_assoc. }
  intros Hfirst. apply (f_equal (@List.tl Exchange)) in Hfirst as Hlater.
  cbn [List.tl] in Hlater.
  destruct (while_first_exchange request githubMcpClient create messages n st2 heap2)
    as [later2 Hsecond].
  exists (pass_exchange request githubMcpClient create st2 (heap2 !!! messages)), later2.
  split; [now rewrite <- Hlater, Hsecond|].
  split; [now rewrite Hitems|].
  intros message2 Hm2 Hlogged2 Hno2.
  destruct (while_single_pass request githubMcpClient create messages n st2 heap2
              _ _ message2 (or_intror eq_refl) Hsecond Hm2 Hlogged2 Hno2)
    as (-> & -> & ->).
  rewrite Hitems, <- app_assoc. now repeat split.
Qed.


(** X25: The forced reformat, up to the pass that answers it.  Under a
    declared response format, when the first pass returns no tool calls (and
    a content that can be logged), the loop pushes the message asking for
    the format and makes a second pass, the finalizing one, which sends the
    response format, no tools, and the messages of the request followed by
    the first reply and the request for the format; when that second pass
    returns no tool calls either, the loop ends there and returns its
    assistant content ([null] in place of a falsy content), the array having
    grown by the first reply, the one request for the format and the second
    reply. *)
Theorem mcpInference_forced_reformat (heap : Heap)
  (request : InferenceRequest) (githubMcpClient : GitHubMCPClient McpSession)
  (create : nat -> Client) (format : ResponseFormat)
  (e1 : Exchange) (rest : list Exchange) (message1 : JsValue) :
  InferenceRequest.responseFormat request = Some format ->
  exchanges (mcpInference heap request githubMcpClient create) = e1 :: rest ->
  pass_message e1 = Some message1 ->
  printable (get_opt message1 P_content) = true ->
  no_tool_calls (get_opt message1 P_tool_calls) = true ->
  let entry1 :=
    assistant_entry (get_opt message1 P_content) (get_opt message1 P_tool_calls) in
  let seed := heap !!! InferenceRequest.messages request in
  exists e2 rest',
    rest = e2 :: rest' /\
    finalizing e2 = true /\
    ChatCompletionCreateParams.tools (params e2) = None /\
    ChatCompletionCreateParams.response_format (params e2) = Some format /\
    ChatCompletionCreateParams.messages (params e2) =
      seed ++ [entry1; reformat_entry format] /\
    forall message2,
      pass_message e2 = Some message2 ->
      printable (get_opt message2 P_content) = true ->
      no_tool_calls (get_opt message2 P_tool_calls) = true ->
      length (exchanges (mcpInference heap request githubMcpClient create)) = 2%nat /\
      history (mcpInference heap request githubMcpClient create) =
        seed ++ [entry1; reformat_entry format;
                 assistant_entry (get_opt message2 P_content)
                   (get_opt message2 P_tool_calls)] /\
      outcome (mcpInference heap request githubMcpClient create) =
        Ok (or_else (get_opt message2 P_content) JNull).
Proof.
  unfold mcpInference.
  pose proof (alloc_lookup (heap !!! InferenceRequest.messages request) heap) as Hseed.
  destruct (alloc _ heap) as [local heap1]. cbn [fst snd] in Hseed.
  cbn [iterationCount]. change (maxIterations - 0)%nat with 5%nat.
  intros Hformat Hex Hm Hlogged Hno. cbn zeta.
  destruct (while_reformat request githubMcpClient create local 3
              {| iterationCount := 0; finalMessage := false |} heap1 format
              e1 rest message1 Hformat eq_refl Hex Hm Hlogged Hno)
    as (e2 & rest' & -> & He2 & Hthen).
  exists e2, rest'. rewrite Hseed in He2, Hthen.
  split; [reflexivity|].
  assert (finalizing e2 = true /\
          params e2 =
            loop_request request githubMcpClient true
              (heap !!! InferenceRequest.messages request
                 ++ [assistant_entry (get_opt message1 P_content)
                       (get_opt message1 P_tool_calls); reformat_entry format]))
    as [Hfinalizing Hsent] by (subst e2; now split).
  split; [exact Hfinalizing|].
  rewrite Hsent. unfold loop_request. rewrite Hformat.
  cbn [ChatCompletionCreateParams.set_response_format
         ChatCompletionCreateParams.tools ChatCompletionCreateParams.response_format
         ChatCompletionCreateParams.messages].
  do 3 (split; [reflexivity|]).
  intros message2 Hm2 Hlogged2 Hno2.
  destruct (Hthen message2 Hm2 Hlogged2 Hno2) as (-> & Hout & Hhist).
  rewrite Hex. repeat split; assumption.
Qed.

(** ** Runs that reach the cap *)




(** ** Empty content *)

(** A run whose last pass returns no tool calls, and a content that can be
    logged, returns the content of that pass, or [null] in place of a falsy
    content: the pass ends the loop, or it is the last pass the cap allows
    and its assistant message is the most recent one. *)
Lemma while_ends_without_tools (request : InferenceRequest)
  (githubMcpClient : GitHubMCPClient McpSession) (create : nat -> Client)
  (messages : nat) (e : Exchange) (message : JsValue) :
  pass_message e = Some message ->
  printable (get_opt message P_content) = true ->
  no_tool_calls (get_opt message P_tool_calls) = true ->
  forall (n : nat) (st : LoopState) (heap : Heap),
    last (exchanges (while_ (S n) request githubMcpClient create messages st heap))
      = Some e ->
    outcome (while_ (S n) request githubMcpClient create messages st heap)
      = Ok (or_else (get_opt message P_content) JNull).
Proof.
  intros Hmessage Hlogged Hno.
  assert (after : forall heap modelResponse toolCalls more,
            Forall (fun m => is_assistant m = false) more ->
            outcome (after_loop messages
                       (push messages more
                          (push messages [assistant_entry modelResponse toolCalls] heap)))
            = Ok (or_else modelResponse JNull)).
  { intros heap modelResponse toolCalls more Hmore.
    destruct (after_loop_run messages
                (push messages more
                   (push messages [assistant_entry modelResponse toolCalls] heap)))
      as (-> & _).
    rewrite !push_lookup. unfold last_assistant_content.
    rewrite rev_app_distr, find_skip by (now apply Forall_rev).
    rewrite rev_app_distr. cbn [rev app List.find is_assistant role assistant_entry
                                  Role_eqb content].
    now rewrite or_else_empty_null. }
  assert (here : forall (st : LoopState) (heap : Heap) (message0 : JsValue),
            pass_message
              (pass_exchange request githubMcpClient create st (heap !!! messages))
              = Some message0 ->
            Some (pass_exchange request githubMcpClient create st (heap !!! messages))
              = Some e ->
            message0 = message).
  { intros st heap message0 Hm0 He. injection He as <-. congruence. }
  assert (later : forall n (st : LoopState) (heap : Heap) (e0 : Exchange),
            last (e0 :: exchanges (while_ (S n) request githubMcpClient create
                                     messages st heap)) = Some e ->
            last (exchanges (while_ (S n) request githubMcpClient create
                               messages st heap)) = Some e).
  { intros n st heap e0.
    destruct (while_first_exchange request githubMcpClient create messages n st heap)
      as [more ->].
    now rewrite last_cons_cons. }
  assert (capped : forall (st : LoopState) (heap : Heap),
            exchanges (while_ 0 request githubMcpClient create messages st heap) = []).
  { intros st heap. cbn [while_].
    now destruct (after_loop_run messages heap) as (_ & -> & _). }
  induction n as [|n IH]; intros st heap;
    rewrite (while_step request githubMcpClient create messages _ st heap).
  all: destruct (pass_message
                   (pass_exchange request githubMcpClient create st (heap !!! messages)))
         as [message0|] eqn:Hm0;
       [|destruct (iteration_failed _ _ _ _ _ _ Hm0) as [error ->];
         cbn [exchanges last]; intros Hlast; injection Hlast as <-; congruence].
  all: rewrite (iteration_steps _ _ _ _ _ _ _ Hm0); cbn zeta.
  all: destruct (printable (get_opt message0 P_content)) eqn:Hlogged0;
       [|cbn [exchanges last]; intros Hlast;
         pose proof (here st heap message0 Hm0 Hlast); congruence].
  all: destruct (no_tool_calls (get_opt message0 P_tool_calls)) eqn:Hno0;
       [destruct (InferenceRequest.responseFormat request) as [format|],
          (finalMessage st)
       |destruct (printable (get_opt (get_opt message0 P_tool_calls) P_length));
          [destruct (executeToolCalls _ _ _) as [results|error]|]].
  all: cbn [exchanges outcome record_exchange]; rewrite ?capped.
  all: try (cbn [last]; intros Hlast;
            pose proof (here st heap message0 Hm0 Hlast); congruence).
  all: try (intros Hlast; apply IH; now apply later in Hlast).
  cbn [last]. intros Hlast. rewrite <- (here st heap message0 Hm0 Hlast).
  cbn [while_]. apply after. now repeat constructor.
Qed.

(** X26: [simpleInference] and [mcpInference] never return the empty
    string: a content that is empty is returned as [null].  In particular
    (the usage report of the reply being one that can be logged) a
    simple-inference content that is empty, or that is made of a one-line
    thought wrapper alone, is returned as [null], and a run of [mcpInference]
    that ends on a pass whose assistant content is empty returns [null]. *)
Theorem empty_content_is_returned_as_null (heap : Heap)
  (request : InferenceRequest) (client : Client)
  (githubMcpClient : GitHubMCPClient McpSession) (create : nat -> Client) :
  simpleInference heap request client <> Ok (JStr []) /\
  outcome (mcpInference heap request githubMcpClient create) <> Ok (JStr []) /\
  (forall message,
      logs_usage (client (simple_request heap request)) = true ->
      reply_message (client (simple_request heap request)) = Some message ->
      get_opt message P_content = JStr [] ->
      simpleInference heap request client = Ok JNull) /\
  (forall message ws thought,
      logs_usage (client (simple_request heap request)) = true ->
      reply_message (client (simple_request heap request)) = Some message ->
      get_opt message P_content = JStr (ws ++ open_tag ++ thought ++ close_tag) ->
      forallb RegExp.space ws = true ->
      forallb RegExp.dot thought = true ->
      includes close_tag thought = false ->
      simpleInference heap request client = Ok JNull) /\
  (forall e message,
      last (exchanges (mcpInference heap request githubMcpClient create)) = Some e ->
      pass_message e = Some message ->
      no_tool_calls (get_opt message P_tool_calls) = true ->
      get_opt message P_content = JStr [] ->
      outcome (mcpInference heap request githubMcpClient create) = Ok JNull) /\
  (forall v,
      outcome (mcpInference heap request githubMcpClient create) = Ok v ->
      v = or_else (last_assistant_content
                     (history (mcpInference heap request githubMcpClient create))) JNull /\
      (last_assistant_content
         (history (mcpInference heap request githubMcpClient create)) = JStr [] ->
       v = JNull)).
Proof.
  assert (result : forall v,
            outcome (mcpInference heap request githubMcpClient create) = Ok v ->
            v = or_else (last_assistant_content
                           (history (mcpInference heap request githubMcpClient create)))
                  JNull).
  { unfold mcpInference. destruct (alloc _ heap) as [local heap1].
    intros v. apply while_result. }
  split; [|split; [|split; [|split; [|split]]]].
  - intros H. apply simpleInference_result in H as [x Hx].
    symmetry in Hx. now apply or_else_null_not_empty in Hx.
  - intros H. apply result in H. symmetry in H.
    now apply or_else_null_not_empty in H.
  - intros message Hlog Hm Hcontent.
    now rewrite (simpleInference_message _ _ _ _ Hlog Hm), Hcontent.
  - intros message ws thought Hlog Hm Hcontent Hws Ht Hin.
    rewrite <- (app_nil_r close_tag) in Hcontent.
    now rewrite (simpleInference_strips _ _ _ _ ws thought [] Hlog Hm Hcontent Hws Ht Hin).
  - intros e message. unfold mcpInference. destruct (alloc _ heap) as [local heap1].
    cbn [iterationCount]. change (maxIterations - 0)%nat with 5%nat.
    intros Hlast Hm Hno Hcontent.
    rewrite (while_ends_without_tools request githubMcpClient create local e message
               Hm ltac:(now rewrite Hcontent) Hno 4 _ heap1 Hlast), Hcontent.
    reflexivity.
  - intros v Hv. split; [now apply result|].
    intros Hempty. rewrite (result v Hv), Hempty. reflexivity.
Qed.

(** ** chatCompletion: where its errors come from and what it returns *)

Lemma settle_rejected (context : jsstring) (reason : Exn) :
  settle context (Rejects reason) = Throws reason.
Proof. reflexivity. Qed.

(** What [settle] does with a structure, decoded or received as such. *)
Lemma settle_structure (context : jsstring) (v d : JsValue) :
  structure_of v = Some d ->
  settle context (Resolves v) =
    if carries_choices d then Ok d else Throws (Error_ (shape_message context d)).
Proof.
  intros Hd.
  assert (shape : forall r,
    (if negb (truthy r) || negb (typeof_object r) || negb (has_property P_choices r)
     then Throws (Error_ (context
            ++ lit ": Unexpected response shape (no choices). Preview: "
            ++ template_of (option_map (slice0 800) (JSON_stringify r))))
     else Ok r) =
    if carries_choices r then Ok r else Throws (Error_ (shape_message context r))).
  { intros r. destruct (carries_choices r) eqn:Hr.
    - now rewrite (shape_accepted r Hr).
    - rewrite (shape_rejected r Hr). unfold shape_message, slice0.
      now destruct (JSON_stringify r). }
  unfold settle, structure_of in *.
  destruct v; try (injection Hd as <-; cbn [bind]; apply shape).
  destruct (JSON_parse s); [|discriminate].
  injection Hd as <-. cbn [bind]. apply shape.
Qed.

(** What [settle] does with a string that does not decode. *)
Lemma settle_undecodable (context : jsstring) (v : JsValue) :
  structure_of v = None ->
  exists text message,
    v = JStr text /\ JSON_parse text = SyntaxError message /\
    settle context (Resolves v) =
      Throws (Error_ (context
        ++ lit ": Chat completion response was a string and not valid JSON ("
        ++ message ++ lit "). Preview: " ++ firstn 400 text)).
Proof.
  unfold structure_of, settle. destruct v; try discriminate.
  destruct (JSON_parse s) as [x|message] eqn:Hp; [discriminate|].
  intros _. exists s, message. now rewrite Hp.
Qed.

(** X1: [chatCompletion] adds no failure of its own to a rejected call and
    wraps nothing: a rejection of the endpoint is rethrown as it is, and
    every error that [chatCompletion] throws is either that rejection or one
    of the two errors it builds for a reply it cannot use, labelled with the
    caller's context. *)
Theorem chatCompletion_error_origin
  (client : Client) (params : ChatCompletionCreateParams) (context : jsstring) :
  (forall reason, client params = Rejects reason ->
                  chatCompletion client params context = Throws reason) /\
  (forall e, chatCompletion client params context = Throws e ->
             client params = Rejects e \/
             ((exists v, client params = Resolves v) /\
              MalformedResponseError context e /\
              exists detail, e = Error_ (context ++ lit ": " ++ detail))).
Proof.
  unfold chatCompletion. split.
  - now intros reason ->.
  - intros e. destruct (client params) as [v|reason].
    + intros He. right. split; [eauto|].
      destruct (structure_of v) as [d|] eqn:Hd.
      * rewrite (settle_structure context v d Hd) in He.
        destruct (carries_choices d); [discriminate|].
        injection He as <-. unfold shape_message. split.
        -- right. eauto.
        -- eexists. cbn [lit List.map list_ascii_of_string app]. reflexivity.
      * destruct (settle_undecodable context v Hd) as (text & message & _ & _ & Hs).
        rewrite Hs in He. injection He as <-. split.
        -- left. eauto.
        -- eexists. cbn [lit List.map list_ascii_of_string app]. reflexivity.
    + cbn [settle]. intros He. injection He as <-. now left.
Qed.

(** X2: Whatever [chatCompletion] returns is an object with a [choices]
    key: the value the endpoint resolved with, or the structure its text
    decodes into.  It never returns a string, an array, [null] or a
    primitive. *)
Theorem chatCompletion_returns_object_with_choices
  (client : Client) (params : ChatCompletionCreateParams) (context : jsstring)
  (response : JsValue) :
  chatCompletion client params context = Ok response ->
  (exists v, client params = Resolves v /\ structure_of v = Some response) /\
  exists props choices,
    response = JObj props /\ own_property (lit "choices") props = Some choices.
Proof.
  unfold chatCompletion. destruct (client params) as [v|reason]; [|discriminate].
  intros H. destruct (structure_of v) as [d|] eqn:Hd.
  - rewrite (settle_structure context v d Hd) in H.
    destruct (carries_choices d) eqn:Hc; [|discriminate].
    injection H as <-. split; [eauto|].
    destruct d; try discriminate. cbn [carries_choices] in Hc.
    destruct (own_property _ props) as [choices|] eqn:Ho; [eauto | discriminate].
  - destruct (settle_undecodable context v Hd) as (text & message & _ & _ & Hs).
    rewrite Hs in H. discriminate.
Qed.

(** X3: Preview of a reply without [choices]: when the value the endpoint
    resolved with is, or decodes into, a structure without a [choices] key,
    [chatCompletion] throws an error whose message is the context, the words
    "Unexpected response shape (no choices)" and, as preview, the first 800
    code units of the structure's JSON text (the word "undefined" when the
    structure has no JSON text); the preview of a text is never longer than
    800 code units.  A string is decoded once: text that decodes into a
    string is refused like any other structure without [choices]. *)
Theorem chatCompletion_shape_failure_preview
  (client : Client) (params : ChatCompletionCreateParams) (context : jsstring)
  (v d : JsValue) :
  client params = Resolves v ->
  structure_of v = Some d ->
  carries_choices d = false ->
  chatCompletion client params context =
    Throws (Error_ (context ++ lit ": Unexpected response shape (no choices). Preview: "
                      ++ match JSON_stringify d with
                         | Some text => firstn 800 text
                         | None => lit "undefined"
                         end)) /\
  (forall text, JSON_stringify d = Some text ->
                (length (firstn 800 text) <= 800)%nat /\
                ((800 <= length text)%nat -> length (firstn 800 text) = 800%nat)).
Proof.
  intros Hreply Hd Hshape. split.
  - unfold chatCompletion. rewrite Hreply, (settle_structure context v d Hd), Hshape.
    reflexivity.
  - intros text _. rewrite length_firstn. lia.
Qed.

(** X4: The defensive decoding is transparent: a reply received as JSON
    text is treated exactly as the structure it decodes into would be,
    accepted or refused with the same error, provided that structure is not
    itself a string. *)
Theorem chatCompletion_decoding_is_transparent
  (client client' : Client) (params : ChatCompletionCreateParams) (context : jsstring)
  (text : jsstring) (d : JsValue) :
  client params = Resolves (JStr text) ->
  JSON_parse text = Decoded d ->
  typeof_string d = false ->
  client' params = Resolves d ->
  chatCompletion client params context = chatCompletion client' params context.
Proof.
  intros Hreply Hparse Hd Hreply'. unfold chatCompletion. rewrite Hreply, Hreply'.
  rewrite (settle_structure context (JStr text) d), (settle_structure context d d).
  - reflexivity.
  - now destruct d.
  - unfold structure_of. now rewrite Hparse.
Qed.

(** ** simpleInference: what it sends *)

Lemma startsWith_prefix (p s : jsstring) :
  startsWith p s = true <-> exists rest, s = p ++ rest.
Proof.
  split.
  - revert s. induction p as [|c p IH]; intros s H; [now exists s|].
    destruct s as [|d s]; [discriminate|]. cbn [startsWith] in H.
    apply andb_prop in H as [Hc Hp]. apply N.eqb_eq in Hc as ->.
    destruct (IH s Hp) as [rest ->]. now exists rest.
  - intros [rest ->]. apply startsWith_app.
Qed.

(** X5: The call of [simpleInference]: the result depends on the endpoint
    only through its answer to one set of parameters, which holds the
    request's messages and response format, never any tools, and the
    extension that asks for thought summaries exactly when the model name
    begins with [gemini-3]. *)
Theorem simpleInference_request_sent (heap : Heap) (request : InferenceRequest)
  (client : Client) :
  let sent := simple_request heap request in
  (forall client' : Client,
      client' sent = client sent ->
      simpleInference heap request client' = simpleInference heap request client) /\
  ChatCompletionCreateParams.messages sent = heap !!! InferenceRequest.messages request /\
  ChatCompletionCreateParams.response_format sent
    = InferenceRequest.responseFormat request /\
  ChatCompletionCreateParams.tools sent = None /\
  ((exists rest, InferenceRequest.modelName request = lit "gemini-3" ++ rest) ->
   ChatCompletionCreateParams.extra_body sent = Some thinking_config) /\
  ((forall rest, InferenceRequest.modelName request <> lit "gemini-3" ++ rest) ->
   ChatCompletionCreateParams.extra_body sent = None).
Proof.
  cbn zeta. split; [|split; [|split; [|split; [|split]]]]; try reflexivity.
  - intros client' H. unfold simpleInference, chatCompletion. now rewrite H.
  - intros H. apply startsWith_prefix in H. unfold simple_request.
    cbn [ChatCompletionCreateParams.extra_body]. now rewrite H.
  - intros H. unfold simple_request. cbn [ChatCompletionCreateParams.extra_body].
    destruct (startsWith _ _) eqn:Hs; [|reflexivity].
    apply startsWith_prefix in Hs as [rest Hrest]. now apply H in Hrest.
Qed.

(** ** simpleInference: what it returns *)

(** Reading a property and converting a substitution throw nothing but a
    [TypeError]. *)
Lemma get_throws (v : JsValue) (p : Property) (e : Exn) :
  get v p = Throws e -> exists reason, e = TypeError reason.
Proof. destruct v; cbn [get]; intros H; try discriminate; injection H as <-; eauto. Qed.

Lemma template_throws (substitutions : list JsValue) (e : Exn) :
  template substitutions = Throws e -> e = conversion_error.
Proof.
  induction substitutions as [|v rest IH]; cbn [template]; [discriminate|].
  destruct (printable v); [exact IH|]. now intros H; injection H as <-.
Qed.

Lemma log_usage_throws (response : JsValue) (e : Exn) :
  log_usage response = Throws e -> exists reason, e = TypeError reason.
Proof.
  unfold log_usage.
  repeat match goal with
         | |- bind ?r _ = Throws _ -> _ =>
             let H := fresh "H" in
             destruct r eqn:H; cbn [bind];
             [|intros Hthrown; injection Hthrown as <-;
               first [ now apply get_throws in H
                     | apply template_throws in H; rewrite H; unfold conversion_error;
                       now eauto ]]
         | |- (if ?b then _ else _) = Throws _ -> _ => destruct b; [|discriminate]
         end.
  intros Hlast. apply template_throws in Hlast. rewrite Hlast.
  unfold conversion_error. eauto.
Qed.

(** X6: [simpleInference] honours its return type against any reply: what
    it returns is [null] or a string that is not empty, and a reply whose
    content is truthy without being a string makes it throw a [TypeError]
    instead of returning that content. *)
Theorem simpleInference_returns_text_or_null (heap : Heap)
  (request : InferenceRequest) (client : Client) :
  (forall v, simpleInference heap request client = Ok v ->
             v = JNull \/ exists c text, v = JStr (c :: text)) /\
  (forall message,
      reply_message (client (simple_request heap request)) = Some message ->
      truthy (get_opt message P_content) = true ->
      typeof_string (get_opt message P_content) = false ->
      exists reason, simpleInference heap request client = Throws (TypeError reason)).
Proof.
  split.
  - unfold simpleInference. intros v H.
    destruct (chatCompletion _ _ _) as [response|]; [|discriminate]. cbn [bind] in H.
    destruct (log_usage response) as [logged|]; [|discriminate]. cbn [bind] in H.
    destruct (first_choice response) as [first|]; [|discriminate]. cbn [bind] in H.
    cbn zeta in H. destruct (truthy (get_opt _ P_content)) eqn:Ht.
    + destruct (get_opt _ P_content); try discriminate.
      injection H as <-.
      destruct (match RegExp.match_ thought_pattern s with
                | Some m => substring_from (length (RegExp.matched m)) s
                | None => s
                end) as [|c text]; [now left | right; eauto].
    + injection H as <-. left. now apply or_else_falsy.
  - intros message Hm Ht Hs.
    destruct (logs_usage (client (simple_request heap request))) eqn:Hlog.
    + rewrite (simpleInference_message _ _ _ _ Hlog Hm).
      cbn zeta. rewrite Ht.
      destruct (get_opt message P_content); try discriminate; eauto.
    + unfold logs_usage in Hlog. unfold reply_message in Hm.
      unfold simpleInference, chatCompletion.
      destruct (settle [] _) as [response|] eqn:Hsettle; [|discriminate].
      rewrite (settle_ok_context _ (lit "simpleInference") _ _ Hsettle). cbn [bind].
      destruct (log_usage response) as [logged|e] eqn:Hu; [discriminate|]. cbn [bind].
      destruct (log_usage_throws _ _ Hu) as [reason ->]. eauto.
Qed.

(** *** Contents the pattern does not match *)

Lemma includes_tail (needle : jsstring) (c : code_unit) (s : jsstring) :
  includes needle (c :: s) = false -> includes needle s = false.
Proof. cbn [includes]. intros H. now apply orb_false_elim in H as [_ H]. Qed.

Lemma includes_skipn (needle s : jsstring) (n : nat) :
  includes needle s = false -> includes needle (skipn n s) = false.
Proof.
  revert s. induction n as [|n IH]; intros s H; [exact H|].
  destruct s as [|c s]; [exact H|]. cbn [skipn]. apply IH.
  now apply includes_tail in H.
Qed.

(** A star fails when what follows it fails on every suffix of the text. *)
Lemma star_greedy_none {R : Type} (Q : jsstring -> Prop) (class : code_unit -> bool)
  (k : RegExp.cont (R := R)) :
  (forall c s, Q (c :: s) -> Q s) ->
  (forall pos s caps, Q s -> k pos s caps = None) ->
  forall s pos caps, Q s -> RegExp.star_greedy class k pos s caps = None.
Proof.
  intros Htail Hk. induction s as [|c s IH]; intros pos caps HQ; cbn [RegExp.star_greedy].
  - now apply Hk.
  - destruct (class c); [|now apply Hk].
    rewrite IH by (now apply Htail in HQ). now apply Hk.
Qed.

Lemma star_lazy_none {R : Type} (Q : jsstring -> Prop) (class : code_unit -> bool)
  (k : RegExp.cont (R := R)) :
  (forall c s, Q (c :: s) -> Q s) ->
  (forall pos s caps, Q s -> k pos s caps = None) ->
  forall s pos caps, Q s -> RegExp.star_lazy class k pos s caps = None.
Proof.
  intros Htail Hk. induction s as [|c s IH]; intros pos caps HQ; cbn [RegExp.star_lazy].
  - now rewrite Hk.
  - rewrite Hk by exact HQ. destruct (class c); [|reflexivity].
    apply IH. now apply Htail in HQ.
Qed.

(** The start assertion fails at every index but the first. *)
Lemma search_later_none (s : jsstring) :
  forall pos, RegExp.search thought_pattern (S pos) s = None.
Proof.
  induction s as [|c s IH]; intros pos; cbn [RegExp.search]; now rewrite ?IH.
Qed.

Lemma match_only_at_start (text : jsstring) :
  RegExp.match_at thought_pattern 0 text = None ->
  RegExp.match_ thought_pattern text = None.
Proof.
  unfold RegExp.match_. intros H.
  destruct text as [|c text]; cbn [RegExp.search]; rewrite H; [reflexivity|].
  apply search_later_none.
Qed.

(** Without a closing tag there is no match. *)
Lemma thought_needs_closing_tag (text : jsstring) :
  includes close_tag text = false ->
  RegExp.match_ thought_pattern text = None.
Proof.
  intros Hin. apply match_only_at_start.
  unfold RegExp.match_at, thought_pattern. cbn [RegExp.run Nat.eqb].
  apply (star_greedy_none (fun s => includes close_tag s = false));
    [apply includes_tail | | exact Hin].
  intros pos s caps Hs. cbn [RegExp.run].
  destruct (startsWith open_tag s); [|reflexivity].
  apply (star_lazy_none (fun s => includes close_tag s = false));
    [apply includes_tail | | now apply includes_skipn].
  intros pos' s' caps' Hs'. cbn [RegExp.run].
  now rewrite (includes_head _ _ Hs').
Qed.

Lemma open_tag_after_space (c : code_unit) (s : jsstring) :
  RegExp.space c = true -> startsWith open_tag (c :: s) = false.
Proof.
  intros Hc. change open_tag with (60 :: lit "thought>"). cbn [startsWith].
  destruct (60 =? c) eqn:E; [|reflexivity].
  apply N.eqb_eq in E. subst c. discriminate Hc.
Qed.

(** The white space before the opening tag: however much of it the star
    gives back, what follows does not begin with the tag. *)
Lemma star_greedy_space_none {R : Type} (k : RegExp.cont (R := R))
  (ws rest : jsstring) :
  (forall pos s caps, startsWith open_tag s = false -> k pos s caps = None) ->
  forallb RegExp.space ws = true ->
  match rest with c :: _ => RegExp.space c = false | [] => True end ->
  startsWith open_tag rest = false ->
  forall pos caps, RegExp.star_greedy RegExp.space k pos (ws ++ rest) caps = None.
Proof.
  intros Hk Hws Hrest Hopen. induction ws as [|w ws IH]; intros pos caps.
  - cbn [app]. destruct rest as [|c rest]; cbn [RegExp.star_greedy].
    + now apply Hk.
    + rewrite Hrest. now apply Hk.
  - cbn [forallb] in Hws. apply andb_prop in Hws as [Hw Hws].
    cbn [app RegExp.star_greedy]. rewrite Hw, (IH Hws).
    apply Hk. now apply open_tag_after_space.
Qed.

(** Without the opening tag after the leading white space there is no
    match. *)
Lemma thought_needs_opening_tag (ws rest : jsstring) :
  forallb RegExp.space ws = true ->
  match rest with c :: _ => RegExp.space c = false | [] => True end ->
  startsWith open_tag rest = false ->
  RegExp.match_ thought_pattern (ws ++ rest) = None.
Proof.
  intros Hws Hrest Hopen. apply match_only_at_start.
  unfold RegExp.match_at, thought_pattern. cbn [RegExp.run Nat.eqb].
  apply star_greedy_space_none; try assumption.
  intros pos s caps Hs. cbn [RegExp.run]. now rewrite Hs.
Qed.

(** What [simpleInference] returns for a string that the pattern does not
    match. *)
Lemma simpleInference_unmatched (heap : Heap) (request : InferenceRequest)
  (client : Client) (message : JsValue) (text : jsstring) :
  logs_usage (client (simple_request heap request)) = true ->
  reply_message (client (simple_request heap request)) = Some message ->
  get_opt message P_content = JStr text ->
  text <> [] ->
  RegExp.match_ thought_pattern text = None ->
  simpleInference heap request client = Ok (JStr text).
Proof.
  intros Hlog Hm Hcontent Hne Hnone.
  rewrite (simpleInference_message _ _ _ _ Hlog Hm), Hcontent. cbn beta iota zeta.
  rewrite Hnone. destruct text; [contradiction | reflexivity].
Qed.

(** X7: Only a leading thought is stripped: a content that, after its
    leading white space, does not begin with the opening tag is returned
    whole, whatever tags it holds further on (the usage report of the reply
    being one that can be logged, as an absent report or one with numeric
    counts is). *)
Theorem simpleInference_keeps_content_without_leading_thought (heap : Heap)
  (request : InferenceRequest) (client : Client) (message : JsValue)
  (ws rest : jsstring) :
  logs_usage (client (simple_request heap request)) = true ->
  reply_message (client (simple_request heap request)) = Some message ->
  get_opt message P_content = JStr (ws ++ rest) ->
  ws ++ rest <> [] ->
  forallb RegExp.space ws = true ->
  match rest with c :: _ => RegExp.space c = false | [] => True end ->
  startsWith open_tag rest = false ->
  simpleInference heap request client = Ok (JStr (ws ++ rest)).
Proof.
  intros Hlog Hm Hcontent Hne Hws Hrest Hopen.
  apply (simpleInference_unmatched _ _ _ message); try assumption.
  now apply thought_needs_opening_tag.
Qed.

(** X8: A thought that is never closed is not stripped: a content without
    the closing tag is returned whole (the usage report of the reply being
    one that can be logged, as an absent report or one with numeric counts
    is). *)
Theorem simpleInference_keeps_content_without_closing_tag (heap : Heap)
  (request : InferenceRequest) (client : Client) (message : JsValue)
  (text : jsstring) :
  logs_usage (client (simple_request heap request)) = true ->
  reply_message (client (simple_request heap request)) = Some message ->
  get_opt message P_content = JStr text ->
  text <> [] ->
  includes close_tag text = false ->
  simpleInference heap request client = Ok (JStr text).
Proof.
  intros Hlog Hm Hcontent Hne Hin.
  apply (simpleInference_unmatched _ _ _ message); try assumption.
  now apply thought_needs_closing_tag.
Qed.

(** ** The trace of the loop *)

Lemma loop_request_fields (request : InferenceRequest)
  (githubMcpClient : GitHubMCPClient McpSession) (final : bool)
  (items : list ChatMessage) :
  let sent := loop_request request githubMcpClient final items in
  ChatCompletionCreateParams.messages sent = items /\
  ChatCompletionCreateParams.model sent = InferenceRequest.modelName request /\
  ChatCompletionCreateParams.max_tokens sent = InferenceRequest.maxTokens request /\
  ChatCompletionCreateParams.temperature sent = InferenceRequest.temperature request /\
  ChatCompletionCreateParams.top_p sent = InferenceRequest.topP request /\
  ChatCompletionCreateParams.extra_body sent = None.
Proof.
  unfold loop_request.
  destruct final, (InferenceRequest.responseFormat request); now repeat split.
Qed.

(** The message of a reply, by way of its first choice. *)
Lemma first_of_reply_message (context : jsstring) (settled : TransportOutcome) :
  reply_message settled =
    match first_of_reply context settled with
    | Ok first => Some (get_opt first P_message)
    | Throws _ => None
    end.
Proof.
  unfold reply_message, first_of_reply.
  destruct (settle [] settled) as [response|e] eqn:Hs.
  - now rewrite (settle_ok_context _ context _ _ Hs).
  - now destruct (settle_throws_context _ context _ _ Hs) as [e' ->].
Qed.

Lemma first_of_reply_rejected (context : jsstring) (reason : Exn) :
  first_of_reply context (Rejects reason) = Throws reason.
Proof. reflexivity. Qed.

(** The content of the last assistant message, when none was pushed after
    the one of the pass. *)
Lemma last_assistant_before (older more : list ChatMessage)
  (modelResponse toolCalls : JsValue) :
  Forall (fun m => is_assistant m = false) more ->
  last_assistant_content (older ++ assistant_entry modelResponse toolCalls :: more)
  = or_else modelResponse (JStr []).
Proof.
  intros Hmore. unfold last_assistant_content.
  change (older ++ assistant_entry modelResponse toolCalls :: more)
    with (older ++ [assistant_entry modelResponse toolCalls] ++ more).
  rewrite app_assoc, rev_app_distr, find_skip by (now apply Forall_rev).
  rewrite rev_app_distr. reflexivity.
Qed.

Section Trace.

Variable request : InferenceRequest.
Variable githubMcpClient : GitHubMCPClient McpSession.
Variable create : nat -> Client.
Variable messages : nat.

Local Abbreviation loop n := (while_ n request githubMcpClient create messages).
Local Abbreviation pass_of st heap :=
  (pass_exchange request githubMcpClient create st (heap !!! messages)).

(** One pass of the loop, by what the endpoint and the executor answer and
    by what the log lines can print. *)
Lemma while_pass (n : nat) (st : LoopState) (heap : Heap) :
  let e := pass_of st heap in
  let k := S (iterationCount st) in
  match first_of_reply (pass_label k) (reply e) with
  | Throws error =>
      pass_message e = None /\
      loop (S n) st heap =
        {| outcome := Throws error; heap_after := heap; exchanges := [e];
           history := heap !!! messages |}
  | Ok first =>
      let message := get_opt first P_message in
      let modelResponse := get_opt message P_content in
      let toolCalls := get_opt message P_tool_calls in
      let entry := assistant_entry modelResponse toolCalls in
      let heap1 := push messages [entry] heap in
      pass_message e = Some message /\
      if printable modelResponse then
        if no_tool_calls toolCalls then
          match InferenceRequest.responseFormat request, finalMessage st with
          | Some format, false =>
              loop (S n) st heap =
                record_exchange e
                  (loop n {| iterationCount := k; finalMessage := true |}
                     (push messages [reformat_entry format] heap1))
          | _, _ =>
              loop (S n) st heap =
                {| outcome := Ok (or_else modelResponse JNull); heap_after := heap1;
                   exchanges := [e]; history := heap !!! messages ++ [entry] |}
          end
        else if printable (get_opt toolCalls P_length) then
          match executeToolCalls (GitHubMCPClient.client githubMcpClient) k toolCalls
          with
          | Throws error =>
              loop (S n) st heap =
                {| outcome := Throws error; heap_after := heap1; exchanges := [e];
                   history := heap !!! messages ++ [entry] |}
          | Ok toolResults =>
              loop (S n) st heap =
                record_exchange e
                  (loop n {| iterationCount := k; finalMessage := finalMessage st |}
                     (push messages toolResults heap1))
          end
        else
          loop (S n) st heap =
            {| outcome := Throws conversion_error; heap_after := heap1;
               exchanges := [e]; history := heap !!! messages ++ [entry] |}
      else
        loop (S n) st heap =
          {| outcome := Throws conversion_error; heap_after := heap; exchanges := [e];
             history := heap !!! messages |}
  end.
Proof.
  cbn zeta.
  pose proof (first_of_reply_message (pass_label (S (iterationCount st)))
                (reply (pass_of st heap))) as Hm.
  fold (pass_message (pass_of st heap)) in Hm.
  destruct (first_of_reply _ _) as [first|error] eqn:Hfirst.
  - split; [exact Hm|].
    rewrite (while_step request githubMcpClient create messages n st heap),
      (iteration_steps _ _ _ _ _ _ _ Hm).
    cbn zeta. destruct (printable (get_opt _ P_content)); [|reflexivity].
    destruct (no_tool_calls _).
    + destruct (InferenceRequest.responseFormat request), (finalMessage st);
        now rewrite ?push_lookup.
    + destruct (printable (get_opt _ P_length)); [|now rewrite ?push_lookup].
      destruct (executeToolCalls _ _ _); now rewrite ?push_lookup.
  - split; [exact Hm|].
    rewrite (while_step request githubMcpClient create messages n st heap).
    unfold iteration, chatCompletion. cbn zeta.
    unfold first_of_reply, pass_label, pass_exchange in Hfirst. cbn [reply] in Hfirst.
    now rewrite Hfirst.
Qed.

(** The cases of [while_pass], as goals. *)
Local Ltac pass_cases n st heap :=
  let Hp := fresh "Hp" in
  pose proof (while_pass n st heap) as Hp; cbn zeta in Hp;
  destruct (first_of_reply _ (reply (pass_of st heap))) as [?first|?error] eqn:?Hfirst;
  destruct Hp as [?Hm Hp];
  [ destruct (printable (get_opt (get_opt _ P_message) P_content)) eqn:?Hlogged;
    [ destruct (no_tool_calls _) eqn:?Hno;
      [ destruct (InferenceRequest.responseFormat request) as [?format|] eqn:?Hformat,
          (finalMessage st) eqn:?Hfinal
      | destruct (printable (get_opt _ P_length)) eqn:?Hcount;
        [ destruct (executeToolCalls _ _ _) as [?toolResults|?error] eqn:?Hexec | ] ]
    | ]
  | ];
  rewrite Hp; clear Hp; cbn [exchanges outcome history record_exchange].

Lemma while_no_pass (st : LoopState) (heap : Heap) : exchanges (loop 0 st heap) = [].
Proof. cbn [while_]. now destruct (after_loop_run messages heap) as (_ & -> & _). Qed.

(** The loop makes at most as many passes as it is allowed. *)
Lemma while_length (n : nat) :
  forall (st : LoopState) (heap : Heap),
    (length (exchanges (loop n st heap)) <= n)%nat.
Proof.
  induction n as [|n IH]; intros st heap; [now rewrite while_no_pass|].
  pass_cases n st heap; cbn [length]; try lia.
  - specialize (IH {| iterationCount := S (iterationCount st); finalMessage := true |}
                  (push messages [reformat_entry format]
                     (push messages
                        [assistant_entry (get_opt (get_opt first P_message) P_content)
                           (get_opt (get_opt first P_message) P_tool_calls)] heap))).
    lia.
  - specialize (IH {| iterationCount := S (iterationCount st);
                      finalMessage := finalMessage st |}
                  (push messages toolResults
                     (push messages
                        [assistant_entry (get_opt (get_opt first P_message) P_content)
                           (get_opt (get_opt first P_message) P_tool_calls)] heap))).
    lia.
Qed.

(** The calls of a run are numbered from the pass that starts it. *)
Lemma while_numbered (n : nat) :
  forall (st : LoopState) (heap : Heap) (i : nat) (e : Exchange),
    exchanges (loop n st heap) !! i = Some e ->
    reply e = create (S (iterationCount st + i)) (params e).
Proof.
  induction n as [|n IH]; intros st heap i e; [now rewrite while_no_pass|].
  assert (here : reply (pass_of st heap)
                 = create (S (iterationCount st + 0)) (params (pass_of st heap))).
  { now rewrite Nat.add_0_r. }
  pass_cases n st heap; destruct i as [|i]; cbn [lookup list_lookup];
    try (intros H; injection H as <-; exact here);
    try (now destruct i);
    intros H; apply IH in H; cbn [iterationCount] in H;
    now rewrite Nat.add_succ_r.
Qed.


(** What a pass of the loop sends. *)
Lemma pass_sends (st : LoopState) (heap : Heap) :
  finalizing (pass_of st heap) = finalMessage st /\
  ChatCompletionCreateParams.messages (params (pass_of st heap)) = heap !!! messages.
Proof.
  split; [reflexivity|]. unfold pass_exchange. cbn [params].
  apply loop_request_fields.
Qed.

(** From one pass to the next: what the loop pushes between two calls. *)
Lemma while_transition (n : nat) :
  forall (st : LoopState) (heap : Heap) (i : nat) (e e' : Exchange),
    exchanges (loop n st heap) !! i = Some e ->
    exchanges (loop n st heap) !! S i = Some e' ->
    exists message,
      pass_message e = Some message /\
      let toolCalls := get_opt message P_tool_calls in
      let entry := assistant_entry (get_opt message P_content) toolCalls in
      if no_tool_calls toolCalls then
        finalizing e = false /\ finalizing e' = true /\
        exists format,
          InferenceRequest.responseFormat request = Some format /\
          ChatCompletionCreateParams.messages (params e') =
            ChatCompletionCreateParams.messages (params e)
              ++ [entry; reformat_entry format]
      else
        finalizing e' = finalizing e /\
        exists toolResults,
          executeToolCalls (GitHubMCPClient.client githubMcpClient)
            (S (iterationCount st + i)) toolCalls = Ok toolResults /\
          ChatCompletionCreateParams.messages (params e') =
            ChatCompletionCreateParams.messages (params e) ++ entry :: toolResults.
Proof.
  induction n as [|n IH]; intros st heap i e e'; [now rewrite while_no_pass|].
  destruct (pass_sends st heap) as [Hflag Hsent].
  pass_cases n st heap; destruct i as [|i]; cbn [lookup list_lookup];
    try (intros _ H; now destruct i);
    try (intros _ H; discriminate H).
  - (* the request for the format, then the finalizing pass *)
    intros He He'. injection He as <-.
    destruct n as [|n]; [now rewrite while_no_pass in He'|].
    destruct (while_first_exchange request githubMcpClient create messages n
                {| iterationCount := S (iterationCount st); finalMessage := true |}
                (push messages [reformat_entry format]
                   (push messages
                      [assistant_entry (get_opt (get_opt first P_message) P_content)
                         (get_opt (get_opt first P_message) P_tool_calls)] heap)))
      as [later Hnext].
    rewrite Hnext in He'. injection He' as <-.
    exists (get_opt first P_message). split; [exact Hm|]. cbn zeta. rewrite Hno.
    split; [now rewrite Hflag|]. split; [reflexivity|].
    exists format. split; [reflexivity|].
    destruct (pass_sends {| iterationCount := S (iterationCount st);
                            finalMessage := true |}
                (push messages [reformat_entry format]
                   (push messages
                      [assistant_entry (get_opt (get_opt first P_message) P_content)
                         (get_opt (get_opt first P_message) P_tool_calls)] heap)))
      as [_ ->].
    now rewrite Hsent, !push_lookup, <- app_assoc.
  - intros He He'.
    destruct (IH _ _ _ _ _ He He') as (message & Hmessage & Hstep).
    exists message. split; [exact Hmessage|].
    cbn [iterationCount] in Hstep. now rewrite Nat.add_succ_r.
  - (* the tool results, then the next pass *)
    intros He He'. injection He as <-.
    destruct n as [|n]; [now rewrite while_no_pass in He'|].
    destruct (while_first_exchange request githubMcpClient create messages n
                {| iterationCount := S (iterationCount st);
                   finalMessage := finalMessage st |}
                (push messages toolResults
                   (push messages
                      [assistant_entry (get_opt (get_opt first P_message) P_content)
                         (get_opt (get_opt first P_message) P_tool_calls)] heap)))
      as [later Hnext].
    rewrite Hnext in He'. injection He' as <-.
    exists (get_opt first P_message). split; [exact Hm|]. cbn zeta. rewrite Hno.
    split; [reflexivity|].
    exists toolResults. rewrite Nat.add_0_r. split; [exact Hexec|].
    destruct (pass_sends {| iterationCount := S (iterationCount st);
                            finalMessage := finalMessage st |}
                (push messages toolResults
                   (push messages
                      [assistant_entry (get_opt (get_opt first P_message) P_content)
                         (get_opt (get_opt first P_message) P_tool_calls)] heap)))
      as [_ ->].
    now rewrite Hsent, !push_lookup, <- app_assoc.
  - intros He He'.
    destruct (IH _ _ _ _ _ He He') as (message & Hmessage & Hstep).
    exists message. split; [exact Hmessage|].
    cbn [iterationCount] in Hstep. now rewrite Nat.add_succ_r.
Qed.

(** A reply that cannot be read ends the run with the error of reading it;
    nothing is pushed for it. *)
Lemma while_unreadable (n : nat) :
  forall (st : LoopState) (heap : Heap) (i : nat) (e : Exchange),
    exchanges (loop n st heap) !! i = Some e ->
    pass_message e = None ->
    length (exchanges (loop n st heap)) = S i /\
    history (loop n st heap) = ChatCompletionCreateParams.messages (params e) /\
    exists error,
      first_of_reply (pass_label (S (iterationCount st + i))) (reply e) = Throws error /\
      outcome (loop n st heap) = Throws error.
Proof.
  induction n as [|n IH]; intros st heap i e; [now rewrite while_no_pass|].
  destruct (pass_sends st heap) as [_ Hsent].
  pass_cases n st heap; destruct i as [|i]; cbn [lookup list_lookup length];
    try (intros H; now destruct i);
    try (intros H Hnone; injection H as <-; congruence).
  - intros H Hnone. destruct (IH _ _ _ _ H Hnone) as (-> & Hh & error & Hread & Hout).
    cbn [iterationCount] in Hread. rewrite Nat.add_succ_r. eauto.
  - intros H Hnone. destruct (IH _ _ _ _ H Hnone) as (-> & Hh & error & Hread & Hout).
    cbn [iterationCount] in Hread. rewrite Nat.add_succ_r. eauto.
  - intros H _. injection H as <-. rewrite Nat.add_0_r. eauto.
Qed.

(** A failure of the executor ends the run with that failure, after the
    assistant message of the pass was pushed and the two log lines of the
    pass were written. *)
Lemma while_executor_failure (n : nat) :
  forall (st : LoopState) (heap : Heap) (i : nat) (e : Exchange)
         (message : JsValue) (error : Exn),
    exchanges (loop n st heap) !! i = Some e ->
    pass_message e = Some message ->
    printable (get_opt message P_content) = true ->
    no_tool_calls (get_opt message P_tool_calls) = false ->
    printable (get_opt (get_opt message P_tool_calls) P_length) = true ->
    executeToolCalls (GitHubMCPClient.client githubMcpClient)
      (S (iterationCount st + i)) (get_opt message P_tool_calls) = Throws error ->
    length (exchanges (loop n st heap)) = S i /\
    outcome (loop n st heap) = Throws error /\
    history (loop n st heap) =
      ChatCompletionCreateParams.messages (params e)
        ++ [assistant_entry (get_opt message P_content) (get_opt message P_tool_calls)].
Proof.
  induction n as [|n IH]; intros st heap i e message error'; [now rewrite while_no_pass|].
  destruct (pass_sends st heap) as [_ Hsent].
  pass_cases n st heap; destruct i as [|i]; cbn [lookup list_lookup length];
    try (intros H; now destruct i);
    try (intros H Hmessage Hprints Hcalls Hcounts Hfails; injection H as <-;
         rewrite ?Nat.add_0_r in Hfails; congruence).
  - intros H Hmessage Hprints Hcalls Hcounts Hfails. rewrite Nat.add_succ_r in Hfails.
    destruct (IH _ _ _ _ _ _ H Hmessage Hprints Hcalls Hcounts Hfails)
      as (-> & Hout & Hh).
    eauto.
  - intros H Hmessage Hprints Hcalls Hcounts Hfails. rewrite Nat.add_succ_r in Hfails.
    destruct (IH _ _ _ _ _ _ H Hmessage Hprints Hcalls Hcounts Hfails)
      as (-> & Hout & Hh).
    eauto.
  - intros H Hmessage Hprints Hcalls Hcounts Hfails. injection H as <-.
    rewrite Nat.add_0_r in Hfails.
    assert (message = get_opt first P_message) as -> by congruence.
    rewrite Hfails in Hexec. injection Hexec as <-. rewrite Hsent. eauto.
Qed.

(** A pass without tool calls, whose content can be logged, ends the run,
    unless a declared format is still to be asked for. *)
Lemma while_returns_at (n : nat) :
  forall (st : LoopState) (heap : Heap) (i : nat) (e : Exchange) (message : JsValue),
    exchanges (loop n st heap) !! i = Some e ->
    pass_message e = Some message ->
    printable (get_opt message P_content) = true ->
    no_tool_calls (get_opt message P_tool_calls) = true ->
    InferenceRequest.responseFormat request = None \/ finalizing e = true ->
    length (exchanges (loop n st heap)) = S i /\
    outcome (loop n st heap) = Ok (or_else (get_opt message P_content) JNull) /\
    history (loop n st heap) =
      ChatCompletionCreateParams.messages (params e)
        ++ [assistant_entry (get_opt message P_content) (get_opt message P_tool_calls)].
Proof.
  induction n as [|n IH]; intros st heap i e message; [now rewrite while_no_pass|].
  destruct (pass_sends st heap) as [Hflag Hsent].
  pass_cases n st heap; destruct i as [|i]; cbn [lookup list_lookup length];
    try (intros H; now destruct i);
    try (intros H Hmessage Hprints Hcalls Hlast;
         destruct (IH _ _ _ _ _ H Hmessage Hprints Hcalls Hlast) as (-> & Hout & Hh);
         now eauto);
    intros H Hmessage Hprints Hcalls Hlast; injection H as <-;
    try (assert (message = get_opt first P_message) as -> by congruence);
    try congruence;
    try (rewrite Hsent; now repeat split).
  destruct Hlast as [Hnone | Hfinalizing]; congruence.
Qed.

(** A run that returns before its passes are used up returns from a pass
    without tool calls, the finalizing one when a format was declared. *)
Lemma while_returns_early (n : nat) :
  forall (st : LoopState) (heap : Heap) (v : JsValue),
    outcome (loop n st heap) = Ok v ->
    (length (exchanges (loop n st heap)) < n)%nat ->
    exists e message,
      last (exchanges (loop n st heap)) = Some e /\
      pass_message e = Some message /\
      no_tool_calls (get_opt message P_tool_calls) = true /\
      (InferenceRequest.responseFormat request = None \/ finalizing e = true) /\
      v = or_else (get_opt message P_content) JNull.
Proof.
  induction n as [|n IH]; intros st heap v; [intros _ H; inversion H|].
  destruct (pass_sends st heap) as [Hflag _].
  pass_cases n st heap; cbn [length last];
    try (intros H _; discriminate H);
    try (intros H _; injection H as <-;
         exists (pass_of st heap), (get_opt first P_message);
         repeat split; try assumption; now (left + right)).
  - intros H Hlen. apply IH in H as (e & message & Hlast & Hrest); [|lia].
    exists e, message. split; [|exact Hrest].
    destruct (exchanges _) as [|e1 later]; [discriminate Hlast|exact Hlast].
  - intros H Hlen. apply IH in H as (e & message & Hlast & Hrest); [|lia].
    exists e, message. split; [|exact Hrest].
    destruct (exchanges _) as [|e1 later]; [discriminate Hlast|exact Hlast].
Qed.

(** Every call carries the settings of the request and no extension. *)
Lemma while_settings (n : nat) :
  forall (st : LoopState) (heap : Heap),
    Forall (fun e =>
              ChatCompletionCreateParams.model (params e)
                = InferenceRequest.modelName request /\
              ChatCompletionCreateParams.max_tokens (params e)
                = InferenceRequest.maxTokens request /\
              ChatCompletionCreateParams.temperature (params e)
                = InferenceRequest.temperature request /\
              ChatCompletionCreateParams.top_p (params e)
                = InferenceRequest.topP request /\
              ChatCompletionCreateParams.extra_body (params e) = None)
           (exchanges (loop n st heap)).
Proof.
  induction n as [|n IH]; intros st heap; [rewrite while_no_pass; constructor|].
  pose proof (loop_request_fields request githubMcpClient (finalMessage st)
                (heap !!! messages)) as (_ & Hfields).
  change (loop_request request githubMcpClient (finalMessage st) (heap !!! messages))
    with (params (pass_of st heap)) in Hfields.
  pass_cases n st heap; constructor; try exact Hfields; try apply IH; constructor.
Qed.

(** What the run ends with holds everything that any of its calls sent. *)
Lemma while_history_extends (n : nat) :
  forall (st : LoopState) (heap : Heap) (i : nat) (e : Exchange),
    exchanges (loop n st heap) !! i = Some e ->
    exists added,
      history (loop n st heap) = ChatCompletionCreateParams.messages (params e) ++ added.
Proof.
  induction n as [|n IH]; intros st heap i e; [now rewrite while_no_pass|].
  destruct (while_first_exchange request githubMcpClient create messages n st heap)
    as [later Hfirst].
  destruct i as [|i].
  - rewrite Hfirst. cbn [lookup list_lookup]. intros H. injection H as <-.
    destruct (pass_sends st heap) as [_ ->].
    apply (while_frame request githubMcpClient create messages (S n) st heap).
  - pass_cases n st heap; cbn [lookup list_lookup];
      try (intros H; now destruct i); apply IH.
Qed.

(** The last pass the cap allows, when it asks for the declared format (its
    content being one that can be logged): the request is pushed and no pass
    is left to answer it. *)
Lemma while_cap_pending (n : nat) :
  forall (st : LoopState) (heap : Heap) (e : Exchange) (message : JsValue)
         (format : ResponseFormat),
    exchanges (loop (S n) st heap) !! n = Some e ->
    pass_message e = Some message ->
    printable (get_opt message P_content) = true ->
    no_tool_calls (get_opt message P_tool_calls) = true ->
    InferenceRequest.responseFormat request = Some format ->
    finalizing e = false ->
    length (exchanges (loop (S n) st heap)) = S n /\
    outcome (loop (S n) st heap) = Ok (or_else (get_opt message P_content) JNull) /\
    history (loop (S n) st heap) =
      ChatCompletionCreateParams.messages (params e)
        ++ [assistant_entry (get_opt message P_content) (get_opt message P_tool_calls);
            reformat_entry format].
Proof.
  induction n as [|n IH]; intros st heap e message format'.
  - destruct (pass_sends st heap) as [Hflag Hsent].
    pass_cases 0%nat st heap; cbn [lookup list_lookup length];
      intros H Hmessage Hprints Hcalls Hdeclared Hnot; injection H as <-;
      try (assert (message = get_opt first P_message) as -> by congruence);
      try congruence.
    assert (format' = format) as -> by congruence.
    cbn [while_].
    destruct (after_loop_run messages
                (push messages [reformat_entry format]
                   (push messages
                      [assistant_entry (get_opt (get_opt first P_message) P_content)
                         (get_opt (get_opt first P_message) P_tool_calls)] heap)))
      as (-> & -> & -> & _).
    rewrite !push_lookup, <- app_assoc, Hsent. cbn [app].
    rewrite last_assistant_before by (now repeat constructor).
    now rewrite or_else_empty_null.
  - pass_cases (S n) st heap; cbn [lookup list_lookup length];
      try (intros H; now destruct n);
      intros H Hmessage Hprints Hcalls Hdeclared Hnot;
      destruct (IH _ _ _ _ _ H Hmessage Hprints Hcalls Hdeclared Hnot)
        as (-> & Hout & Hh);
      now eauto.
Qed.

(** The last pass the cap allows, when it asks for tools (its two log lines
    being written): their results are pushed and no pass is left to read
    them. *)
Lemma while_cap_tools (n : nat) :
  forall (st : LoopState) (heap : Heap) (e : Exchange) (message : JsValue)
         (toolResults : list ChatMessage),
    exchanges (loop (S n) st heap) !! n = Some e ->
    pass_message e = Some message ->
    printable (get_opt message P_content) = true ->
    no_tool_calls (get_opt message P_tool_calls) = false ->
    printable (get_opt (get_opt message P_tool_calls) P_length) = true ->
    executeToolCalls (GitHubMCPClient.client githubMcpClient)
      (S (iterationCount st + n)) (get_opt message P_tool_calls) = Ok toolResults ->
    Forall (fun m => role m <> assistant) toolResults ->
    length (exchanges (loop (S n) st heap)) = S n /\
    outcome (loop (S n) st heap) = Ok (or_else (get_opt message P_content) JNull) /\
    history (loop (S n) st heap) =
      ChatCompletionCreateParams.messages (params e)
        ++ assistant_entry (get_opt message P_content) (get_opt message P_tool_calls)
           :: toolResults.
Proof.
  induction n as [|n IH]; intros st heap e message results.
  - destruct (pass_sends st heap) as [Hflag Hsent].
    pass_cases 0%nat st heap; cbn [lookup list_lookup length];
      intros H Hmessage Hprints Hcalls Hcounts Hresults Hroles; injection H as <-;
      try (assert (message = get_opt first P_message) as -> by congruence);
      rewrite ?Nat.add_0_r in Hresults;
      try congruence.
    assert (toolResults = results) as -> by congruence.
    cbn [while_].
    destruct (after_loop_run messages
                (push messages results
                   (push messages
                      [assistant_entry (get_opt (get_opt first P_message) P_content)
                         (get_opt (get_opt first P_message) P_tool_calls)] heap)))
      as (-> & -> & -> & _).
    rewrite !push_lookup, <- app_assoc, Hsent. cbn [app].
    rewrite last_assistant_before.
    + now rewrite or_else_empty_null.
    + eapply Forall_impl; [exact Hroles|].
      intros m Hrole. unfold is_assistant.
      destruct (role m) eqn:Hm'; try reflexivity. now destruct Hrole.
  - pass_cases (S n) st heap; cbn [lookup list_lookup length];
      try (intros H; now destruct n);
      intros H Hmessage Hprints Hcalls Hcounts Hresults Hroles;
      rewrite Nat.add_succ_r in Hresults;
      destruct (IH _ _ _ _ _ H Hmessage Hprints Hcalls Hcounts Hresults Hroles)
        as (-> & Hout & Hh);
      now eauto.
Qed.

(** A content that cannot be logged ends the run where the log line of the
    pass is built, before anything is pushed. *)
Lemma while_unlogged (n : nat) :
  forall (st : LoopState) (heap : Heap) (i : nat) (e : Exchange) (message : JsValue),
    exchanges (loop n st heap) !! i = Some e ->
    pass_message e = Some message ->
    printable (get_opt message P_content) = false ->
    length (exchanges (loop n st heap)) = S i /\
    outcome (loop n st heap) = Throws conversion_error /\
    history (loop n st heap) = ChatCompletionCreateParams.messages (params e).
Proof.
  induction n as [|n IH]; intros st heap i e message; [now rewrite while_no_pass|].
  destruct (pass_sends st heap) as [_ Hsent].
  pass_cases n st heap; destruct i as [|i]; cbn [lookup list_lookup length];
    try (intros H; now destruct i);
    try (intros H Hmessage Hprints;
         destruct (IH _ _ _ _ _ H Hmessage Hprints) as (-> & Hout & Hh); now eauto);
    intros H Hmessage Hprints; injection H as <-;
    try (assert (message = get_opt first P_message) as -> by congruence);
    try congruence.
  now rewrite Hsent.
Qed.

(** A number of tool calls that cannot be logged ends the run where the
    second log line of the pass is built: the assistant message is pushed,
    the executor is not reached. *)
Lemma while_uncounted (n : nat) :
  forall (st : LoopState) (heap : Heap) (i : nat) (e : Exchange) (message : JsValue),
    exchanges (loop n st heap) !! i = Some e ->
    pass_message e = Some message ->
    printable (get_opt message P_content) = true ->
    no_tool_calls (get_opt message P_tool_calls) = false ->
    printable (get_opt (get_opt message P_tool_calls) P_length) = false ->
    length (exchanges (loop n st heap)) = S i /\
    outcome (loop n st heap) = Throws conversion_error /\
    history (loop n st heap) =
      ChatCompletionCreateParams.messages (params e)
        ++ [assistant_entry (get_opt message P_content) (get_opt message P_tool_calls)].
Proof.
  induction n as [|n IH]; intros st heap i e message; [now rewrite while_no_pass|].
  destruct (pass_sends st heap) as [_ Hsent].
  pass_cases n st heap; destruct i as [|i]; cbn [lookup list_lookup length];
    try (intros H; now destruct i);
    try (intros H Hmessage Hprints Hcalls Hcounts;
         destruct (IH _ _ _ _ _ H Hmessage Hprints Hcalls Hcounts) as (-> & Hout & Hh);
         now eauto);
    intros H Hmessage Hprints Hcalls Hcounts; injection H as <-;
    try (assert (message = get_opt first P_message) as -> by congruence);
    try congruence.
  now rewrite Hsent.
Qed.

End Trace.

(** A relation that holds from each element of a list to the next holds from
    each element to every later one. *)
Lemma adjacent_chain {A : Type} (R : A -> A -> Prop) (l : list A) :
  (forall x, R x x) ->
  (forall x y z, R x y -> R y z -> R x z) ->
  (forall i x y, l !! i = Some x -> l !! S i = Some y -> R x y) ->
  forall i j x y, (i <= j)%nat -> l !! i = Some x -> l !! j = Some y -> R x y.
Proof.
  intros Hrefl Htrans Hadjacent i j x y Hij. revert y.
  induction Hij as [|j Hij IH]; intros y Hx Hy.
  - assert (x = y) as -> by congruence. apply Hrefl.
  - destruct (l !! j) as [z|] eqn:Hz.
    + apply (Htrans x z y); [now apply IH | now apply (Hadjacent j)].
    + apply lookup_ge_None in Hz. apply lookup_lt_Some in Hy. lia.
Qed.

(** [mcpInference] is the loop, run on a copy of the request's messages with
    five passes allowed. *)
Lemma mcpInference_loop (heap : Heap) (request : InferenceRequest)
  (githubMcpClient : GitHubMCPClient McpSession) (create : nat -> Client) :
  exists (local : nat) (heap1 : Heap),
    mcpInference heap request githubMcpClient create =
      while_ maxIterations request githubMcpClient create local
        {| iterationCount := 0; finalMessage := false |} heap1 /\
    heap1 !!! local = heap !!! InferenceRequest.messages request.
Proof.
  unfold mcpInference.
  pose proof (alloc_lookup (heap !!! InferenceRequest.messages request) heap) as Hseed.
  destruct (alloc _ heap) as [local heap1]. cbn [fst snd] in Hseed.
  now exists local, heap1.
Qed.

(** ** simpleInference: its failures *)

(** X9: [simpleInference] adds nothing to the failures of its call: a
    rejection of the endpoint is thrown as it is, and a reply that
    [chatCompletion] refuses is reported under the label [simpleInference],
    with the preview of the reply. *)
Theorem simpleInference_reports_failures (heap : Heap) (request : InferenceRequest)
  (client : Client) :
  let sent := simple_request heap request in
  (forall reason,
      client sent = Rejects reason ->
      simpleInference heap request client = Throws reason) /\
  (forall v d,
      client sent = Resolves v ->
      structure_of v = Some d ->
      carries_choices d = false ->
      simpleInference heap request client =
        Throws (Error_ (lit "simpleInference: Unexpected response shape (no choices). "
                          ++ lit "Preview: "
                          ++ match JSON_stringify d with
                             | Some text => firstn 800 text
                             | None => lit "undefined"
                             end))) /\
  (forall text message,
      client sent = Resolves (JStr text) ->
      JSON_parse text = SyntaxError message ->
      simpleInference heap request client =
        Throws (Error_ (lit "simpleInference: Chat completion response was a string "
                          ++ lit "and not valid JSON (" ++ message
                          ++ lit "). Preview: " ++ firstn 400 text))).
Proof.
  cbn zeta. unfold simpleInference, chatCompletion. split; [|split].
  - now intros reason ->.
  - intros v d -> Hd Hshape.
    now rewrite (settle_structure _ v d Hd), Hshape.
  - intros text message -> Hparse. unfold settle. now rewrite Hparse.
Qed.

(** ** mcpInference: the calls of a run *)

(** X10: The cap on the passes: a run of [mcpInference] calls the endpoint
    at least once and at most five times, and the call recorded at index [i]
    is the call of pass [i + 1], made with the parameters recorded for it. *)
Theorem mcpInference_makes_one_to_five_calls (heap : Heap)
  (request : InferenceRequest) (githubMcpClient : GitHubMCPClient McpSession)
  (create : nat -> Client) :
  let run := mcpInference heap request githubMcpClient create in
  (1 <= length (exchanges run))%nat /\
  (length (exchanges run) <= maxIterations)%nat /\
  forall (i : nat) (e : Exchange),
    exchanges run !! i = Some e -> reply e = create (S i) (params e).
Proof.
  cbn zeta.
  destruct (mcpInference_loop heap request githubMcpClient create)
    as (local & heap1 & -> & _).
  split; [|split].
  - unfold maxIterations.
    destruct (while_first_exchange request githubMcpClient create local 4
                {| iterationCount := 0; finalMessage := false |} heap1) as [later ->].
    cbn [length]. lia.
  - apply while_length.
  - intros i e H.
    now apply (while_numbered request githubMcpClient create local) in H.
Qed.

(** X11: Every call of a run carries the model name, the token limit, the
    temperature and the nucleus parameter of the request, and never the
    extension that asks for thought summaries, whatever the model name. *)
Theorem mcpInference_fixed_settings (heap : Heap)
  (request : InferenceRequest) (githubMcpClient : GitHubMCPClient McpSession)
  (create : nat -> Client) :
  Forall (fun e =>
            ChatCompletionCreateParams.model (params e)
              = InferenceRequest.modelName request /\
            ChatCompletionCreateParams.max_tokens (params e)
              = InferenceRequest.maxTokens request /\
            ChatCompletionCreateParams.temperature (params e)
              = InferenceRequest.temperature request /\
            ChatCompletionCreateParams.top_p (params e)
              = InferenceRequest.topP request /\
            ChatCompletionCreateParams.extra_body (params e) = None)
         (exchanges (mcpInference heap request githubMcpClient create)).
Proof.
  destruct (mcpInference_loop heap request githubMcpClient create)
    as (local & heap1 & -> & _).
  apply while_settings.
Qed.

(** X12: From one pass to the next.  Whenever a pass is followed by
    another, its reply was read and its assistant message was pushed; then
    either the reply held no tool calls, the pass was not the finalizing one,
    the request for the declared format was pushed and the next pass is the
    finalizing one; or the reply held tool calls, the executor returned
    their results, these were pushed in order after the assistant message and
    the next pass is finalizing exactly when this one was. *)
Theorem mcpInference_next_pass (heap : Heap)
  (request : InferenceRequest) (githubMcpClient : GitHubMCPClient McpSession)
  (create : nat -> Client) (i : nat) (e e' : Exchange) :
  let run := mcpInference heap request githubMcpClient create in
  exchanges run !! i = Some e ->
  exchanges run !! S i = Some e' ->
  exists message,
    pass_message e = Some message /\
    let toolCalls := get_opt message P_tool_calls in
    let entry := assistant_entry (get_opt message P_content) toolCalls in
    if no_tool_calls toolCalls then
      finalizing e = false /\ finalizing e' = true /\
      exists format,
        InferenceRequest.responseFormat request = Some format /\
        ChatCompletionCreateParams.messages (params e') =
          ChatCompletionCreateParams.messages (params e)
            ++ [entry; reformat_entry format]
    else
      finalizing e' = finalizing e /\
      exists toolResults,
        executeToolCalls (GitHubMCPClient.client githubMcpClient) (S i) toolCalls
          = Ok toolResults /\
        ChatCompletionCreateParams.messages (params e') =
          ChatCompletionCreateParams.messages (params e) ++ entry :: toolResults.
Proof.
  cbn zeta.
  destruct (mcpInference_loop heap request githubMcpClient create)
    as (local & heap1 & -> & _).
  apply (while_transition request githubMcpClient create local).
Qed.

(** X13: The conversation only grows: the first pass sends the messages of
    the request, every later pass sends what the earlier ones sent followed
    by what was pushed since, and the array the run ends with extends what
    every pass sent. *)
Theorem mcpInference_conversation_only_grows (heap : Heap)
  (request : InferenceRequest) (githubMcpClient : GitHubMCPClient McpSession)
  (create : nat -> Client) :
  let run := mcpInference heap request githubMcpClient create in
  (forall e, exchanges run !! 0%nat = Some e ->
             ChatCompletionCreateParams.messages (params e)
             = heap !!! InferenceRequest.messages request) /\
  (forall (i j : nat) (ei ej : Exchange),
      (i <= j)%nat ->
      exchanges run !! i = Some ei ->
      exchanges run !! j = Some ej ->
      exists added,
        ChatCompletionCreateParams.messages (params ej) =
          ChatCompletionCreateParams.messages (params ei) ++ added) /\
  (forall (i : nat) (e : Exchange),
      exchanges run !! i = Some e ->
      exists added,
        history run = ChatCompletionCreateParams.messages (params e) ++ added).
Proof.
  cbn zeta.
  destruct (mcpInference_loop heap request githubMcpClient create)
    as (local & heap1 & -> & Hseed).
  split; [|split].
  - unfold maxIterations.
    destruct (while_first_exchange request githubMcpClient create local 4
                {| iterationCount := 0; finalMessage := false |} heap1) as [later ->].
    cbn [lookup list_lookup]. intros e H. injection H as <-.
    rewrite <- Hseed.
    apply (pass_sends request githubMcpClient create local).
  - apply (adjacent_chain
             (fun x y => exists added,
                  ChatCompletionCreateParams.messages (params y) =
                    ChatCompletionCreateParams.messages (params x) ++ added)).
    + intros x. exists []. now rewrite app_nil_r.
    + intros x y z [a ->] [b ->]. exists (a ++ b). now rewrite app_assoc.
    + intros i x y Hx Hy.
      destruct (while_transition request githubMcpClient create local _ _ _ _ _ _ Hx Hy)
        as (message & _ & Hstep).
      cbn zeta in Hstep. destruct (no_tool_calls _).
      * destruct Hstep as (_ & _ & format & _ & ->). eauto.
      * destruct Hstep as (_ & toolResults & _ & ->). eauto.
  - apply while_history_extends.
Qed.

(** X14: The finalizing flag is raised once and never lowered: the first
    pass is not finalizing, a pass that follows a finalizing pass is
    finalizing, and without a declared response format no pass is. *)
Theorem mcpInference_finalizing_is_monotone (heap : Heap)
  (request : InferenceRequest) (githubMcpClient : GitHubMCPClient McpSession)
  (create : nat -> Client) :
  let run := mcpInference heap request githubMcpClient create in
  (forall e, exchanges run !! 0%nat = Some e -> finalizing e = false) /\
  (forall (i j : nat) (ei ej : Exchange),
      (i <= j)%nat ->
      exchanges run !! i = Some ei ->
      exchanges run !! j = Some ej ->
      finalizing ei = true -> finalizing ej = true) /\
  (InferenceRequest.responseFormat request = None ->
   Forall (fun e => finalizing e = false) (exchanges run)).
Proof.
  cbn zeta.
  destruct (mcpInference_loop heap request githubMcpClient create)
    as (local & heap1 & -> & _).
  split; [|split].
  - unfold maxIterations.
    destruct (while_first_exchange request githubMcpClient create local 4
                {| iterationCount := 0; finalMessage := false |} heap1) as [later ->].
    cbn [lookup list_lookup]. intros e H. now injection H as <-.
  - apply (adjacent_chain (fun x y => finalizing x = true -> finalizing y = true)).
    + auto.
    + auto.
    + intros i x y Hx Hy.
      destruct (while_transition request githubMcpClient create local _ _ _ _ _ _ Hx Hy)
        as (message & _ & Hstep).
      cbn zeta in Hstep. destruct (no_tool_calls _).
      * now destruct Hstep as (_ & -> & _).
      * now destruct Hstep as (-> & _).
  - intros Hnone. eapply Forall_impl.
    + apply (while_exclusive request githubMcpClient create local).
      intros H. discriminate H.
    + intros e (_ & _ & Hdeclared). destruct (finalizing e); [|reflexivity].
      rewrite Hnone in Hdeclared. now destruct (Hdeclared eq_refl).
Qed.

(** ** mcpInference: how a run fails *)

(** The message of a reply is missing exactly when reading its first choice
    throws. *)
Lemma unreadable_first (context : jsstring) (settled : TransportOutcome) (error : Exn) :
  first_of_reply context settled = Throws error -> reply_message settled = None.
Proof. intros H. now rewrite (first_of_reply_message context), H. Qed.

(** X15: A reply that cannot be read ends the run: when the call of a pass
    is rejected, or its reply is refused by [chatCompletion], or has no list
    of choices to index, that pass is the last one, the run throws, and
    nothing was pushed for the pass; a rejection of the endpoint is thrown as
    it is. *)
Theorem mcpInference_unreadable_reply_ends_run (heap : Heap)
  (request : InferenceRequest) (githubMcpClient : GitHubMCPClient McpSession)
  (create : nat -> Client) (i : nat) (e : Exchange) :
  let run := mcpInference heap request githubMcpClient create in
  exchanges run !! i = Some e ->
  pass_message e = None ->
  length (exchanges run) = S i /\
  history run = ChatCompletionCreateParams.messages (params e) /\
  (exists error, outcome run = Throws error) /\
  (forall reason, reply e = Rejects reason -> outcome run = Throws reason).
Proof.
  cbn zeta.
  destruct (mcpInference_loop heap request githubMcpClient create)
    as (local & heap1 & -> & _).
  intros He Hnone.
  destruct (while_unreadable request githubMcpClient create local _ _ _ _ _ He Hnone)
    as (Hlength & Hhistory & error & Hread & Hout).
  repeat split; try assumption; [eauto|].
  intros reason Hreason. rewrite Hreason in Hread. cbn in Hread. congruence.
Qed.

(** X16: A reply without [choices] is reported under the number of its
    pass: when the reply of pass [i + 1] is, or decodes into, a structure
    without a [choices] key, the run stops there and throws the error of
    [chatCompletion] labelled [mcpInference iteration] followed by [i + 1],
    passes being counted from 1. *)
Theorem mcpInference_malformed_reply_labelled (heap : Heap)
  (request : InferenceRequest) (githubMcpClient : GitHubMCPClient McpSession)
  (create : nat -> Client) (i : nat) (e : Exchange) (v d : JsValue) :
  let run := mcpInference heap request githubMcpClient create in
  exchanges run !! i = Some e ->
  reply e = Resolves v ->
  structure_of v = Some d ->
  carries_choices d = false ->
  length (exchanges run) = S i /\
  outcome run =
    Throws (Error_ ((lit "mcpInference iteration " ++ decimal (S i))
                      ++ lit ": Unexpected response shape (no choices). Preview: "
                      ++ match JSON_stringify d with
                         | Some text => firstn 800 text
                         | None => lit "undefined"
                         end)).
Proof.
  cbn zeta.
  destruct (mcpInference_loop heap request githubMcpClient create)
    as (local & heap1 & -> & _).
  intros He Hreply Hd Hshape.
  assert (Hread : forall context,
            first_of_reply context (reply e) =
              Throws (Error_ (shape_message context d))).
  { intros context. unfold first_of_reply.
    now rewrite Hreply, (settle_structure context v d Hd), Hshape. }
  assert (Hnone : pass_message e = None).
  { unfold pass_message. exact (unreadable_first [] _ _ (Hread [])). }
  destruct (while_unreadable request githubMcpClient create local _ _ _ _ _ He Hnone)
    as (Hlength & _ & error & Herror & Hout).
  split; [exact Hlength|].
  rewrite Hread in Herror. injection Herror as <-. exact Hout.
Qed.

(** X17: A failure of the tool executor ends the run: when the reply of a
    pass holds tool calls, its content and the number of its tool calls are
    ones that the two log lines of the pass can print (as any text or absent
    content and the length of any list are), and the executor throws on the
    tool calls, that pass is the last one, the run throws the executor's
    error as it is, and the assistant message of the pass, tool calls
    included, was pushed before the executor was called. *)
Theorem mcpInference_executor_failure_ends_run (heap : Heap)
  (request : InferenceRequest) (githubMcpClient : GitHubMCPClient McpSession)
  (create : nat -> Client) (i : nat) (e : Exchange) (message : JsValue)
  (error : Exn) :
  let run := mcpInference heap request githubMcpClient create in
  exchanges run !! i = Some e ->
  pass_message e = Some message ->
  printable (get_opt message P_content) = true ->
  no_tool_calls (get_opt message P_tool_calls) = false ->
  printable (get_opt (get_opt message P_tool_calls) P_length) = true ->
  executeToolCalls (GitHubMCPClient.client githubMcpClient) (S i)
    (get_opt message P_tool_calls) = Throws error ->
  length (exchanges run) = S i /\
  outcome run = Throws error /\
  history run =
    ChatCompletionCreateParams.messages (params e)
      ++ [assistant_entry (get_opt message P_content) (get_opt message P_tool_calls)].
Proof.
  cbn zeta.
  destruct (mcpInference_loop heap request githubMcpClient create)
    as (local & heap1 & -> & _).
  apply (while_executor_failure request githubMcpClient create local).
Qed.

(** ** mcpInference: how a run returns *)

(** X18: Any pass without tool calls, not only the first, ends the run when
    no response format was declared or the pass is the finalizing one, its
    content being one that the log line of the pass can print (as any text
    or absent content is): the run returns the content of that pass ([null]
    in place of a falsy content) and the array ends with its assistant
    message. *)
Theorem mcpInference_pass_without_tools_ends_run (heap : Heap)
  (request : InferenceRequest) (githubMcpClient : GitHubMCPClient McpSession)
  (create : nat -> Client) (i : nat) (e : Exchange) (message : JsValue) :
  let run := mcpInference heap request githubMcpClient create in
  exchanges run !! i = Some e ->
  pass_message e = Some message ->
  printable (get_opt message P_content) = true ->
  no_tool_calls (get_opt message P_tool_calls) = true ->
  InferenceRequest.responseFormat request = None \/ finalizing e = true ->
  length (exchanges run) = S i /\
  outcome run = Ok (or_else (get_opt message P_content) JNull) /\
  history run =
    ChatCompletionCreateParams.messages (params e)
      ++ [assistant_entry (get_opt message P_content) (get_opt message P_tool_calls)].
Proof.
  cbn zeta.
  destruct (mcpInference_loop heap request githubMcpClient create)
    as (local & heap1 & -> & _).
  apply (while_returns_at request githubMcpClient create local).
Qed.

(** X19: A run that returns after fewer than five passes returns the
    content of its last pass, whose reply held no tool calls; when a
    response format was declared that pass is the finalizing one, sent with
    the response format and without tools. *)
Theorem mcpInference_returns_before_cap (heap : Heap)
  (request : InferenceRequest) (githubMcpClient : GitHubMCPClient McpSession)
  (create : nat -> Client) (v : JsValue) :
  let run := mcpInference heap request githubMcpClient create in
  outcome run = Ok v ->
  (length (exchanges run) < maxIterations)%nat ->
  exists e message,
    last (exchanges run) = Some e /\
    pass_message e = Some message /\
    no_tool_calls (get_opt message P_tool_calls) = true /\
    v = or_else (get_opt message P_content) JNull /\
    forall format,
      InferenceRequest.responseFormat request = Some format ->
      finalizing e = true /\
      ChatCompletionCreateParams.response_format (params e) = Some format /\
      ChatCompletionCreateParams.tools (params e) = None.
Proof.
  cbn zeta.
  destruct (mcpInference_loop heap request githubMcpClient create)
    as (local & heap1 & -> & _).
  intros Hout Hlen.
  destruct (while_returns_early request githubMcpClient create local _ _ _ _ Hout Hlen)
    as (e & message & Hlast & Hm & Hno & Hend & Hv).
  exists e, message. repeat split; try assumption.
  all: destruct Hend as [Hnone | Hfinalizing]; [congruence|].
  all: pose proof (while_exclusive request githubMcpClient create local maxIterations
                     {| iterationCount := 0; finalMessage := false |} heap1
                     ltac:(intros Hflag; discriminate Hflag)) as Hall.
  all: apply last_Some in Hlast as [earlier Hlast]; rewrite Hlast in Hall.
  all: apply Forall_app in Hall as [_ Hall]; apply Forall_cons in Hall as [Hx _].
  all: destruct Hx as (Htools & Hformat & _); rewrite Hfinalizing in Htools, Hformat.
  - exact Hfinalizing.
  - congruence.
  - exact Htools.
Qed.

(** X20: The cap can cut the reformatting short: when the fifth pass is
    the first to return no tool calls (with a content that its log line can
    print, as any text or absent content is) and a response format was
    declared, the request for the format is pushed but no pass is left to
    answer it; the run returns the content of the fifth pass ([null] in place
    of a falsy content), and no call of the run was sent with the response
    format. *)
Theorem mcpInference_cap_before_finalizing (heap : Heap)
  (request : InferenceRequest) (githubMcpClient : GitHubMCPClient McpSession)
  (create : nat -> Client) (e : Exchange) (message : JsValue)
  (format : ResponseFormat) :
  let run := mcpInference heap request githubMcpClient create in
  exchanges run !! 4%nat = Some e ->
  pass_message e = Some message ->
  printable (get_opt message P_content) = true ->
  no_tool_calls (get_opt message P_tool_calls) = true ->
  InferenceRequest.responseFormat request = Some format ->
  finalizing e = false ->
  length (exchanges run) = maxIterations /\
  outcome run = Ok (or_else (get_opt message P_content) JNull) /\
  history run =
    ChatCompletionCreateParams.messages (params e)
      ++ [assistant_entry (get_opt message P_content) (get_opt message P_tool_calls);
          reformat_entry format] /\
  Forall (fun x => ChatCompletionCreateParams.response_format (params x) = None)
         (exchanges run).
Proof.
  cbn zeta.
  destruct (mcpInference_loop heap request githubMcpClient create)
    as (local & heap1 & -> & _).
  intros He Hm Hprints Hno Hformat Hnot.
  destruct (while_cap_pending request githubMcpClient create local 4 _ _ _ _ _
              He Hm Hprints Hno Hformat Hnot) as (Hlength & Hout & Hhistory).
  repeat split; try assumption.
  apply Forall_lookup. intros j x Hx.
  pose proof (while_exclusive request githubMcpClient create local maxIterations
                {| iterationCount := 0; finalMessage := false |} heap1
                ltac:(intros Hflag; discriminate Hflag)) as Hall.
  rewrite Forall_lookup in Hall. destruct (Hall j x Hx) as (_ & -> & _).
  destruct (finalizing x) eqn:Hfinalizing; [|reflexivity].
  assert (Hle : (j <= 4)%nat).
  { apply lookup_lt_Some in Hx. unfold maxIterations in Hlength, Hx.
    rewrite Hlength in Hx. lia. }
  assert (Hlater : finalizing e = true); [|congruence].
  revert Hfinalizing.
  apply (adjacent_chain (fun a b => finalizing a = true -> finalizing b = true)
           (exchanges (while_ maxIterations request githubMcpClient create local
                         {| iterationCount := 0; finalMessage := false |} heap1)))
    with (i := j) (j := 4%nat); auto.
  intros i a b Ha Hb.
  destruct (while_transition request githubMcpClient create local _ _ _ _ _ _ Ha Hb)
    as (message' & _ & Hstep).
  cbn zeta in Hstep. destruct (no_tool_calls (get_opt message' P_tool_calls)).
  - now destruct Hstep as (_ & -> & _).
  - now destruct Hstep as (-> & _).
Qed.

(** X21: The cap after a tool call: when the fifth pass asks for tools (its
    content and the number of its tool calls being ones that the two log
    lines of the pass can print, as any text or absent content and the
    length of any list are) and the executor returns results, none of them
    an assistant message, the results are pushed but no pass is left to read
    them; the run returns the content of the fifth pass ([null] in place of a
    falsy content). *)
Theorem mcpInference_cap_after_tools (heap : Heap)
  (request : InferenceRequest) (githubMcpClient : GitHubMCPClient McpSession)
  (create : nat -> Client) (e : Exchange) (message : JsValue)
  (toolResults : list ChatMessage) :
  let run := mcpInference heap request githubMcpClient create in
  exchanges run !! 4%nat = Some e ->
  pass_message e = Some message ->
  printable (get_opt message P_content) = true ->
  no_tool_calls (get_opt message P_tool_calls) = false ->
  printable (get_opt (get_opt message P_tool_calls) P_length) = true ->
  executeToolCalls (GitHubMCPClient.client githubMcpClient) maxIterations
    (get_opt message P_tool_calls) = Ok toolResults ->
  Forall (fun m => role m <> assistant) toolResults ->
  length (exchanges run) = maxIterations /\
  outcome run = Ok (or_else (get_opt message P_content) JNull) /\
  history run =
    ChatCompletionCreateParams.messages (params e)
      ++ assistant_entry (get_opt message P_content) (get_opt message P_tool_calls)
         :: toolResults.
Proof.
  cbn zeta.
  destruct (mcpInference_loop heap request githubMcpClient create)
    as (local & heap1 & -> & _).
  apply (while_cap_tools request githubMcpClient create local 4).
Qed.

(** ** Replies without a choice to read *)

Lemma first_of_reply_choices (context : jsstring) (v : JsValue)
  (props : list (jsstring * JsValue)) (choices : JsValue) :
  structure_of v = Some (JObj props) ->
  own_property (lit "choices") props = Some choices ->
  first_of_reply context (Resolves v) = get choices P_0.
Proof.
  intros Hd Hchoices. unfold first_of_reply.
  rewrite (settle_structure context v _ Hd). cbn [carries_choices].
  rewrite Hchoices. cbn [bind]. unfold first_choice. cbn [get].
  change (property_key P_choices) with (lit "choices"). now rewrite Hchoices.
Qed.

(** X22: An empty list of choices is an absent answer, not an error:
    [simpleInference] returns [null] for it (the usage report of the reply
    being one that can be logged, as an absent report or one with numeric
    counts is), and a pass of [mcpInference] reads it as a reply without
    content and without tool calls, so that (no format being declared, or the
    pass being the finalizing one) the run ends there, returns [null] and
    leaves an assistant message with an empty content at the end of the
    array. *)
Theorem empty_choices_list_yields_null (heap : Heap) (request : InferenceRequest)
  (client : Client) (githubMcpClient : GitHubMCPClient McpSession)
  (create : nat -> Client) (v : JsValue) (props : list (jsstring * JsValue)) :
  let run := mcpInference heap request githubMcpClient create in
  structure_of v = Some (JObj props) ->
  own_property (lit "choices") props = Some (JArr []) ->
  (client (simple_request heap request) = Resolves v ->
   logs_usage (Resolves v) = true ->
   simpleInference heap request client = Ok JNull) /\
  (forall (i : nat) (e : Exchange),
      exchanges run !! i = Some e ->
      reply e = Resolves v ->
      InferenceRequest.responseFormat request = None \/ finalizing e = true ->
      length (exchanges run) = S i /\
      outcome run = Ok JNull /\
      history run =
        ChatCompletionCreateParams.messages (params e)
          ++ [{| role := assistant; content := JStr []; tool_calls := None;
                 tool_call_id := None |}]).
Proof.
  cbn zeta. intros Hd Hchoices.
  assert (Hmessage : reply_message (Resolves v) = Some JUndefined).
  { rewrite (first_of_reply_message []), (first_of_reply_choices _ _ _ _ Hd Hchoices).
    reflexivity. }
  split.
  - intros Hreply Hlog.
    rewrite (simpleInference_message heap request client JUndefined)
      by (now rewrite Hreply).
    reflexivity.
  - intros i e He Hreply Hlast.
    destruct (mcpInference_loop heap request githubMcpClient create)
      as (local & heap1 & Hrun & _).
    rewrite Hrun in He |- *.
    assert (Hm : pass_message e = Some JUndefined).
    { unfold pass_message. now rewrite Hreply. }
    apply (while_returns_at request githubMcpClient create local _ _ _ _ _ _
             He Hm eq_refl eq_refl Hlast).
Qed.

(** X23: A [choices] that is [null] passes the shape test of
    [chatCompletion], which looks for the key only, and fails where the
    first choice is read: [simpleInference] throws a [TypeError], and a pass
    of [mcpInference] with such a reply ends the run with a [TypeError],
    nothing being pushed for it. *)
Theorem null_choices_raise_TypeError (heap : Heap) (request : InferenceRequest)
  (client : Client) (githubMcpClient : GitHubMCPClient McpSession)
  (create : nat -> Client) (v : JsValue) (props : list (jsstring * JsValue)) :
  let run := mcpInference heap request githubMcpClient create in
  structure_of v = Some (JObj props) ->
  own_property (lit "choices") props = Some JNull ->
  (forall context, settle context (Resolves v) = Ok (JObj props)) /\
  (client (simple_request heap request) = Resolves v ->
   exists reason, simpleInference heap request client = Throws (TypeError reason)) /\
  (forall (i : nat) (e : Exchange),
      exchanges run !! i = Some e ->
      reply e = Resolves v ->
      length (exchanges run) = S i /\
      history run = ChatCompletionCreateParams.messages (params e) /\
      exists reason, outcome run = Throws (TypeError reason)).
Proof.
  cbn zeta. intros Hd Hchoices.
  assert (Hread : forall context,
            first_of_reply context (Resolves v) =
              Throws (TypeError (lit "Cannot read properties of null (reading '"
                                   ++ property_key P_0 ++ lit "')"))).
  { intros context. now rewrite (first_of_reply_choices _ _ _ _ Hd Hchoices). }
  split; [|split].
  - intros context. rewrite (settle_structure context v _ Hd). cbn [carries_choices].
    now rewrite Hchoices.
  - intros Hreply.
    pose proof (Hread (lit "simpleInference")) as H.
    unfold first_of_reply in H. unfold simpleInference, chatCompletion.
    rewrite Hreply. destruct (settle _ _) as [response|error]; cbn [bind] in H |- *.
    + destruct (log_usage response) as [logged|error] eqn:Hlog; cbn [bind].
      * rewrite H. cbn [bind]. eauto.
      * destruct (log_usage_throws _ _ Hlog) as [reason ->]. eauto.
    + rewrite H. eauto.
  - intros i e He Hreply.
    destruct (mcpInference_loop heap request githubMcpClient create)
      as (local & heap1 & Hrun & _).
    rewrite Hrun in He |- *.
    assert (Hnone : pass_message e = None).
    { unfold pass_message. rewrite Hreply. exact (unreadable_first [] _ _ (Hread [])). }
    destruct (while_unreadable request githubMcpClient create local _ _ _ _ _ He Hnone)
      as (Hlength & Hhistory & error & Herror & Hout).
    rewrite Hreply, Hread in Herror. injection Herror as <-. eauto.
Qed.

(** ** The log lines that can throw *)


(** X28: A content that cannot be converted to a string ends the run at the
    log line of its pass: that pass is the last one, the run throws a
    [TypeError], and nothing was pushed for the pass. *)
Theorem mcpInference_unprintable_content_ends_run (heap : Heap)
  (request : InferenceRequest) (githubMcpClient : GitHubMCPClient McpSession)
  (create : nat -> Client) (i : nat) (e : Exchange) (message : JsValue) :
  let run := mcpInference heap request githubMcpClient create in
  exchanges run !! i = Some e ->
  pass_message e = Some message ->
  printable (get_opt message P_content) = false ->
  length (exchanges run) = S i /\
  (exists reason, outcome run = Throws (TypeError reason)) /\
  history run = ChatCompletionCreateParams.messages (params e).
Proof.
  cbn zeta.
  destruct (mcpInference_loop heap request githubMcpClient create)
    as (local & heap1 & -> & _).
  intros He Hm Hprints.
  destruct (while_unlogged request githubMcpClient create local _ _ _ _ _ _
              He Hm Hprints) as (Hlength & Hout & Hhistory).
  repeat split; try assumption. unfold conversion_error in Hout. eauto.
Qed.

(** X29: A number of tool calls that cannot be converted to a string ends
    the run at the second log line of its pass: the assistant message of the
    pass was pushed, the run throws a [TypeError] and no tool result follows
    the assistant message, the executor not being reached. *)
Theorem mcpInference_unprintable_tool_count_ends_run (heap : Heap)
  (request : InferenceRequest) (githubMcpClient : GitHubMCPClient McpSession)
  (create : nat -> Client) (i : nat) (e : Exchange) (message : JsValue) :
  let run := mcpInference heap request githubMcpClient create in
  exchanges run !! i = Some e ->
  pass_message e = Some message ->
  printable (get_opt message P_content) = true ->
  no_tool_calls (get_opt message P_tool_calls) = false ->
  printable (get_opt (get_opt message P_tool_calls) P_length) = false ->
  length (exchanges run) = S i /\
  (exists reason, outcome run = Throws (TypeError reason)) /\
  history run =
    ChatCompletionCreateParams.messages (params e)
      ++ [assistant_entry (get_opt message P_content) (get_opt message P_tool_calls)].
Proof.
  cbn zeta.
  destruct (mcpInference_loop heap request githubMcpClient create)
    as (local & heap1 & -> & _).
  intros He Hm Hprints Hcalls Hcounts.
  destruct (while_uncounted request githubMcpClient create local _ _ _ _ _ _
              He Hm Hprints Hcalls Hcounts) as (Hlength & Hout & Hhistory).
  repeat split; try assumption. unfold conversion_error in Hout. eauto.
Qed.


End Inference.


(** * The properties at work

    The functions run on sample replies, with the reference decoder and
    encoder for the engine's JSON functions and the sample executor for the
    tool adapter. *)


(** C8 at work: a structured reply with one choice comes back as it is. *)
Lemma chatCompletion_returns_well_formed_unchanged_witness :
  carries_nonempty_choices Sample.hello = true /\
  chatCompletion JsonText.parse JsonText.stringify
    (fun _ => Resolves Sample.hello) Sample.sent (lit "simpleInference")
  = Ok Sample.hello.
Proof.
  split; [vm_compute; reflexivity|].
  apply chatCompletion_returns_well_formed_unchanged; vm_compute; reflexivity.
Defined.

(** C6 at work: 2000 code units that are not JSON; the preview is the first
    400 of them. *)
Lemma chatCompletion_decode_failure_preview_witness :
  length Sample.garbage = 2000%nat /\
  JsonText.parse Sample.garbage = SyntaxError (lit "Unexpected token in JSON") /\
  chatCompletion JsonText.parse JsonText.stringify
    (fun _ => Resolves (JStr Sample.garbage)) Sample.sent (lit "simpleInference")
  = Throws (Error_ (lit "simpleInference"
      ++ lit ": Chat completion response was a string and not valid JSON ("
      ++ lit "Unexpected token in JSON" ++ lit "). Preview: "
      ++ firstn 400 Sample.garbage)) /\
  length (firstn 400 Sample.garbage) = 400%nat.
Proof.
  split; [vm_compute; reflexivity|]. split; [vm_compute; reflexivity|].
  destruct (chatCompletion_decode_failure_preview JsonText.parse JsonText.stringify
              (fun _ => Resolves (JStr Sample.garbage)) Sample.sent
              (lit "simpleInference") Sample.garbage (lit "Unexpected token in JSON")
              eq_refl ltac:(vm_compute; reflexivity)) as [Hthrown Hlength].
  split; [exact Hthrown|]. apply Hlength. vm_compute. lia.
Defined.

(** C1 refuted as stated: an object whose [choices] list is empty is neither a
    structure with a non-empty [choices] list nor a string, and
    [chatCompletion] returns it instead of failing. *)
Lemma chatCompletion_accepts_empty_choices :
  Sample.empty_choices = JObj [(lit "choices", JArr [])] /\
  (forall d, structure_of JsonText.parse Sample.empty_choices = Some d ->
             carries_nonempty_choices d = false) /\
  chatCompletion JsonText.parse JsonText.stringify
    (fun _ => Resolves Sample.empty_choices) Sample.sent (lit "simpleInference")
  = Ok Sample.empty_choices.
Proof.
  split; [vm_compute; reflexivity|]. split; [|vm_compute; reflexivity].
  intros d Hd. vm_compute in Hd. injection Hd as <-. reflexivity.
Qed.

(** C1 as amended, at work: the empty [choices] list is accepted, a string
    that decodes to a completion is decoded and accepted, and an object
    without [choices] is refused. *)
Lemma chatCompletion_failure_characterised_witness :
  chatCompletion JsonText.parse JsonText.stringify
    (fun _ => Resolves Sample.empty_choices) Sample.sent (lit "simpleInference")
  = Ok Sample.empty_choices /\
  chatCompletion JsonText.parse JsonText.stringify
    (fun _ => Resolves
                (JStr (Sample.json_text "{'choices':[{'message':{'content':'hi'}}]}")))
    Sample.sent (lit "simpleInference")
  = Ok (Sample.json "{'choices':[{'message':{'content':'hi'}}]}") /\
  exists e,
    chatCompletion JsonText.parse JsonText.stringify
      (fun _ => Resolves (Sample.json "{'choice':[]}")) Sample.sent
      (lit "simpleInference") = Throws e /\
    MalformedResponseError (lit "simpleInference") e.
Proof.
  split; [|split].
  - apply (chatCompletion_failure_characterised JsonText.parse JsonText.stringify
             (fun _ => Resolves Sample.empty_choices) Sample.sent
             (lit "simpleInference") Sample.empty_choices eq_refl);
      vm_compute; reflexivity.
  - apply (chatCompletion_failure_characterised JsonText.parse JsonText.stringify
             (fun _ => Resolves
                (JStr (Sample.json_text "{'choices':[{'message':{'content':'hi'}}]}")))
             Sample.sent (lit "simpleInference") _ eq_refl);
      vm_compute; reflexivity.
  - apply (chatCompletion_failure_characterised JsonText.parse JsonText.stringify
             (fun _ => Resolves (Sample.json "{'choice':[]}")) Sample.sent
             (lit "simpleInference") _ eq_refl).
    intros d Hd. vm_compute in Hd. injection Hd as <-. reflexivity.
Defined.

(** C7, on the failing input: the content begins with a thought wrapper
    whose thought runs over two lines.  The claim has [simpleInference] strip
    the wrapper and return [Hello]; the code returns the whole content,
    thought included, because the dot of its pattern stops at the line
    break. *)
Lemma thought_with_line_break_is_returned :
  simpleInference JsonText.parse JsonText.stringify Sample.heap (Sample.request None)
    (fun _ => Resolves (Sample.thinking (lit "step one" ++ [10] ++ lit "step two")
                          (lit "Hello")))
  = Ok (JStr (lit "<thought>step one" ++ [10] ++ lit "step two</thought>Hello")).
Proof. vm_compute. reflexivity. Qed.

(** X24 at work: the content [<thought>plan</thought>Hello] yields
    [Hello]. *)
Lemma simpleInference_strips_one_line_thought_witness :
  simpleInference JsonText.parse JsonText.stringify Sample.heap (Sample.request None)
    (fun _ => Resolves (Sample.thinking (lit "plan") (lit "Hello")))
  = Ok (JStr (lit "Hello")).
Proof.
  apply (simpleInference_strips_one_line_thought JsonText.parse JsonText.stringify
           Sample.heap (Sample.request None)
           (fun _ => Resolves (Sample.thinking (lit "plan") (lit "Hello")))
           (JObj [(lit "content",
                   JStr (open_tag ++ lit "plan" ++ close_tag ++ lit "Hello"))])
           [] (lit "plan") (lit "Hello"));
    vm_compute; reflexivity.
Defined.

(** C10, on the failing input: the content is a thought wrapper and nothing
    else, the thought running over two lines.  The claim has
    [simpleInference] return [null] once the wrapper is stripped; the code
    returns the wrapper whole, because the dot of its pattern stops at the
    line break (the defect shown for C7). *)
Lemma thought_block_with_line_break_is_not_null :
  simpleInference JsonText.parse JsonText.stringify Sample.heap (Sample.request None)
    (fun _ => Resolves (Sample.thinking (lit "step one" ++ [10] ++ lit "step two") []))
  = Ok (JStr (lit "<thought>step one" ++ [10] ++ lit "step two</thought>")) /\
  simpleInference JsonText.parse JsonText.stringify Sample.heap (Sample.request None)
    (fun _ => Resolves (Sample.thinking (lit "step one" ++ [10] ++ lit "step two") []))
  <> Ok JNull.
Proof. split; [vm_compute; reflexivity|]. vm_compute. discriminate. Qed.


(** C3, on the failing input: a response format is declared, the first pass
    returns no tool calls, the second (finalizing) pass asks for a tool.  The
    claim has the loop make exactly one further pass after the first and end
    with the content of the second; the code executes the tool and goes on to
    a third pass, sent with the response format like the second, whose
    content it returns. *)
Lemma reformat_pass_may_call_tools :
  let run :=
    mcpInference JsonText.parse JsonText.stringify unit Sample.executor
      Sample.heap (Sample.request (Some Sample.schema)) Sample.session
      (Sample.scripted [Sample.hello; Sample.calling] Sample.structured) in
  (exists e1 message1,
      head (exchanges run) = Some e1 /\
      pass_message JsonText.parse JsonText.stringify e1 = Some message1 /\
      no_tool_calls (get_opt message1 P_tool_calls) = true) /\
  List.map finalizing (exchanges run) = [false; true; true] /\
  List.map (fun e => ChatCompletionCreateParams.response_format (params e))
           (exchanges run) = [None; Some Sample.schema; Some Sample.schema] /\
  List.map (fun e => option_map (fun m => get_opt m P_content)
                       (pass_message JsonText.parse JsonText.stringify e))
           (exchanges run)
  = [Some (JStr (lit "Hello")); Some (JStr (lit "Looking it up"));
     Some (JStr (Sample.json_text "{'answer':42}"))] /\
  outcome run = Ok (JStr (Sample.json_text "{'answer':42}")).
Proof.
  cbn zeta. split; [|vm_compute; repeat split; reflexivity].
  do 2 eexists. split; [vm_compute; reflexivity|]. split; vm_compute; reflexivity.
Qed.

(** X25 at work: a first reply without tools, then the reply in the
    declared format. *)
Lemma mcpInference_forced_reformat_witness :
  let run :=
    mcpInference JsonText.parse JsonText.stringify unit Sample.executor
      Sample.heap (Sample.request (Some Sample.schema)) Sample.session
      (Sample.scripted [Sample.hello] Sample.structured) in
  length (exchanges run) = 2%nat /\
  outcome run = Ok (JStr (Sample.json_text "{'answer':42}")).
Proof.
  cbn zeta.
  destruct (exchanges (mcpInference JsonText.parse JsonText.stringify unit
                         Sample.executor Sample.heap
                         (Sample.request (Some Sample.schema)) Sample.session
                         (Sample.scripted [Sample.hello] Sample.structured)))
    as [|e1 rest] eqn:Hrun; [vm_compute in Hrun; discriminate|].
  destruct (mcpInference_forced_reformat JsonText.parse JsonText.stringify
              unit Sample.executor Sample.heap (Sample.request (Some Sample.schema))
              Sample.session (Sample.scripted [Sample.hello] Sample.structured)
              Sample.schema e1 rest
              (JObj [(lit "content", JStr (lit "Hello"))]) eq_refl Hrun)
    as (e2 & rest' & -> & _ & _ & _ & _ & Hsecond).
  - vm_compute in Hrun. injection Hrun as <- _. vm_compute. reflexivity.
  - reflexivity.
  - vm_compute. reflexivity.
  - destruct (Hsecond (JObj [(lit "content", JStr (Sample.json_text "{'answer':42}"))]))
      as (Hlength & _ & Houtcome).
    + vm_compute in Hrun. injection Hrun as _ <- _. vm_compute. reflexivity.
    + reflexivity.
    + vm_compute. reflexivity.
    + rewrite Hrun in Hlength. split; [exact Hlength | exact Houtcome].
Defined.


(** C9 at work: the caller's array, object 7 of the sample heap, after five
    passes with tools. *)
Lemma mcpInference_leaves_request_messages_witness :
  heap_after (mcpInference JsonText.parse JsonText.stringify unit Sample.executor
                Sample.heap (Sample.request None) Sample.session
                (Sample.always Sample.calling)) !! 7%nat
  = Sample.heap !! 7%nat.
Proof.
  assert (allocated : is_Some (Sample.heap !! 7%nat))
    by (eexists; vm_compute; reflexivity).
  exact (proj1 (mcpInference_leaves_request_messages JsonText.parse JsonText.stringify
                  unit Sample.executor Sample.heap (Sample.request None) Sample.session
                  (Sample.always Sample.calling) allocated)).
Defined.

(** X26 at work: a content that is a one-line thought and nothing else, and
    a reply with an empty content. *)
Lemma empty_content_is_returned_as_null_witness :
  simpleInference JsonText.parse JsonText.stringify Sample.heap (Sample.request None)
    (fun _ => Resolves (Sample.thinking (lit "plan") [])) = Ok JNull /\
  simpleInference JsonText.parse JsonText.stringify Sample.heap (Sample.request None)
    (fun _ => Resolves Sample.silent) = Ok JNull /\
  outcome (mcpInference JsonText.parse JsonText.stringify unit Sample.executor
             Sample.heap (Sample.request None) Sample.session
             (Sample.always Sample.silent)) = Ok JNull.
Proof.
  destruct (empty_content_is_returned_as_null JsonText.parse JsonText.stringify
              unit Sample.executor Sample.heap (Sample.request None)
              (fun _ => Resolves (Sample.thinking (lit "plan") []))
              Sample.session (Sample.always Sample.silent))
    as (_ & _ & _ & Hthought & Hends & _).
  destruct (empty_content_is_returned_as_null JsonText.parse JsonText.stringify
              unit Sample.executor Sample.heap (Sample.request None)
              (fun _ => Resolves Sample.silent)
              Sample.session (Sample.always Sample.silent))
    as (_ & _ & Hempty & _ & _ & _).
  split; [|split].
  - apply (Hthought (JObj [(lit "content", JStr (open_tag ++ lit "plan" ++ close_tag))])
             [] (lit "plan")); vm_compute; reflexivity.
  - apply (Hempty (JObj [(lit "content", JStr [])])); vm_compute; reflexivity.
  - destruct (last (exchanges
                      (mcpInference JsonText.parse JsonText.stringify unit
                         Sample.executor Sample.heap (Sample.request None)
                         Sample.session (Sample.always Sample.silent))))
      as [e|] eqn:Hlast; [|vm_compute in Hlast; discriminate].
    apply (Hends e (JObj [(lit "content", JStr [])]) eq_refl).
    + vm_compute in Hlast. injection Hlast as <-. vm_compute. reflexivity.
    + vm_compute. reflexivity.
    + vm_compute. reflexivity.
Defined.

(** * Further properties at work *)

(** X1 at work: an endpoint that cannot be reached, and an error body in
    place of a completion. *)
Lemma chatCompletion_error_origin_witness :
  chatCompletion JsonText.parse JsonText.stringify (Sample.unreachable 1%nat)
    Sample.sent (lit "simpleInference")
  = Throws (Error_ (lit "Connection error.")) /\
  exists e,
    chatCompletion JsonText.parse JsonText.stringify
      (fun _ => Resolves Sample.refusal) Sample.sent (lit "simpleInference")
    = Throws e /\
    MalformedResponseError (lit "simpleInference") e.
Proof.
  split.
  - apply (proj1 (chatCompletion_error_origin JsonText.parse JsonText.stringify
                    (Sample.unreachable 1%nat) Sample.sent (lit "simpleInference"))).
    reflexivity.
  - destruct (chatCompletion JsonText.parse JsonText.stringify
                (fun _ => Resolves Sample.refusal) Sample.sent (lit "simpleInference"))
      as [response|e] eqn:H; [vm_compute in H; discriminate H|].
    exists e. split; [reflexivity|].
    destruct (proj2 (chatCompletion_error_origin JsonText.parse JsonText.stringify
                       (fun _ => Resolves Sample.refusal) Sample.sent
                       (lit "simpleInference")) e H)
      as [Hrejected | (_ & Hmalformed & _)]; [discriminate Hrejected | exact Hmalformed].
Defined.

(** X2 at work: the completion that is returned is an object with
    [choices]. *)
Lemma chatCompletion_returns_object_with_choices_witness :
  exists props choices,
    Sample.hello = JObj props /\ own_property (lit "choices") props = Some choices.
Proof.
  exact (proj2 (chatCompletion_returns_object_with_choices
                  JsonText.parse JsonText.stringify
                  (fun _ => Resolves Sample.hello) Sample.sent (lit "simpleInference")
                  Sample.hello ltac:(vm_compute; reflexivity))).
Defined.

(** X3 at work: an error body whose JSON text has more than 2000 code
    units; the preview holds 800 of them. *)
Lemma chatCompletion_shape_failure_preview_witness :
  chatCompletion JsonText.parse JsonText.stringify
    (fun _ => Resolves Sample.refusal) Sample.sent (lit "simpleInference")
  = Throws (Error_ (lit "simpleInference"
      ++ lit ": Unexpected response shape (no choices). Preview: "
      ++ match JsonText.stringify Sample.refusal with
         | Some text => firstn 800 text
         | None => lit "undefined"
         end)) /\
  exists text,
    JsonText.stringify Sample.refusal = Some text /\
    length (firstn 800 text) = 800%nat.
Proof.
  destruct (chatCompletion_shape_failure_preview JsonText.parse JsonText.stringify
              (fun _ => Resolves Sample.refusal) Sample.sent (lit "simpleInference")
              Sample.refusal Sample.refusal eq_refl eq_refl eq_refl)
    as [Hthrown Hbound].
  split; [exact Hthrown|].
  destruct (JsonText.stringify Sample.refusal) as [text|] eqn:Htext;
    [|vm_compute in Htext; discriminate Htext].
  exists text. split; [reflexivity|].
  apply (Hbound text eq_refl).
  assert (Hlength : option_map (@length code_unit) (JsonText.stringify Sample.refusal)
                    = Some 2024%nat) by (vm_compute; reflexivity).
  rewrite Htext in Hlength. injection Hlength as ->. lia.
Defined.

(** X4 at work: the completion sent as JSON text and the same completion
    sent as a structure. *)
Lemma chatCompletion_decoding_is_transparent_witness :
  chatCompletion JsonText.parse JsonText.stringify
    (fun _ => Resolves
                (JStr (Sample.json_text "{'choices':[{'message':{'content':'hi'}}]}")))
    Sample.sent (lit "simpleInference")
  = chatCompletion JsonText.parse JsonText.stringify
      (fun _ => Resolves (Sample.json "{'choices':[{'message':{'content':'hi'}}]}"))
      Sample.sent (lit "simpleInference").
Proof.
  apply (chatCompletion_decoding_is_transparent JsonText.parse JsonText.stringify
           _ _ Sample.sent (lit "simpleInference")
           (Sample.json_text "{'choices':[{'message':{'content':'hi'}}]}")
           (Sample.json "{'choices':[{'message':{'content':'hi'}}]}"));
    vm_compute; reflexivity.
Defined.

(** X5 at work: the sample request names a Gemini 3 model. *)
Lemma simpleInference_request_sent_witness :
  ChatCompletionCreateParams.extra_body
    (simple_request Sample.heap (Sample.request None)) = Some thinking_config.
Proof.
  apply (simpleInference_request_sent JsonText.parse JsonText.stringify
           Sample.heap (Sample.request None) (fun _ => Resolves Sample.hello)).
  exists (lit "-pro"). reflexivity.
Defined.

(** X6 at work: a content that is the number 42. *)
Lemma simpleInference_returns_text_or_null_witness :
  exists reason,
    simpleInference JsonText.parse JsonText.stringify Sample.heap (Sample.request None)
      (fun _ => Resolves Sample.numeric) = Throws (TypeError reason).
Proof.
  eapply (proj2 (simpleInference_returns_text_or_null JsonText.parse JsonText.stringify
                   Sample.heap (Sample.request None)
                   (fun _ => Resolves Sample.numeric)));
    vm_compute; reflexivity.
Defined.

(** X7 at work: a thought that comes after the answer stays where it is. *)
Lemma simpleInference_keeps_content_without_leading_thought_witness :
  simpleInference JsonText.parse JsonText.stringify Sample.heap (Sample.request None)
    (fun _ => Resolves
                (Sample.json
                   "{'choices':[{'message':{'content':'Hello <thought>plan</thought>'}}]}"))
  = Ok (JStr (lit "Hello <thought>plan</thought>")).
Proof.
  apply (simpleInference_keeps_content_without_leading_thought
           JsonText.parse JsonText.stringify Sample.heap (Sample.request None) _
           (JObj [(lit "content", JStr (lit "Hello <thought>plan</thought>"))])
           [] (lit "Hello <thought>plan</thought>"));
    try (vm_compute; reflexivity).
  discriminate.
Defined.

(** X8 at work: a thought that is opened and never closed. *)
Lemma simpleInference_keeps_content_without_closing_tag_witness :
  simpleInference JsonText.parse JsonText.stringify Sample.heap (Sample.request None)
    (fun _ => Resolves
                (Sample.json "{'choices':[{'message':{'content':'<thought>plan Hello'}}]}"))
  = Ok (JStr (lit "<thought>plan Hello")).
Proof.
  apply (simpleInference_keeps_content_without_closing_tag
           JsonText.parse JsonText.stringify Sample.heap (Sample.request None) _
           (JObj [(lit "content", JStr (lit "<thought>plan Hello"))])
           (lit "<thought>plan Hello"));
    try (vm_compute; reflexivity).
  discriminate.
Defined.

(** X9 at work: the endpoint cannot be reached. *)
Lemma simpleInference_reports_failures_witness :
  simpleInference JsonText.parse JsonText.stringify Sample.heap (Sample.request None)
    (Sample.unreachable 1%nat)
  = Throws (Error_ (lit "Connection error.")).
Proof.
  apply (proj1 (simpleInference_reports_failures JsonText.parse JsonText.stringify
                  Sample.heap (Sample.request None) (Sample.unreachable 1%nat))).
  reflexivity.
Defined.

(** X10 at work: five passes that each ask for a tool, and not one more. *)
Lemma mcpInference_makes_one_to_five_calls_witness :
  (length (exchanges (mcpInference JsonText.parse JsonText.stringify unit
                        Sample.executor Sample.heap (Sample.request None)
                        Sample.session (Sample.always Sample.calling)))
   <= maxIterations)%nat.
Proof.
  apply (mcpInference_makes_one_to_five_calls JsonText.parse JsonText.stringify
           unit Sample.executor Sample.heap (Sample.request None) Sample.session
           (Sample.always Sample.calling)).
Defined.

(** X12 at work: a pass that asks for a tool, followed by the pass that
    answers. *)
Lemma mcpInference_next_pass_witness :
  let run :=
    mcpInference JsonText.parse JsonText.stringify unit Sample.executor
      Sample.heap (Sample.request None) Sample.session
      (Sample.scripted [Sample.calling] Sample.hello) in
  exists e e',
    exchanges run !! 0%nat = Some e /\
    exchanges run !! 1%nat = Some e' /\
    is_Some (pass_message JsonText.parse JsonText.stringify e).
Proof.
  cbn zeta.
  destruct (exchanges
              (mcpInference JsonText.parse JsonText.stringify unit Sample.executor
                 Sample.heap (Sample.request None) Sample.session
                 (Sample.scripted [Sample.calling] Sample.hello)) !! 0%nat)
    as [e|] eqn:H0; [|vm_compute in H0; discriminate H0].
  destruct (exchanges
              (mcpInference JsonText.parse JsonText.stringify unit Sample.executor
                 Sample.heap (Sample.request None) Sample.session
                 (Sample.scripted [Sample.calling] Sample.hello)) !! 1%nat)
    as [e'|] eqn:H1; [|vm_compute in H1; discriminate H1].
  exists e, e'. split; [reflexivity|]. split; [reflexivity|].
  destruct (mcpInference_next_pass JsonText.parse JsonText.stringify unit
              Sample.executor Sample.heap (Sample.request None) Sample.session
              (Sample.scripted [Sample.calling] Sample.hello) 0 e e' H0 H1)
    as (message & Hmessage & _).
  now exists message.
Defined.

(** X13 at work: the second pass sends what the first sent, and more. *)
Lemma mcpInference_conversation_only_grows_witness :
  let run :=
    mcpInference JsonText.parse JsonText.stringify unit Sample.executor
      Sample.heap (Sample.request None) Sample.session
      (Sample.scripted [Sample.calling] Sample.hello) in
  exists e e',
    exchanges run !! 0%nat = Some e /\
    exchanges run !! 1%nat = Some e' /\
    exists added,
      ChatCompletionCreateParams.messages (params e') =
        ChatCompletionCreateParams.messages (params e) ++ added.
Proof.
  cbn zeta.
  destruct (exchanges
              (mcpInference JsonText.parse JsonText.stringify unit Sample.executor
                 Sample.heap (Sample.request None) Sample.session
                 (Sample.scripted [Sample.calling] Sample.hello)) !! 0%nat)
    as [e|] eqn:H0; [|vm_compute in H0; discriminate H0].
  destruct (exchanges
              (mcpInference JsonText.parse JsonText.stringify unit Sample.executor
                 Sample.heap (Sample.request None) Sample.session
                 (Sample.scripted [Sample.calling] Sample.hello)) !! 1%nat)
    as [e'|] eqn:H1; [|vm_compute in H1; discriminate H1].
  exists e, e'. split; [reflexivity|]. split; [reflexivity|].
  apply (proj1 (proj2 (mcpInference_conversation_only_grows JsonText.parse
                         JsonText.stringify unit Sample.executor Sample.heap
                         (Sample.request None) Sample.session
                         (Sample.scripted [Sample.calling] Sample.hello)))
           0%nat 1%nat e e'); [lia | exact H0 | exact H1].
Defined.

(** X14 at work: the finalizing pass asks for a tool, and the pass after it
    is finalizing too. *)
Lemma mcpInference_finalizing_is_monotone_witness :
  let run :=
    mcpInference JsonText.parse JsonText.stringify unit Sample.executor
      Sample.heap (Sample.request (Some Sample.schema)) Sample.session
      (Sample.scripted [Sample.hello; Sample.calling] Sample.structured) in
  exists e e',
    exchanges run !! 1%nat = Some e /\
    exchanges run !! 2%nat = Some e' /\
    finalizing e' = true.
Proof.
  cbn zeta.
  destruct (exchanges
              (mcpInference JsonText.parse JsonText.stringify unit Sample.executor
                 Sample.heap (Sample.request (Some Sample.schema)) Sample.session
                 (Sample.scripted [Sample.hello; Sample.calling] Sample.structured))
              !! 1%nat)
    as [e|] eqn:H1; [|vm_compute in H1; discriminate H1].
  destruct (exchanges
              (mcpInference JsonText.parse JsonText.stringify unit Sample.executor
                 Sample.heap (Sample.request (Some Sample.schema)) Sample.session
                 (Sample.scripted [Sample.hello; Sample.calling] Sample.structured))
              !! 2%nat)
    as [e'|] eqn:H2; [|vm_compute in H2; discriminate H2].
  exists e, e'. split; [reflexivity|]. split; [reflexivity|].
  apply (proj1 (proj2 (mcpInference_finalizing_is_monotone JsonText.parse
                         JsonText.stringify unit Sample.executor Sample.heap
                         (Sample.request (Some Sample.schema)) Sample.session
                         (Sample.scripted [Sample.hello; Sample.calling]
                            Sample.structured)))
           1%nat 2%nat e e'); [lia | exact H1 | exact H2 |].
  vm_compute in H1. injection H1 as <-. reflexivity.
Defined.

(** X15 at work: the endpoint answers the first call and rejects the
    second. *)
Lemma mcpInference_unreadable_reply_ends_run_witness :
  let run :=
    mcpInference JsonText.parse JsonText.stringify unit Sample.executor
      Sample.heap (Sample.request None) Sample.session
      (Sample.failing_after 1 Sample.calling) in
  length (exchanges run) = 2%nat /\
  outcome run = Throws (Error_ (lit "Connection error.")).
Proof.
  cbn zeta.
  destruct (exchanges
              (mcpInference JsonText.parse JsonText.stringify unit Sample.executor
                 Sample.heap (Sample.request None) Sample.session
                 (Sample.failing_after 1 Sample.calling)) !! 1%nat)
    as [e|] eqn:H1; [|vm_compute in H1; discriminate H1].
  destruct (mcpInference_unreadable_reply_ends_run JsonText.parse JsonText.stringify
              unit Sample.executor Sample.heap (Sample.request None) Sample.session
              (Sample.failing_after 1 Sample.calling) 1%nat e H1)
    as (Hlength & _ & _ & Hrejected).
  - vm_compute in H1. injection H1 as <-. vm_compute. reflexivity.
  - split; [exact Hlength|]. apply Hrejected.
    vm_compute in H1. injection H1 as <-. reflexivity.
Defined.

(** X16 at work: an error body in answer to the second call. *)
Lemma mcpInference_malformed_reply_labelled_witness :
  let run :=
    mcpInference JsonText.parse JsonText.stringify unit Sample.executor
      Sample.heap (Sample.request None) Sample.session
      (Sample.scripted [Sample.calling] Sample.refusal) in
  length (exchanges run) = 2%nat /\
  outcome run =
    Throws (Error_ (lit "mcpInference iteration 2"
                      ++ lit ": Unexpected response shape (no choices). Preview: "
                      ++ match JsonText.stringify Sample.refusal with
                         | Some text => firstn 800 text
                         | None => lit "undefined"
                         end)).
Proof.
  cbn zeta.
  destruct (exchanges
              (mcpInference JsonText.parse JsonText.stringify unit Sample.executor
                 Sample.heap (Sample.request None) Sample.session
                 (Sample.scripted [Sample.calling] Sample.refusal)) !! 1%nat)
    as [e|] eqn:H1; [|vm_compute in H1; discriminate H1].
  apply (mcpInference_malformed_reply_labelled JsonText.parse JsonText.stringify
           unit Sample.executor Sample.heap (Sample.request None) Sample.session
           (Sample.scripted [Sample.calling] Sample.refusal) 1%nat e
           Sample.refusal Sample.refusal H1); try reflexivity.
  vm_compute in H1. injection H1 as <-. reflexivity.
Defined.

(** X17 at work: the tool session is closed. *)
Lemma mcpInference_executor_failure_ends_run_witness :
  let run :=
    mcpInference JsonText.parse JsonText.stringify unit Sample.closed_executor
      Sample.heap (Sample.request None) Sample.session
      (Sample.always Sample.calling) in
  length (exchanges run) = 1%nat /\
  outcome run = Throws (Error_ (lit "Not connected")).
Proof.
  cbn zeta.
  destruct (exchanges
              (mcpInference JsonText.parse JsonText.stringify unit
                 Sample.closed_executor Sample.heap (Sample.request None)
                 Sample.session (Sample.always Sample.calling)) !! 0%nat)
    as [e|] eqn:H0; [|vm_compute in H0; discriminate H0].
  destruct (pass_message JsonText.parse JsonText.stringify e)
    as [message|] eqn:Hmessage;
    [|vm_compute in H0; injection H0 as <-; vm_compute in Hmessage;
      discriminate Hmessage].
  destruct (mcpInference_executor_failure_ends_run JsonText.parse JsonText.stringify
              unit Sample.closed_executor Sample.heap (Sample.request None)
              Sample.session (Sample.always Sample.calling) 0%nat e message
              (Error_ (lit "Not connected")) H0 Hmessage)
    as (Hlength & Hout & _).
  - vm_compute in H0. injection H0 as <-. vm_compute in Hmessage.
    injection Hmessage as <-. reflexivity.
  - vm_compute in H0. injection H0 as <-. vm_compute in Hmessage.
    injection Hmessage as <-. vm_compute. reflexivity.
  - vm_compute in H0. injection H0 as <-. vm_compute in Hmessage.
    injection Hmessage as <-. reflexivity.
  - reflexivity.
  - split; assumption.
Defined.

(** X18 at work: a tool call, then an answer without tool calls. *)
Lemma mcpInference_pass_without_tools_ends_run_witness :
  let run :=
    mcpInference JsonText.parse JsonText.stringify unit Sample.executor
      Sample.heap (Sample.request None) Sample.session
      (Sample.scripted [Sample.calling] Sample.hello) in
  length (exchanges run) = 2%nat /\ outcome run = Ok (JStr (lit "Hello")).
Proof.
  cbn zeta.
  destruct (exchanges
              (mcpInference JsonText.parse JsonText.stringify unit Sample.executor
                 Sample.heap (Sample.request None) Sample.session
                 (Sample.scripted [Sample.calling] Sample.hello)) !! 1%nat)
    as [e|] eqn:H1; [|vm_compute in H1; discriminate H1].
  destruct (mcpInference_pass_without_tools_ends_run JsonText.parse JsonText.stringify
              unit Sample.executor Sample.heap (Sample.request None) Sample.session
              (Sample.scripted [Sample.calling] Sample.hello) 1%nat e
              (JObj [(lit "content", JStr (lit "Hello"))]) H1)
    as (Hlength & Hout & _).
  - vm_compute in H1. injection H1 as <-. vm_compute. reflexivity.
  - reflexivity.
  - vm_compute. reflexivity.
  - now left.
  - split; assumption.
Defined.

(** X19 at work: under a declared format, the run that returns after two
    passes returns from the finalizing one. *)
Lemma mcpInference_returns_before_cap_witness :
  let run :=
    mcpInference JsonText.parse JsonText.stringify unit Sample.executor
      Sample.heap (Sample.request (Some Sample.schema)) Sample.session
      (Sample.scripted [Sample.hello] Sample.structured) in
  exists e,
    last (exchanges run) = Some e /\
    finalizing e = true /\
    ChatCompletionCreateParams.tools (params e) = None.
Proof.
  cbn zeta.
  destruct (mcpInference_returns_before_cap JsonText.parse JsonText.stringify
              unit Sample.executor Sample.heap (Sample.request (Some Sample.schema))
              Sample.session (Sample.scripted [Sample.hello] Sample.structured)
              (JStr (Sample.json_text "{'answer':42}")))
    as (e & message & Hlast & _ & _ & _ & Hdeclared).
  - vm_compute. reflexivity.
  - vm_compute. lia.
  - destruct (Hdeclared Sample.schema eq_refl) as (Hfinalizing & _ & Htools).
    exists e. repeat split; assumption.
Defined.

(** X20 at work: four passes with tools, then an answer on the fifth. *)
Lemma mcpInference_cap_before_finalizing_witness :
  let run :=
    mcpInference JsonText.parse JsonText.stringify unit Sample.executor
      Sample.heap (Sample.request (Some Sample.schema)) Sample.session
      (Sample.scripted [Sample.calling; Sample.calling; Sample.calling; Sample.calling]
         Sample.hello) in
  length (exchanges run) = 5%nat /\ outcome run = Ok (JStr (lit "Hello")).
Proof.
  cbn zeta.
  destruct (exchanges
              (mcpInference JsonText.parse JsonText.stringify unit Sample.executor
                 Sample.heap (Sample.request (Some Sample.schema)) Sample.session
                 (Sample.scripted
                    [Sample.calling; Sample.calling; Sample.calling; Sample.calling]
                    Sample.hello)) !! 4%nat)
    as [e|] eqn:H4; [|vm_compute in H4; discriminate H4].
  destruct (mcpInference_cap_before_finalizing JsonText.parse JsonText.stringify
              unit Sample.executor Sample.heap (Sample.request (Some Sample.schema))
              Sample.session
              (Sample.scripted
                 [Sample.calling; Sample.calling; Sample.calling; Sample.calling]
                 Sample.hello) e
              (JObj [(lit "content", JStr (lit "Hello"))]) Sample.schema H4)
    as (Hlength & Hout & _).
  - vm_compute in H4. injection H4 as <-. vm_compute. reflexivity.
  - reflexivity.
  - vm_compute. reflexivity.
  - reflexivity.
  - vm_compute in H4. injection H4 as <-. reflexivity.
  - split; assumption.
Defined.

(** X21 at work: five passes that each ask for a tool. *)
Lemma mcpInference_cap_after_tools_witness :
  let run :=
    mcpInference JsonText.parse JsonText.stringify unit Sample.executor
      Sample.heap (Sample.request (Some Sample.schema)) Sample.session
      (Sample.always Sample.calling) in
  length (exchanges run) = 5%nat /\ outcome run = Ok (JStr (lit "Looking it up")).
Proof.
  cbn zeta.
  destruct (exchanges
              (mcpInference JsonText.parse JsonText.stringify unit Sample.executor
                 Sample.heap (Sample.request (Some Sample.schema)) Sample.session
                 (Sample.always Sample.calling)) !! 4%nat)
    as [e|] eqn:H4; [|vm_compute in H4; discriminate H4].
  destruct (pass_message JsonText.parse JsonText.stringify e)
    as [message|] eqn:Hmessage;
    [|vm_compute in H4; injection H4 as <-; vm_compute in Hmessage;
      discriminate Hmessage].
  destruct (Sample.executor tt maxIterations (get_opt message P_tool_calls))
    as [toolResults|error] eqn:Hresults.
  2: { vm_compute in H4. injection H4 as <-. vm_compute in Hmessage.
       injection Hmessage as <-. vm_compute in Hresults. discriminate Hresults. }
  destruct (mcpInference_cap_after_tools JsonText.parse JsonText.stringify
              unit Sample.executor Sample.heap (Sample.request (Some Sample.schema))
              Sample.session (Sample.always Sample.calling) e message toolResults
              H4 Hmessage)
    as (Hlength & Hout & _).
  - vm_compute in H4. injection H4 as <-. vm_compute in Hmessage.
    injection Hmessage as <-. reflexivity.
  - vm_compute in H4. injection H4 as <-. vm_compute in Hmessage.
    injection Hmessage as <-. vm_compute. reflexivity.
  - vm_compute in H4. injection H4 as <-. vm_compute in Hmessage.
    injection Hmessage as <-. reflexivity.
  - exact Hresults.
  - vm_compute in H4. injection H4 as <-. vm_compute in Hmessage.
    injection Hmessage as <-. vm_compute in Hresults. injection Hresults as <-.
    repeat constructor; discriminate.
  - split; [exact Hlength|]. rewrite Hout.
    vm_compute in H4. injection H4 as <-. vm_compute in Hmessage.
    injection Hmessage as <-. vm_compute. reflexivity.
Defined.

(** X22 at work: a completion without choices. *)
Lemma empty_choices_list_yields_null_witness :
  simpleInference JsonText.parse JsonText.stringify Sample.heap (Sample.request None)
    (fun _ => Resolves Sample.empty_choices) = Ok JNull.
Proof.
  apply (proj1 (empty_choices_list_yields_null JsonText.parse JsonText.stringify
                  unit Sample.executor Sample.heap (Sample.request None)
                  (fun _ => Resolves Sample.empty_choices) Sample.session
                  (Sample.always Sample.empty_choices) Sample.empty_choices
                  [(lit "choices", JArr [])]
                  ltac:(vm_compute; reflexivity) ltac:(vm_compute; reflexivity)));
    reflexivity.
Defined.

(** X23 at work: a completion whose [choices] is [null]. *)
Lemma null_choices_raise_TypeError_witness :
  exists reason,
    simpleInference JsonText.parse JsonText.stringify Sample.heap (Sample.request None)
      (fun _ => Resolves Sample.null_choices) = Throws (TypeError reason).
Proof.
  apply (proj1 (proj2 (null_choices_raise_TypeError JsonText.parse JsonText.stringify
                         unit Sample.executor Sample.heap (Sample.request None)
                         (fun _ => Resolves Sample.null_choices) Sample.session
                         (Sample.always Sample.null_choices) Sample.null_choices
                         [(lit "choices", JNull)]
                         ltac:(vm_compute; reflexivity) ltac:(vm_compute; reflexivity)))).
  reflexivity.
Defined.


(** X28 at work: a content that is an object with a [toString] that is not
    a function. *)
Lemma mcpInference_unprintable_content_ends_run_witness :
  let run :=
    mcpInference JsonText.parse JsonText.stringify unit Sample.executor
      Sample.heap (Sample.request None) Sample.session
      (Sample.always Sample.unprintable) in
  length (exchanges run) = 1%nat /\
  (exists reason, outcome run = Throws (TypeError reason)) /\
  history run = Sample.heap !!! 7%nat.
Proof.
  cbn zeta.
  destruct (exchanges
              (mcpInference JsonText.parse JsonText.stringify unit Sample.executor
                 Sample.heap (Sample.request None) Sample.session
                 (Sample.always Sample.unprintable)) !! 0%nat)
    as [e|] eqn:H0; [|vm_compute in H0; discriminate H0].
  destruct (mcpInference_unprintable_content_ends_run JsonText.parse
              JsonText.stringify unit Sample.executor Sample.heap
              (Sample.request None) Sample.session (Sample.always Sample.unprintable)
              0%nat e (JObj [(lit "content", JObj [(lit "toString",
                                                    JNum (number_of_nat 1))])]) H0)
    as (Hlength & Hout & Hhistory).
  - vm_compute in H0. injection H0 as <-. vm_compute. reflexivity.
  - reflexivity.
  - split; [exact Hlength|]. split; [exact Hout|]. rewrite Hhistory.
    vm_compute in H0. injection H0 as <-. vm_compute. reflexivity.
Defined.

(** X29 at work: tool calls that are an object whose [length] is an object
    with a [toString] that is not a function. *)
Lemma mcpInference_unprintable_tool_count_ends_run_witness :
  let run :=
    mcpInference JsonText.parse JsonText.stringify unit Sample.executor
      Sample.heap (Sample.request None) Sample.session
      (Sample.always Sample.miscounted) in
  length (exchanges run) = 1%nat /\
  exists reason, outcome run = Throws (TypeError reason).
Proof.
  cbn zeta.
  destruct (exchanges
              (mcpInference JsonText.parse JsonText.stringify unit Sample.executor
                 Sample.heap (Sample.request None) Sample.session
                 (Sample.always Sample.miscounted)) !! 0%nat)
    as [e|] eqn:H0; [|vm_compute in H0; discriminate H0].
  destruct (pass_message JsonText.parse JsonText.stringify e)
    as [message|] eqn:Hmessage;
    [|vm_compute in H0; injection H0 as <-; vm_compute in Hmessage;
      discriminate Hmessage].
  destruct (mcpInference_unprintable_tool_count_ends_run JsonText.parse
              JsonText.stringify unit Sample.executor Sample.heap
              (Sample.request None) Sample.session (Sample.always Sample.miscounted)
              0%nat e message H0 Hmessage)
    as (Hlength & Hout & _).
  - vm_compute in H0. injection H0 as <-. vm_compute in Hmessage.
    injection Hmessage as <-. reflexivity.
  - vm_compute in H0. injection H0 as <-. vm_compute in Hmessage.
    injection Hmessage as <-. vm_compute. reflexivity.
  - vm_compute in H0. injection H0 as <-. vm_compute in Hmessage.
    injection Hmessage as <-. reflexivity.
  - split; assumption.
Defined.
